(** * ModelsEvalSystem: the dashboard client [static/js/app.js]

    A shallow embedding of the browser script that drives the evaluation
    backend, and the properties of it that the specification states.

    Layout:
    - [JsVal], [Completion]: the JavaScript values the script handles (the
      JSON bodies of responses) and the outcome of evaluating an expression;
    - [Host]: the built-ins of the engine and of the browser whose result is
      text in a format this development does not fix ([JSON.parse],
      [toFixed], locale formatting, ...);
    - [Page], [Script], [M]: the document the script reads, the state it
      owns, the effects it has, and the monad its functions run in;
    - modules [utils], [dashboard], [models], [evaluation], [records],
      [monitoring]: the functions of the objects of the same names;
    - [RecordStore]: the promotion operation of the backend's record store;
    - the properties. *)

From Stdlib Require Import Floats Uint63 ZArith Ascii.
From stdpp Require Import base strings list gmap pretty.

Local Open Scope string_scope.
Local Open Scope list_scope.
Set Warnings "-register-all".

(** ** JavaScript values *)

(** The values that reach the script: JSON bodies, and [undefined] as the
    result of reading a property that is not there.  An object lists its own
    properties in the order [Object.values] enumerates them; every key occurs
    once (as after [JSON.parse], where a repeated key keeps its last value). *)
Inductive JsVal : Type :=
  | JUndefined
  | JNull
  | JBool (b : bool)
  | JNum (x : float)
  | JStr (s : string)
  | JArr (items : list JsVal)
  | JObj (fields : list (string * JsVal)).

(** An error object: its [name] and its [message].  The message of an error
    the engine raises itself is engine text; the script never reads it. *)
Record JsError : Type := mkJsError { err_name : string; err_message : string }.

Definition TypeError (why : string) : JsError := mkJsError "TypeError" why.
(** [new Error(message)] *)
Definition Error (message : string) : JsError := mkJsError "Error" message.

(** The outcome of evaluating an expression or running a statement. *)
Inductive Completion (A : Type) : Type :=
  | Normal (a : A)
  | Throw (e : JsError).
Arguments Normal {A} a.
Arguments Throw {A} e.

Definition cbind {A B} (c : Completion A) (k : A -> Completion B) : Completion B :=
  match c with
  | Normal a => k a
  | Throw e => Throw e
  end.

#[global] Instance Completion_ret : MRet Completion := @Normal.
#[global] Instance Completion_bind : MBind Completion := fun A B k c => cbind c k.

(** Built-ins whose result is text (or a number read from text) in a format
    that is the engine's or the locale's. *)
Class Host : Type := {
  (** [JSON.parse(text)]; [None] when it throws a SyntaxError. *)
  JSON_parse : string -> option JsVal;
  (** [JSON.stringify(value)] of an object literal. *)
  JSON_stringify : JsVal -> string;
  (** [text.trim()] *)
  String_trim : string -> string;
  (** The decimal text of a finite number that is not an integer of
      magnitude at most 2^53 (so: a fraction, an integer whose shortest
      digits are padded with zeros, or an exponent form). *)
  Number_toString_other : float -> string;
  (** [x.toFixed(digits)] *)
  Number_toFixed : float -> nat -> string;
  (** The number a string converts to ([Number(text)]). *)
  StringToNumber : string -> float;
  (** [parseInt(digits)] of a non-empty run of decimal digits. *)
  parseInt : string -> float;
  (** [x.toLocaleString()] of a value other than [null] and [undefined]. *)
  toLocaleString : JsVal -> Completion string;
  (** [new Date(v).toLocaleString('zh-CN')] of a primitive value [v]. *)
  Date_toLocaleString : JsVal -> string;
  (** The text of [Object.prototype[key]] in a template, for a [key] that
      [Object.prototype] defines ([constructor], [toString], ...); [None] for
      every other key. *)
  Object_prototype_text : string -> option string;
}.

(** *** Text *)

(** The double quote, for the HTML the templates produce. *)
Definition dq : string := String (Ascii.ascii_of_nat 34) EmptyString.

(** Strings hold the UTF-8 form of the script's UTF-16 strings.  A byte below
    0x80 or a lead byte of a two- or three-byte sequence starts a character of
    one UTF-16 unit, a lead byte of a four-byte sequence one of two units, and
    a continuation byte starts none. *)
Definition utf16_units_of_byte (b : N) : nat :=
  if (b <? 128)%N then 1
  else if (b <? 192)%N then 0
  else if (b <? 240)%N then 1
  else 2.

Fixpoint utf16_length (s : string) : nat :=
  match s with
  | EmptyString => 0
  | String c rest => utf16_units_of_byte (Ascii.N_of_ascii c) + utf16_length rest
  end.

(** The bytes of the first character of [s].  (For a character outside the
    basic plane the script's [s[0]] is half of it; the bytes of the whole
    character stand for it here.) *)
Definition utf8_width (b : N) : nat :=
  if (b <? 192)%N then 1
  else if (b <? 224)%N then 2
  else if (b <? 240)%N then 3
  else 4.

Fixpoint string_take (n : nat) (s : string) : string :=
  match n, s with
  | S n', String c rest => String c (string_take n' rest)
  | _, _ => EmptyString
  end.

Definition first_char (s : string) : option string :=
  match s with
  | EmptyString => None
  | String c _ => Some (string_take (utf8_width (Ascii.N_of_ascii c)) s)
  end.

Fixpoint join (sep : string) (parts : list string) : string :=
  match parts with
  | [] => ""
  | [x] => x
  | x :: rest => x +:+ sep +:+ join sep rest
  end.

(** *** Numbers *)

Definition float_of_nat (n : nat) : float :=
  PrimFloat.of_uint63 (Uint63.of_Z (Z.of_nat n)).

(** The integer a float is, when it is one. *)
Definition float_to_Z (x : float) : option Z :=
  match Prim2SF x with
  | S754_zero _ => Some 0%Z
  | S754_finite neg m e =>
      let mag :=
        if (0 <=? e)%Z then Some (Z.pos m * 2 ^ e)%Z
        else if (Z.pos m mod 2 ^ (- e) =? 0)%Z then Some (Z.pos m / 2 ^ (- e))%Z
        else None in
      (fun v => if neg then (- v)%Z else v) <$> mag
  | _ => None
  end.

(** [Number::toString]: an integer of magnitude at most 2^53 prints as its
    decimal digits (no shorter digit string denotes the same number, and the
    exponent form starts at 10^21), zero of either sign as 0. *)
Definition Number_toString `{Host} (x : float) : string :=
  if PrimFloat.is_nan x then "NaN"
  else if PrimFloat.is_infinity x then
    (if PrimFloat.ltb x PrimFloat.zero then "-Infinity" else "Infinity")
  else
    match float_to_Z x with
    | Some z => if (Z.abs z <=? 2 ^ 53)%Z then pretty z else Number_toString_other x
    | None => Number_toString_other x
    end.

(** *** Conversions *)

Definition ToBoolean (v : JsVal) : bool :=
  match v with
  | JUndefined | JNull => false
  | JBool b => b
  | JNum x => negb (PrimFloat.is_zero x || PrimFloat.is_nan x)
  | JStr s => negb (String.eqb s "")
  | JArr _ | JObj _ => true
  end.

Definition is_nullish (v : JsVal) : bool :=
  match v with
  | JUndefined | JNull => true
  | _ => false
  end.

(** [a || b] *)
Definition or_else (a b : JsVal) : JsVal := if ToBoolean a then a else b.

Fixpoint assoc (key : string) (fields : list (string * JsVal)) : option JsVal :=
  match fields with
  | [] => None
  | (k, v) :: rest => if String.eqb k key then Some v else assoc key rest
  end.


Fixpoint sequence {A} (cs : list (Completion A)) : Completion (list A) :=
  match cs with
  | [] => Normal []
  | c :: rest =>
      match c with
      | Normal a =>
          match sequence rest with
          | Normal l => Normal (a :: l)
          | Throw e => Throw e
          end
      | Throw e => Throw e
      end
  end.

Section Conversions.
Context `{Host}.

(** [ToString], as a template literal applies it.  An array joins its
    elements with commas ([null] and [undefined] as the empty text); an
    object prints through [Object.prototype.toString] unless it has a
    property [toString] of its own, which in JSON data is not a function:
    then neither it nor [valueOf] yields a primitive and a TypeError is
    thrown. *)
Fixpoint ToString (v : JsVal) : Completion string :=
  match v with
  | JUndefined => Normal "undefined"
  | JNull => Normal "null"
  | JBool true => Normal "true"
  | JBool false => Normal "false"
  | JNum x => Normal (Number_toString x)
  | JStr s => Normal s
  | JArr items =>
      match sequence (map (fun item =>
               if is_nullish item then Normal "" else ToString item) items) with
      | Normal parts => Normal (join "," parts)
      | Throw e => Throw e
      end
  | JObj fields =>
      if bool_decide (is_Some (assoc "toString" fields))
      then Throw (TypeError "Cannot convert object to primitive value")
      else Normal "[object Object]"
  end.

(** [ToPrimitive]: on JSON data both hints give the same result, the text
    of an array or object. *)
Definition ToPrimitive (v : JsVal) : Completion JsVal :=
  match v with
  | JArr _ | JObj _ =>
      match ToString v with
      | Normal s => Normal (JStr s)
      | Throw e => Throw e
      end
  | _ => Normal v
  end.

Definition ToNumber (v : JsVal) : Completion float :=
  match ToPrimitive v with
  | Normal JUndefined => Normal PrimFloat.nan
  | Normal JNull => Normal PrimFloat.zero
  | Normal (JBool b) => Normal (if b then PrimFloat.one else PrimFloat.zero)
  | Normal (JNum x) => Normal x
  | Normal (JStr s) => Normal (StringToNumber s)
  | Normal _ => Normal PrimFloat.nan
  | Throw e => Throw e
  end.

(** [v < k] for a number [k]. *)
Definition less_than (v : JsVal) (k : float) : Completion bool :=
  match ToNumber v with
  | Normal x => Normal (PrimFloat.ltb x k)
  | Throw e => Throw e
  end.

(** [v / k] for a number [k]. *)
Definition divided_by (v : JsVal) (k : float) : Completion float :=
  match ToNumber v with
  | Normal x => Normal (PrimFloat.div x k)
  | Throw e => Throw e
  end.

(** [v.toFixed(digits)]: only a number has the method. *)
Definition call_toFixed (v : JsVal) (digits : nat) : Completion string :=
  match v with
  | JNum x => Normal (Number_toFixed x digits)
  | JUndefined | JNull => Throw (TypeError "Cannot read properties of null or undefined")
  | _ => Throw (TypeError "toFixed is not a function")
  end.
End Conversions.

(** *** Property access *)

(** [v.key], for the property names the script reads: [length], and names
    that no prototype defines, so that anything but an own property of an
    object reads as [undefined]. *)
Definition get (v : JsVal) (key : string) : Completion JsVal :=
  match v with
  | JUndefined | JNull => Throw (TypeError "Cannot read properties of null or undefined")
  | JObj fields => Normal (default JUndefined (assoc key fields))
  | JArr items =>
      Normal (if String.eqb key "length" then JNum (float_of_nat (length items)) else JUndefined)
  | JStr s =>
      Normal (if String.eqb key "length" then JNum (float_of_nat (utf16_length s)) else JUndefined)
  | JBool _ | JNum _ => Normal JUndefined
  end.

(** [v?.key] *)
Definition get_opt (v : JsVal) (key : string) : JsVal :=
  match get v key with
  | Normal r => r
  | Throw _ => JUndefined
  end.

(** [v?.[0]] *)
Definition first_opt (v : JsVal) : JsVal :=
  match v with
  | JArr items => default JUndefined (head items)
  | JStr s => default JUndefined (JStr <$> first_char s)
  | JObj fields => default JUndefined (assoc "0" fields)
  | _ => JUndefined
  end.

(** [v === text] *)
Definition strict_eq_string (v : JsVal) (text : string) : bool :=
  match v with
  | JStr s => String.eqb s text
  | _ => false
  end.

(** ** The page, the state of the script, and its effects *)

(** An element the script finds by its id: the [value] of a form control, and
    for a form the entries [new FormData(form)] collects (name and value; the
    page has no file inputs).  The markup of the page is not among the
    sources: an id that is in the document names an element of the kind the
    script takes it for, and an id may be missing. *)
Record Element : Type := mkElement {
  el_value : string;
  el_entries : list (string * string);
}.

(** The second argument of [utils.apiRequest]; no caller passes headers. *)
Record Options : Type := mkOptions {
  opt_method : option string;
  opt_body : option string;
}.

Definition no_options : Options := mkOptions None None.

(** A call of [fetch]. *)
Record Request : Type := mkRequest {
  req_url : string;
  req_method : option string;
  req_headers : list (string * string);
  req_body : option string;
}.

(** How a [fetch] settles: it rejects, or it resolves to a response whose
    [json()] resolves to a value or rejects. *)
Inductive FetchResult : Type :=
  | Rejected (e : JsError)
  | Responded (status : nat) (statusText : string) (json : JsVal + JsError).

(** [response.ok] *)
Definition response_ok (status : nat) : bool := (200 <=? status)%nat && (status <=? 299)%nat.

(** The async functions the script calls without awaiting them: each runs as
    a task of its own. *)
Inductive AsyncCall : Type :=
  | Call_loadTaskProgress
  | Call_loadRecords
  | Call_loadGPUStatus
  | Call_loadSystemInfo.

(** The callbacks handed to [setInterval]. *)
Inductive Timer : Type :=
  | ProgressPolling
  | AutoRefresh.

Inductive Effect : Type :=
  (** a notification appended to [#notifications], removed after [duration] ms *)
  | Notify (message type : string) (duration : N)
  (** [element.style.display = value] *)
  | Display (id value : string)
  (** [element.textContent = text] *)
  | SetText (id text : string)
  (** [element.innerHTML = html] *)
  | SetHtml (target html : string)
  (** click handlers bound to the model cards just rendered *)
  | BindModelCards
  | Fetch (r : Request)
  | ConsoleLog (label : string)
  | ConsoleError (label : string)
  (** [prompt(message)] *)
  | Prompt (message : string)
  (** [form.reset()] *)
  | FormReset (id : string)
  | Spawn (f : AsyncCall)
  | SetInterval (callback : Timer) (ms : N)
  (** [chart.update('none')] *)
  | ChartUpdate.

(** The line chart of [monitoring.initChart]: the two arrays of its data. *)
Record Chart : Type := mkChart {
  chart_labels : list string;
  chart_data : list JsVal;
}.

(** What the script reads and does not own: the document, the user, the
    clock and the server.  The server answers a request knowing the requests
    made before it. *)
Record Page : Type := mkPage {
  by_id : gmap string Element;
  (** the values of [#batch-models input[type="checkbox"]:checked] *)
  batch_models_checked : list string;
  (** whether [#records-table tbody] matches *)
  records_tbody : bool;
  (** [#gpu-status .gpu-info], and the text of its [p:nth-child(2)] *)
  gpu_info : option (option string);
  (** what [prompt] returns: the text, or [null] on cancel *)
  prompt_reply : option string;
  (** [new Date().toLocaleTimeString()] *)
  time_now : string;
  server : list Request -> Request -> FetchResult;
}.

(** What the script owns: [models.selectedModel], [monitoring.gpuChart], and
    the effects it has had so far, oldest first. *)
Record Script : Type := mkScript {
  models_selectedModel : option string;
  monitoring_gpuChart : option Chart;
  trace : list Effect;
}.

Definition initial : Script := mkScript None None [].

Definition add_effect (e : Effect) (s : Script) : Script :=
  mkScript (models_selectedModel s) (monitoring_gpuChart s) (trace s ++ [e]).

Definition set_gpuChart (c : option Chart) (s : Script) : Script :=
  mkScript (models_selectedModel s) c (trace s).

Fixpoint requests (t : list Effect) : list Request :=
  match t with
  | [] => []
  | Fetch r :: rest => r :: requests rest
  | _ :: rest => requests rest
  end.

(** *** The monad of the script's functions *)

(** A function of the script reads the page, changes the state of the script
    and ends normally or by a throw.  An [await] is sequencing: the run of a
    function goes from its call to its end on one page, and what other tasks
    do while it waits is not part of it. *)

Definition M (A : Type) : Type := Page -> Script -> Completion A * Script.

#[global] Instance M_ret : MRet M := fun A a _ s => (Normal a, s).
#[global] Instance M_bind : MBind M := fun A B k m p s =>
  match m p s with
  | (Normal a, s') => k a p s'
  | (Throw e, s') => (Throw e, s')
  end.

Definition throw {A} (e : JsError) : M A := fun _ s => (Throw e, s).

Definition lift {A} (c : Completion A) : M A := fun _ s => (c, s).

Definition emit (e : Effect) : M unit := fun _ s => (Normal tt, add_effect e s).

Definition ask : M Page := fun p s => (Normal p, s).

Definition get_script : M Script := fun _ s => (Normal s, s).

(** [this.gpuChart = chart], and the mutation of its arrays. *)
Definition put_gpuChart (c : option Chart) : M unit := fun _ s =>
  (Normal tt, set_gpuChart c s).

(** [try { body } catch (error) { handler error }] *)
Definition try_catch {A} (body : M A) (handler : JsError -> M A) : M A := fun p s =>
  match body p s with
  | (Normal a, s') => (Normal a, s')
  | (Throw e, s') => handler e p s'
  end.

(** [try { body } finally { final }]: a throw of [final] replaces the outcome
    of [body]. *)
Definition try_finally {A} (body : M A) (final : M unit) : M A := fun p s =>
  match body p s with
  | (outcome, s') =>
      match final p s' with
      | (Normal _, s'') => (outcome, s'')
      | (Throw e, s'') => (Throw e, s'')
      end
  end.

(** [document.getElementById(id)]; [None] is [null]. *)
Definition getElementById (id : string) : M (option Element) :=
  p ← ask; mret (by_id p !! id).

(** The use of an element that must be there: reading or writing a property of
    [null] throws. *)
Definition deref {A} (x : option A) : M A :=
  match x with
  | Some a => mret a
  | None => throw (TypeError "Cannot read properties of null")
  end.

(** [fetch(request)]: the call is made now; what it settles to is read when
    it is awaited. *)
Definition fetch (r : Request) : M FetchResult := fun p s =>
  (Normal (server p (requests (trace s)) r), add_effect (Fetch r) s).

(** The effects of running [m], and its outcome. *)
Definition run {A} (m : M A) (p : Page) (s : Script) : Script := snd (m p s).
Definition outcome {A} (m : M A) (p : Page) (s : Script) : Completion A := fst (m p s).

(** ** The script *)

Definition API_BASE : string := "http://localhost:9000".

Module utils.
Section utils.
Context `{Host}.

Definition showNotification (message type : string) (duration : N) : M unit :=
  notifications ← getElementById "notifications";
  (* notifications.appendChild(notification) *)
  _ ← deref notifications;
  emit (Notify message type duration).

Definition showLoading (show : bool) : M unit :=
  loading ← getElementById "loading";
  _ ← deref loading;
  if show then emit (Display "loading" "flex") else emit (Display "loading" "none").

Definition formatDate (dateString : JsVal) : Completion string :=
  if negb (ToBoolean dateString) then Normal "-"
  else
    date ← ToPrimitive dateString;
    Normal (Date_toLocaleString date).

Definition formatExecutionTime (seconds : JsVal) : Completion string :=
  if negb (ToBoolean seconds) then Normal "-"
  else
    under_minute ← less_than seconds 60%float;
    if under_minute : bool then
      text ← call_toFixed seconds 1;
      Normal (text +:+ "秒")
    else
      under_hour ← less_than seconds 3600%float;
      if under_hour : bool then
        minutes ← divided_by seconds 60%float;
        Normal (Number_toFixed minutes 1 +:+ "分钟")
      else
        hours ← divided_by seconds 3600%float;
        Normal (Number_toFixed hours 1 +:+ "小时").

Definition formatMemory (mb : JsVal) : Completion string :=
  if negb (ToBoolean mb) then Normal "-"
  else
    under_gb ← less_than mb 1024%float;
    if under_gb : bool then
      text ← call_toFixed mb 1;
      Normal (text +:+ " MB")
    else
      gb ← divided_by mb 1024%float;
      Normal (Number_toFixed gb 1 +:+ " GB").

(** The first part of [apiRequest], up to its first [await]: the log line
    and the call of [fetch]. *)
Definition apiRequest_call (url : string) (options : Options) : M FetchResult :=
  emit (ConsoleLog url);;
  fetch (mkRequest (API_BASE +:+ url) (opt_method options)
           [("Content-Type", "application/json")] (opt_body options)).

(** The rest of [apiRequest], once the fetch has settled. *)
Definition apiRequest_settle (settled : FetchResult) : M JsVal :=
  try_catch
    (match settled with
     | Rejected e => throw e
     | Responded status statusText json =>
         if negb (response_ok status)
         then throw (Error ("HTTP " +:+ pretty status +:+ ": " +:+ statusText))
         else match json with
              | inl data => mret data
              | inr e => throw e
              end
     end)
    (fun error =>
       emit (ConsoleError "API请求失败:");;
       showNotification ("请求失败: " +:+ err_message error) "error" 3000%N;;
       throw error).

Definition apiRequest (url : string) (options : Options) : M JsVal :=
  settled ← apiRequest_call url options;
  apiRequest_settle settled.

Definition showModal (title content : string) : M unit :=
  heading ← getElementById "modal-title";
  _ ← deref heading;
  emit (SetText "modal-title" title);;
  body ← getElementById "modal-body";
  _ ← deref body;
  emit (SetHtml "modal-body" content);;
  modal ← getElementById "modal";
  _ ← deref modal;
  emit (Display "modal" "block").

Definition hideModal : M unit :=
  modal ← getElementById "modal";
  _ ← deref modal;
  emit (Display "modal" "none").
End utils.
End utils.


(** [document.getElementById(id).value] *)
Definition value_of (id : string) : M string :=
  element ← getElementById id;
  control ← deref element;
  mret (el_value control).

(** [new FormData(form)]: the constructor throws when handed [null]. *)
Definition new_FormData (form : option Element) : M (list (string * string)) :=
  match form with
  | Some f => mret (el_entries f)
  | None => throw (TypeError "Failed to construct 'FormData'")
  end.

(** [formData.get(name)]: the value of the first entry of that name, or
    [null]. *)
Fixpoint FormData_get (name : string) (entries : list (string * string)) : option string :=
  match entries with
  | [] => None
  | (k, v) :: rest => if String.eqb k name then Some v else FormData_get name rest
  end.

(** [!text] for a string. *)
Definition is_empty (text : string) : bool := String.eqb text "".

(** [element.innerHTML = html], for the element of that id: the element is
    looked up, the text is computed, and the write throws on [null]. *)
Definition set_innerHTML (id : string) (html : Completion string) : M unit :=
  element ← getElementById id;
  text ← lift html;
  _ ← deref element;
  emit (SetHtml id text).

(** [list.map(render).join('')]: anything but an array has no [map]. *)
Definition map_join (list : JsVal) (render : JsVal -> Completion string) : Completion string :=
  match list with
  | JArr items =>
      parts ← sequence (render <$> items);
      Normal (join "" parts)
  | _ => Throw (TypeError "map is not a function")
  end.

(** [text || placeholder] for a string. *)
Definition or_text (text placeholder : string) : string :=
  if is_empty text then placeholder else text.

Module evaluation.
Section evaluation.
Context `{Host}.

(** The body the single submission posts. *)
Definition single_body (modelPath datasetName : string) (config : JsVal) : string :=
  JSON_stringify (JObj [("model_path", JStr modelPath);
                        ("dataset_name", JStr datasetName);
                        ("config", config)]).

(** The body the batch submission posts. *)
Definition batch_body (selectedModels : list string) (datasetName taskName : string)
    (parallel : bool) : string :=
  JSON_stringify (JObj [("model_paths", JArr (JStr <$> selectedModels));
                        ("dataset_name", JStr datasetName);
                        ("task_name", JStr taskName);
                        ("parallel", JBool parallel)]).

(** [let config = null; if (configText) { config = JSON.parse(configText) }]:
    [None] when the parse throws. *)
Definition parse_config (configText : string) : option JsVal :=
  if is_empty configText then Some JNull else JSON_parse configText.

Definition submitSingleEvaluation : M unit :=
  form ← getElementById "single-evaluation-form";
  formData ← new_FormData form;
  modelPath ← match FormData_get "model-select" formData with
               | Some chosen => if is_empty chosen then value_of "model-select" else mret chosen
               | None => value_of "model-select"
               end;
  datasetName ← value_of "dataset-input";
  raw ← value_of "config-json";
  let configText := String_trim raw in
  if is_empty modelPath || is_empty datasetName then
    utils.showNotification "请填写模型和数据集" "warning" 3000%N
  else
    match parse_config configText with
    | None => utils.showNotification "配置参数JSON格式错误" "error" 3000%N
    | Some config =>
        try_finally
          (try_catch
             (utils.showLoading true;;
              response ← utils.apiRequest "/api/evaluation/single"
                (mkOptions (Some "POST") (Some (single_body modelPath datasetName config)));
              success ← lift (get response "success");
              if ToBoolean success then
                utils.showNotification "单模型测评任务已创建" "success" 3000%N;;
                emit (FormReset "single-evaluation-form");;
                emit (Spawn Call_loadTaskProgress)
              else
                detail ← lift (get response "detail");
                text ← lift (ToString detail);
                utils.showNotification ("创建测评任务失败: " +:+ text) "error" 3000%N)
             (fun error => emit (ConsoleError "提交单模型测评失败:")))
          (utils.showLoading false)
    end.

Definition submitBatchEvaluation : M unit :=
  form ← getElementById "batch-evaluation-form";
  _ ← new_FormData form;
  page ← ask;
  let selectedModels := batch_models_checked page in
  datasetName ← value_of "batch-dataset-input";
  taskName ← value_of "task-name";
  mode ← value_of "parallel-execution";
  let parallel := String.eqb mode "true" in
  if (length selectedModels =? 0)%nat then
    utils.showNotification "请选择至少一个模型" "warning" 3000%N
  else if is_empty datasetName then
    utils.showNotification "请填写数据集名称" "warning" 3000%N
  else
    try_finally
      (try_catch
         (utils.showLoading true;;
          response ← utils.apiRequest "/api/evaluation/batch"
            (mkOptions (Some "POST")
               (Some (batch_body selectedModels datasetName taskName parallel)));
          success ← lift (get response "success");
          if ToBoolean success then
            utils.showNotification "批量测评任务已创建" "success" 3000%N;;
            emit (FormReset "batch-evaluation-form");;
            emit (Spawn Call_loadTaskProgress)
          else
            detail ← lift (get response "detail");
            text ← lift (ToString detail);
            utils.showNotification ("创建批量测评失败: " +:+ text) "error" 3000%N)
         (fun error => emit (ConsoleError "提交批量测评失败:")))
      (utils.showLoading false).

Definition startProgressPolling : M unit :=
  emit (SetInterval ProgressPolling 5000%N).

(** The callback of [startProgressPolling]. *)
Definition progressPolling_tick : M unit :=
  found ← getElementById "task-progress";
  match found with
  | Some _ => emit (Spawn Call_loadTaskProgress)
  | None => mret tt
  end.

(** The entry of one task. *)
Definition task_item (task : JsVal) : Completion string :=
  task_name ← get task "task_name";
  name_text ← ToString (or_else task_name (JStr "未命名任务"));
  model_count ← get task "model_count";
  count_text ← ToString model_count;
  status ← get task "status";
  status_text ← ToString status;
  created_at ← get task "created_at";
  created_text ← utils.formatDate created_at;
  progress ← get task "progress";
  progress_text ← ToString (or_else progress (JNum 0%float));
  Normal ("
                <div class=" +:+ dq +:+ "progress-item" +:+ dq +:+ ">
                    <div class=" +:+ dq +:+ "progress-title" +:+ dq +:+ ">" +:+ name_text +:+ "</div>
                    <div class=" +:+ dq +:+ "progress-meta" +:+ dq +:+ ">
                        模型: " +:+ count_text +:+ " | 状态: " +:+ status_text +:+ " | 
                        创建时间: " +:+ created_text +:+ "
                    </div>
                    <div class=" +:+ dq +:+ "progress-bar" +:+ dq +:+ ">
                        <div class=" +:+ dq +:+ "progress-fill" +:+ dq +:+ " style=" +:+ dq +:+ "width: " +:+ progress_text +:+ "%" +:+ dq +:+ "></div>
                    </div>
                </div>
            ").

Definition no_tasks : string := "<p>暂无测评任务</p>".

Definition loadTaskProgress : M unit :=
  try_catch
    (response ← utils.apiRequest "/api/evaluation/tasks" no_options;
     data ← lift (get response "data");
     let tasks := or_else data (JArr []) in
     set_innerHTML "task-progress"
       (html ← map_join tasks task_item; Normal (or_text html no_tasks)))
    (fun error => emit (ConsoleError "加载任务进度失败:")).
End evaluation.
End evaluation.

(** Run [m] and hand its outcome to the caller: how a promise that settled is
    looked at without throwing. *)
Definition attempt {A} (m : M A) : M (Completion A) := fun p s =>
  match m p s with
  | (c, s') => (Normal c, s')
  end.

(** [element.textContent = value], for the element of that id.  The value is
    computed, then the element is written to ([null] throws), and the setter
    turns the value into text ([null] and [undefined] into the empty text). *)
Definition set_textContent `{Host} (id : string) (value : Completion JsVal) : M unit :=
  element ← getElementById id;
  v ← lift value;
  _ ← deref element;
  text ← lift (if is_nullish v then Normal "" else ToString v);
  emit (SetText id text).

Module dashboard.
Section dashboard.
Context `{Host}.

(** [response.data?.length || 0] *)
Definition count_of (response : JsVal) : Completion JsVal :=
  data ← get response "data";
  Normal (or_else (get_opt data "length") (JNum 0%float)).

(** [gpu.data?.gpus?.[0]?.utilization_gpu || 0] *)
Definition gpuUsage_of (gpu : JsVal) : Completion JsVal :=
  data ← get gpu "data";
  Normal (or_else (get_opt (first_opt (get_opt data "gpus")) "utilization_gpu")
            (JNum 0%float)).

(** The four requests of [Promise.all] are called in the order of the array;
    they are taken to settle in that order too, and the first that fails is
    what the [await] throws. *)
Definition loadStats : M unit :=
  try_catch
    (f1 ← utils.apiRequest_call "/api/models" no_options;
     f2 ← utils.apiRequest_call "/api/datasets" no_options;
     f3 ← utils.apiRequest_call "/api/records?limit=100" no_options;
     f4 ← utils.apiRequest_call "/api/monitoring/gpu/status" no_options;
     r1 ← attempt (utils.apiRequest_settle f1);
     r2 ← attempt (utils.apiRequest_settle f2);
     r3 ← attempt (utils.apiRequest_settle f3);
     r4 ← attempt (utils.apiRequest_settle f4);
     models ← lift r1;
     datasets ← lift r2;
     records ← lift r3;
     gpu ← lift r4;
     set_textContent "total-models" (count_of models);;
     set_textContent "total-datasets" (count_of datasets);;
     set_textContent "total-evaluations" (count_of records);;
     gpuUsage ← lift (gpuUsage_of gpu);
     set_textContent "gpu-usage"
       (text ← ToString gpuUsage; Normal (JStr (text +:+ "%"))))
    (fun error => emit (ConsoleError "加载统计数据失败:")).

(** The entry of one recent record. *)
Definition activity_item (activity : JsVal) : Completion string :=
  model_name ← get activity "model_name";
  model_text ← ToString model_name;
  dataset_name ← get activity "dataset_name";
  dataset_text ← ToString dataset_name;
  score ← get activity "score";
  score_text ← ToString (or_else score (JStr "-"));
  model_type ← get activity "model_type";
  type_text ← ToString model_type;
  created_at ← get activity "created_at";
  created_text ← utils.formatDate created_at;
  Normal ("
                <div class=" +:+ dq +:+ "activity-item" +:+ dq +:+ ">
                    <div class=" +:+ dq +:+ "activity-title" +:+ dq +:+ ">" +:+ model_text +:+ " - " +:+ dataset_text +:+ "</div>
                    <div class=" +:+ dq +:+ "activity-meta" +:+ dq +:+ ">
                        分数: " +:+ score_text +:+ " | 
                        类型: " +:+ type_text +:+ " | 
                        时间: " +:+ created_text +:+ "
                    </div>
                </div>
            ").

Definition no_activities : string := "<p>暂无最近活动</p>".

Definition loadRecentActivities : M unit :=
  try_catch
    (response ← utils.apiRequest "/api/records?limit=10" no_options;
     data ← lift (get response "data");
     let activities := or_else data (JArr []) in
     set_innerHTML "recent-activities"
       (html ← map_join activities activity_item; Normal (or_text html no_activities)))
    (fun error => emit (ConsoleError "加载最近活动失败:")).
End dashboard.
End dashboard.

Module models.
Section models.
Context `{Host}.

(** [let rawData = response.data || response] *)
Definition rawData_of (response : JsVal) : Completion JsVal :=
  data ← get response "data";
  Normal (or_else data response).

(** The list the payload is turned into: an array as it is, the values of
    any other object, and nothing otherwise. *)
Definition modelsList_of (rawData : JsVal) : list JsVal :=
  match rawData with
  | JArr items => items
  | JObj fields => snd <$> fields
  | _ => []
  end.

(** [this.selectedModel === model.path]; the selection is [null] or a path. *)
Definition is_selected (selected : option string) (path : JsVal) : bool :=
  match selected, path with
  | None, JNull => true
  | Some chosen, JStr text => String.eqb chosen text
  | _, _ => false
  end.

(** The card of one model. *)
Definition model_card (selected : option string) (model : JsVal) : Completion string :=
  path ← get model "path";
  let mark := if is_selected selected path then "selected" else "" in
  data_path ← ToString (or_else path (JStr ""));
  name ← get model "name";
  name_text ← ToString (or_else name (JStr "未命名模型"));
  type ← get model "type";
  type_text ← ToString (or_else type (JStr "未知类型"));
  path_text ← ToString (or_else path (JStr "-"));
  parameters ← get model "parameters";
  count ← (if is_nullish parameters then Normal ""
            else toLocaleString parameters);
  let count_text := if is_empty count then "未知" else count in
  Normal ("
                <div class=" +:+ dq +:+ "model-card " +:+ mark +:+ dq +:+ " 
                    data-path=" +:+ dq +:+ data_path +:+ dq +:+ ">
                    <div class=" +:+ dq +:+ "model-header" +:+ dq +:+ ">
                        <div class=" +:+ dq +:+ "model-icon" +:+ dq +:+ "><i class=" +:+ dq +:+ "fas fa-robot" +:+ dq +:+ "></i></div>
                        <div class=" +:+ dq +:+ "model-info" +:+ dq +:+ ">
                            <h3>" +:+ name_text +:+ "</h3>
                            <span class=" +:+ dq +:+ "model-type" +:+ dq +:+ ">" +:+ type_text +:+ "</span>
                        </div>
                    </div>
                    <div class=" +:+ dq +:+ "model-details" +:+ dq +:+ ">
                        <p><strong>路径:</strong> " +:+ path_text +:+ "</p>
                        <p><strong>参数:</strong> " +:+ count_text +:+ "</p>
                    </div>
                </div>
            ").

Definition empty_state : string := "<p>暂无模型数据</p>".

(** [modelsList.map(card).join('') || empty_state] *)
Definition models_html (selected : option string) (modelsList : list JsVal) : Completion string :=
  cards ← sequence (model_card selected <$> modelsList);
  let html := join "" cards in
  Normal (if is_empty html then empty_state else html).

Definition loadModels : M unit :=
  try_finally
    (try_catch
       (utils.showLoading true;;
        response ← utils.apiRequest "/api/models" no_options;
        rawData ← lift (rawData_of response);
        emit (ConsoleLog "原始数据:");;
        let modelsList := modelsList_of rawData in
        emit (ConsoleLog "解析后的模型列表:");;
        container ← getElementById "models-list";
        script ← get_script;
        html ← lift (models_html (models_selectedModel script) modelsList);
        _ ← deref container;
        emit (SetHtml "models-list" html);;
        emit BindModelCards)
       (fun error =>
          emit (ConsoleError "加载模型数据失败:");;
          utils.showNotification "加载模型数据失败" "error" 3000%N))
    (utils.showLoading false).
End models.
End models.

Module datasets.
Section datasets.
Context `{Host}.

Definition statusMap : list (string * string) :=
  [("validated", "已验证"); ("error", "错误"); ("pending", "待验证")].

Fixpoint label_of (key : string) (table : list (string * string)) : option string :=
  match table with
  | [] => None
  | (k, label) :: rest => if String.eqb k key then Some label else label_of key rest
  end.

(** The text of [this.getStatusText(status)] in a template:
    [statusMap[status] || status], the key being the text of [status] and a
    key outside the table that [Object.prototype] defines finding the
    inherited member. *)
Definition getStatusText (status : JsVal) : Completion string :=
  key ← ToString status;
  match label_of key statusMap with
  | Some label => Normal label
  | None => Normal (default key (Object_prototype_text key))
  end.

(** The card of one dataset. *)
Definition dataset_card (dataset : JsVal) : Completion string :=
  status ← get dataset "status";
  status_class ← ToString status;
  name ← get dataset "name";
  name_text ← ToString name;
  status_text ← getStatusText status;
  description ← get dataset "description";
  description_text ← ToString (or_else description (JStr "无"));
  task ← get dataset "task";
  task_text ← ToString (or_else task (JStr "未知"));
  samples ← get dataset "samples";
  count ← (if is_nullish samples then Normal "" else toLocaleString samples);
  let count_text := or_text count "未知" in
  last_validated ← get dataset "last_validated";
  validated_text ← utils.formatDate last_validated;
  Normal ("
                <div class=" +:+ dq +:+ "dataset-card " +:+ status_class +:+ dq +:+ ">
                    <div class=" +:+ dq +:+ "dataset-header" +:+ dq +:+ ">
                        <div class=" +:+ dq +:+ "dataset-icon" +:+ dq +:+ ">
                            <i class=" +:+ dq +:+ "fas fa-database" +:+ dq +:+ "></i>
                        </div>
                        <div class=" +:+ dq +:+ "dataset-info" +:+ dq +:+ ">
                            <h3>" +:+ name_text +:+ "</h3>
                            <span class=" +:+ dq +:+ "dataset-status " +:+ status_class +:+ dq +:+ ">" +:+ status_text +:+ "</span>
                        </div>
                    </div>
                    <div class=" +:+ dq +:+ "dataset-details" +:+ dq +:+ ">
                        <p><strong>描述:</strong> " +:+ description_text +:+ "</p>
                        <p><strong>任务类型:</strong> " +:+ task_text +:+ "</p>
                        <p><strong>样本数量:</strong> " +:+ count_text +:+ "</p>
                        <p><strong>验证时间:</strong> " +:+ validated_text +:+ "</p>
                    </div>
                </div>
            ").

Definition no_datasets : string := "<p>暂无数据集数据</p>".

Definition loadDatasets : M unit :=
  try_catch
    (response ← utils.apiRequest "/api/datasets" no_options;
     data ← lift (get response "data");
     let datasets := or_else data (JArr []) in
     set_innerHTML "datasets-list"
       (html ← map_join datasets dataset_card; Normal (or_text html no_datasets)))
    (fun error =>
       emit (ConsoleError "加载数据集数据失败:");;
       utils.showNotification "加载数据集数据失败" "error" 3000%N).
End datasets.
End datasets.

Module records.
Section records.
Context `{Host}.

Definition statusMap : list (string * string) :=
  [("completed", "已完成"); ("running", "运行中"); ("failed", "失败"); ("pending", "等待中")].

Fixpoint label_of (key : string) (table : list (string * string)) : option string :=
  match table with
  | [] => None
  | (k, label) :: rest => if String.eqb k key then Some label else label_of key rest
  end.

(** The text of [this.getStatusText(status)] in a template:
    [statusMap[status] || status].  The key is the text of [status]; a key
    outside the table that [Object.prototype] defines finds the inherited
    member. *)
Definition getStatusText (status : JsVal) : Completion string :=
  key ← ToString status;
  match label_of key statusMap with
  | Some label => Normal label
  | None => Normal (default key (Object_prototype_text key))
  end.

(** The button that opens the record. *)
Definition view_button (id_text : string) : string :=
  "<button class=" +:+ dq +:+ "btn btn-secondary" +:+ dq +:+ " onclick=" +:+ dq
    +:+ "records.viewRecord(" +:+ id_text +:+ ")" +:+ dq +:+ ">查看</button>".

(** The button that promotes the record. *)
Definition excellent_button (id_text : string) : string :=
  "<button class=" +:+ dq +:+ "btn btn-primary" +:+ dq +:+ " onclick=" +:+ dq
    +:+ "records.addToExcellent(" +:+ id_text +:+ ")" +:+ dq +:+ ">加入优秀</button>".

(** [record.status === 'completed' ? excellent_button : ''] *)
Definition promotion (record : JsVal) : Completion string :=
  status ← get record "status";
  if strict_eq_string status "completed" then
    id ← get record "id";
    id_text ← ToString id;
    Normal (excellent_button id_text)
  else Normal "".

(** The cells of a row before its actions. *)
Definition record_cells (record : JsVal) : Completion string :=
  id ← get record "id";
  id_text ← ToString id;
  model_name ← get record "model_name";
  model_text ← ToString model_name;
  dataset_name ← get record "dataset_name";
  dataset_text ← ToString dataset_name;
  score ← get record "score";
  score_text ← ToString (or_else score (JStr "-"));
  model_type ← get record "model_type";
  type_text ← ToString model_type;
  status ← get record "status";
  status_class ← ToString status;
  status_text ← getStatusText status;
  execution_time ← get record "execution_time";
  time_text ← utils.formatExecutionTime execution_time;
  Normal ("
                <tr>
                    <td>" +:+ id_text +:+ "</td>
                    <td>" +:+ model_text +:+ "</td>
                    <td>" +:+ dataset_text +:+ "</td>
                    <td>" +:+ score_text +:+ "</td>
                    <td>" +:+ type_text +:+ "</td>
                    <td><span class=" +:+ dq +:+ "status-badge status-" +:+ status_class +:+ dq +:+ ">" +:+ status_text +:+ "</span></td>
                    <td>" +:+ time_text +:+ "</td>
                    <td>
                        ").

(** The two buttons of the last cell. *)
Definition record_actions (record : JsVal) : Completion string :=
  id ← get record "id";
  id_text ← ToString id;
  promote ← promotion record;
  Normal (view_button id_text +:+ "
                        " +:+ promote).

Definition row_end : string := "
                    </td>
                </tr>
            ".

(** The row of one record. *)
Definition record_row (record : JsVal) : Completion string :=
  cells ← record_cells record;
  actions ← record_actions record;
  Normal (cells +:+ actions +:+ row_end).

Definition no_records : string :=
  "<tr><td colspan=" +:+ dq +:+ "8" +:+ dq +:+ ">暂无测评记录</td></tr>".

(** [records.map(row).join('') || no_records], where [records] is
    [response.data || []]: anything but an array has no [map]. *)
Definition records_html (records : JsVal) : Completion string :=
  match records with
  | JArr items =>
      rows ← sequence (record_row <$> items);
      let html := join "" rows in
      Normal (if is_empty html then no_records else html)
  | _ => Throw (TypeError "records.map is not a function")
  end.

(** [loadRecords(page = 1, limit = 50)] *)
Definition loadRecords (page limit : nat) : M unit :=
  try_finally
    (try_catch
       (utils.showLoading true;;
        response ← utils.apiRequest
          ("/api/records?page=" +:+ pretty page +:+ "&limit=" +:+ pretty limit) no_options;
        data ← lift (get response "data");
        let records := or_else data (JArr []) in
        document ← ask;
        html ← lift (records_html records);
        (if records_tbody document then mret tt
         else throw (TypeError "Cannot set properties of null"));;
        emit (SetHtml "#records-table tbody" html))
       (fun error =>
          emit (ConsoleError "加载测评记录失败:");;
          utils.showNotification "加载测评记录失败" "error" 3000%N))
    (utils.showLoading false).

(** The body [addToExcellent] posts. *)
Definition excellent_body (reason : option string) : string :=
  JSON_stringify (JObj [("reason", from_option JStr JNull reason);
                        ("category", JStr "general")]).

Definition addToExcellent (recordId : JsVal) : M unit :=
  try_catch
    (emit (Prompt "请输入加入优秀记录的理由（可选）:");;
     document ← ask;
     let reason := prompt_reply document in
     id_text ← lift (ToString recordId);
     response ← utils.apiRequest ("/api/records/" +:+ id_text +:+ "/excellent")
       (mkOptions (Some "POST") (Some (excellent_body reason)));
     success ← lift (get response "success");
     if ToBoolean success then
       utils.showNotification "已加入优秀记录" "success" 3000%N;;
       emit (Spawn Call_loadRecords)
     else
       utils.showNotification "加入优秀记录失败" "error" 3000%N)
    (fun error => emit (ConsoleError "加入优秀记录失败:")).

Section viewRecord.
(** [JSON.stringify(value, null, 2)]: the indented JSON text of a value. *)
Variable JSON_stringify_indented : JsVal -> string.

(** The paragraph of an optional field: there when the field is truthy. *)
Definition error_paragraph (record : JsVal) : Completion string :=
  error_message ← get record "error_message";
  if ToBoolean error_message then
    again ← get record "error_message";
    text ← ToString again;
    Normal ("<p><strong>错误信息:</strong> " +:+ text +:+ "</p>")
  else Normal "".

Definition metrics_paragraph (record : JsVal) : Completion string :=
  metrics ← get record "metrics";
  if ToBoolean metrics then
    again ← get record "metrics";
    Normal ("<p><strong>详细指标:</strong> <pre>" +:+ JSON_stringify_indented again
            +:+ "</pre></p>")
  else Normal "".

(** The body of the modal. *)
Definition record_details (record : JsVal) : Completion string :=
  model_name ← get record "model_name";
  model_text ← ToString model_name;
  dataset_name ← get record "dataset_name";
  dataset_text ← ToString dataset_name;
  score ← get record "score";
  score_text ← ToString (or_else score (JStr "-"));
  model_type ← get record "model_type";
  type_text ← ToString model_type;
  status ← get record "status";
  status_text ← getStatusText status;
  execution_time ← get record "execution_time";
  time_text ← utils.formatExecutionTime execution_time;
  memory_usage ← get record "memory_usage";
  memory_text ← utils.formatMemory memory_usage;
  created_at ← get record "created_at";
  created_text ← utils.formatDate created_at;
  error_text ← error_paragraph record;
  metrics_text ← metrics_paragraph record;
  Normal ("
                <div class=" +:+ dq +:+ "record-details" +:+ dq +:+ ">
                    <h3>测评详情</h3>
                    <p><strong>模型:</strong> " +:+ model_text +:+ "</p>
                    <p><strong>数据集:</strong> " +:+ dataset_text +:+ "</p>
                    <p><strong>分数:</strong> " +:+ score_text +:+ "</p>
                    <p><strong>模型类型:</strong> " +:+ type_text +:+ "</p>
                    <p><strong>状态:</strong> " +:+ status_text +:+ "</p>
                    <p><strong>执行时间:</strong> " +:+ time_text +:+ "</p>
                    <p><strong>内存使用:</strong> " +:+ memory_text +:+ "</p>
                    <p><strong>创建时间:</strong> " +:+ created_text +:+ "</p>
                    " +:+ error_text +:+ "
                    " +:+ metrics_text +:+ "
                </div>
            ").

Definition viewRecord (recordId : JsVal) : M unit :=
  try_catch
    (id_text ← lift (ToString recordId);
     response ← utils.apiRequest ("/api/records/" +:+ id_text) no_options;
     record ← lift (get response "data");
     content ← lift (record_details record);
     utils.showModal "测评记录详情" content)
    (fun error =>
       emit (ConsoleError "获取记录详情失败:");;
       utils.showNotification "获取记录详情失败" "error" 3000%N).
End viewRecord.

Definition searchRecords : M unit :=
  query ← value_of "search-input";
  emit (ConsoleLog "搜索:").

Definition filterRecords : M unit :=
  modelType ← value_of "model-type-filter";
  emit (ConsoleLog "过滤:").

Definition exportRecords : M unit :=
  utils.showNotification "导出功能开发中..." "info" 3000%N.
End records.
End records.

Module monitoring.
Section monitoring.
Context `{Host}.

Definition is_digit (c : Ascii.ascii) : bool :=
  (48 <=? Ascii.N_of_ascii c)%N && (Ascii.N_of_ascii c <=? 57)%N.

(** [text.match(/(\d+)%/)]: the digits of the first run of digits that a
    percent sign follows, [run] being the digits read so far. *)
Fixpoint match_percent_from (run text : string) : option string :=
  match text with
  | EmptyString => None
  | String c rest =>
      if is_digit c then match_percent_from (run +:+ String c EmptyString) rest
      else if Ascii.eqb c "%"%char && negb (is_empty run) then Some run
      else match_percent_from "" rest
  end.

Definition match_percent (text : string) : option string := match_percent_from "" text.

(** [new Chart(ctx, config)] keeps the data object of the configuration: two
    empty arrays. *)
Definition initChart : M unit :=
  ctx ← getElementById "gpu-chart";
  match ctx with
  | None => mret tt
  | Some _ => put_gpuChart (Some (mkChart [] []))
  end.

(** [labels.push(now); data.push(value)], then the oldest point of each is
    shifted out when there are more than 20 labels. *)
Definition push_point (now : string) (value : JsVal) (chart : Chart) : Chart :=
  let labels := chart_labels chart ++ [now] in
  let data := chart_data chart ++ [value] in
  if (20 <? length labels)%nat then mkChart (tail labels) (tail data)
  else mkChart labels data.

Definition updateChart : M unit :=
  script ← get_script;
  match monitoring_gpuChart script with
  | None => mret tt
  | Some chart =>
      document ← ask;
      let now := time_now document in
      match gpu_info document with
      | None => mret tt
      | Some paragraph =>
          text ← deref paragraph;
          let value := match match_percent text with
                       | Some digits => JNum (parseInt digits)
                       | None => JNum 0%float
                       end in
          put_gpuChart (Some (push_point now value chart));;
          emit ChartUpdate
      end
  end.

Definition startAutoRefresh : M unit :=
  emit (SetInterval AutoRefresh 10000%N).

(** The callback of [startAutoRefresh]. *)
Definition autoRefresh_tick : M unit :=
  found ← getElementById "gpu-status";
  match found with
  | Some _ =>
      emit (Spawn Call_loadGPUStatus);;
      updateChart;;
      emit (Spawn Call_loadSystemInfo)
  | None => mret tt
  end.

(** The block of one device. *)
Definition gpu_block (gpu : JsVal) : Completion string :=
  index ← get gpu "index";
  index_text ← ToString index;
  name ← get gpu "name";
  name_text ← ToString name;
  utilization_gpu ← get gpu "utilization_gpu";
  utilization_text ← ToString utilization_gpu;
  memory_used ← get gpu "memory_used";
  used_text ← ToString memory_used;
  memory_total ← get gpu "memory_total";
  total_text ← ToString memory_total;
  temperature_gpu ← get gpu "temperature_gpu";
  temperature_text ← ToString temperature_gpu;
  power_draw ← get gpu "power_draw";
  power_text ← ToString power_draw;
  Normal ("
                <div class=" +:+ dq +:+ "gpu-info" +:+ dq +:+ ">
                    <p><strong>GPU " +:+ index_text +:+ ":</strong> " +:+ name_text +:+ "</p>
                    <p><strong>利用率:</strong> " +:+ utilization_text +:+ "%</p>
                    <p><strong>显存使用:</strong> " +:+ used_text +:+ "MB / " +:+ total_text +:+ "MB</p>
                    <p><strong>温度:</strong> " +:+ temperature_text +:+ "°C</p>
                    <p><strong>功耗:</strong> " +:+ power_text +:+ "W</p>
                </div>
            ").

Definition no_gpu_detected : string := "<p>未检测到GPU</p>".

(** [gpuData.gpus ? gpuData.gpus.map(block).join('') : no_gpu_detected] *)
Definition gpu_status_html (gpuData : JsVal) : Completion string :=
  gpus ← get gpuData "gpus";
  if ToBoolean gpus then
    again ← get gpuData "gpus";
    map_join again gpu_block
  else Normal no_gpu_detected.

Definition loadGPUStatus : M unit :=
  try_catch
    (response ← utils.apiRequest "/api/monitoring/gpu/status" no_options;
     gpuData ← lift (get response "data");
     set_innerHTML "gpu-status" (gpu_status_html gpuData))
    (fun error => emit (ConsoleError "加载GPU状态失败:")).

Definition no_smi_output : string := "无法获取nvidia-smi输出".

Definition loadNvidiaSMI : M unit :=
  try_catch
    (response ← utils.apiRequest "/api/monitoring/nvidia-smi" no_options;
     set_textContent "nvidia-smi-output"
       (data ← get response "data";
        output ← get data "output";
        Normal (or_else output (JStr no_smi_output))))
    (fun error => emit (ConsoleError "加载nvidia-smi输出失败:")).

(** The paragraphs of the host's figures. *)
Definition system_info_html (systemData : JsVal) : Completion string :=
  cpu_usage ← get systemData "cpu_usage";
  cpu_text ← ToString cpu_usage;
  memory_usage ← get systemData "memory_usage";
  memory_text ← ToString memory_usage;
  memory_total ← get systemData "memory_total";
  memory_total_text ← ToString memory_total;
  disk_usage ← get systemData "disk_usage";
  disk_text ← ToString disk_usage;
  disk_total ← get systemData "disk_total";
  disk_total_text ← ToString disk_total;
  load_average ← get systemData "load_average";
  load_text ← ToString load_average;
  uptime ← get systemData "uptime";
  uptime_text ← ToString uptime;
  Normal ("
                <p><strong>CPU使用率:</strong> " +:+ cpu_text +:+ "%</p>
                <p><strong>内存使用:</strong> " +:+ memory_text +:+ "MB / " +:+ memory_total_text +:+ "MB</p>
                <p><strong>磁盘使用:</strong> " +:+ disk_text +:+ "GB / " +:+ disk_total_text +:+ "GB</p>
                <p><strong>系统负载:</strong> " +:+ load_text +:+ "</p>
                <p><strong>运行时间:</strong> " +:+ uptime_text +:+ "</p>
            ").

Definition loadSystemInfo : M unit :=
  try_catch
    (response ← utils.apiRequest "/api/monitoring/system/info" no_options;
     systemData ← lift (get response "data");
     set_innerHTML "system-info" (system_info_html systemData))
    (fun error => emit (ConsoleError "加载系统信息失败:")).
End monitoring.
End monitoring.

(** What each timer runs when it fires. *)
Definition timer_callback `{Host} (t : Timer) : M unit :=
  match t with
  | ProgressPolling => evaluation.progressPolling_tick
  | AutoRefresh => monitoring.autoRefresh_tick
  end.

(** What each function called without [await] runs; [loadRecords] is called
    with no argument, so with its defaults. *)
Definition async_body `{Host} (f : AsyncCall) : M unit :=
  match f with
  | Call_loadTaskProgress => evaluation.loadTaskProgress
  | Call_loadRecords => records.loadRecords 1 50
  | Call_loadGPUStatus => monitoring.loadGPUStatus
  | Call_loadSystemInfo => monitoring.loadSystemInfo
  end.

(** [utils.debounce(func, wait)]: the function it returns, with the variable
    [timeout] it closes over.  A timer of [setTimeout] is pending until it
    fires or is cleared, and one that is pending may fire: how long it waits
    is not modelled.  What [func] does is its own affair: a run gives the
    arguments it is called with. *)
Module debounce.
Section debounce.
Context {Args : Type}.

(** The closure: the variable [timeout], the pending timers it has set, each
    with the arguments its callback [later] closes over, and the id the next
    [setTimeout] returns. *)
Record Closure : Type := mkClosure {
  timeout : option nat;
  timers : list (nat * Args);
  fresh : nat;
}.

(** [debounce(func, wait)]: [let timeout;] *)
Definition created : Closure := mkClosure None [] 0.

(** [clearTimeout(id)]; [undefined] clears nothing. *)
Definition clearTimeout (id : option nat) (pending : list (nat * Args)) : list (nat * Args) :=
  match id with
  | Some i => filter (λ timer, timer.1 ≠ i) pending
  | None => pending
  end.

(** [executedFunction(...args)] *)
Definition executedFunction (args : Args) (c : Closure) : Closure :=
  let pending := clearTimeout (timeout c) (timers c) in
  mkClosure (Some (fresh c)) (pending ++ [(fresh c, args)]) (S (fresh c)).

(** The timer [id] fires when it is pending: [later] clears [timeout] and
    calls [func] with the arguments it closed over. *)
Definition later (id : nat) (c : Closure) : option Args * Closure :=
  match list_find (λ timer, timer.1 = id) (timers c) with
  | Some (_, (_, args)) =>
      let pending := filter (λ timer, timer.1 ≠ id) (timers c) in
      (Some args, mkClosure (timeout c) (clearTimeout (timeout c) pending) (fresh c))
  | None => (None, c)
  end.

(** What happens to the closure: it is called, or a timer fires. *)
Inductive Event : Type :=
  | Called (args : Args)
  | Fired (id : nat).

(** The calls of [func] over a sequence of events, and the closure after
    it. *)
Fixpoint run (events : list Event) (c : Closure) : list Args * Closure :=
  match events with
  | [] => ([], c)
  | Called args :: rest => run rest (executedFunction args c)
  | Fired id :: rest =>
      let (call, c') := later id c in
      let (calls, c'') := run rest c' in
      (option_list call ++ calls, c'')
  end.

(** The arguments the closure was called with. *)
Definition called (events : list Event) : list Args :=
  omap (λ e, match e with Called args => Some args | Fired _ => None end) events.
End debounce.
End debounce.

(** The listeners the sections register when they are opened.  An element
    is known by its id, with its [dataset.initialized] and the listeners it
    has, oldest first; a handler is known by what it calls. *)
Module listeners.

Inductive Handler : Type :=
  (** [() => this.scanModels()] *)
  | Call_scanModels
  (** [(e) => { e.preventDefault(); this.submitSingleEvaluation() }] *)
  | Call_submitSingleEvaluation
  | Call_submitBatchEvaluation
  (** [utils.debounce(() => this.searchRecords(), wait)] *)
  | Debounced_searchRecords (wait : N)
  | Call_filterRecords
  | Call_exportRecords.

Record Target : Type := mkTarget {
  dataset_initialized : option string;
  handlers : list (string * Handler);
}.

(** [element.dataset.initialized], as a condition: an attribute that is
    missing or empty is falsy. *)
Definition is_initialized (target : Target) : bool :=
  match dataset_initialized target with
  | Some text => negb (is_empty text)
  | None => false
  end.

(** [if (element && !element.dataset.initialized) {
       element.addEventListener(type, handler);
       element.dataset.initialized = 'true' }] *)
Definition register (id type : string) (handler : Handler) (doc : gmap string Target) : gmap string Target :=
  match doc !! id with
  | Some target =>
      if is_initialized target then doc
      else <[id := mkTarget (Some "true") (handlers target ++ [(type, handler)])]> doc
  | None => doc
  end.

(** [models.initEventListeners] *)
Definition models_initEventListeners (doc : gmap string Target) : gmap string Target :=
  register "scan-models" "click" Call_scanModels doc.

(** [evaluation.initForms] *)
Definition evaluation_initForms (doc : gmap string Target) : gmap string Target :=
  register "batch-evaluation-form" "submit" Call_submitBatchEvaluation
    (register "single-evaluation-form" "submit" Call_submitSingleEvaluation doc).

(** [records.initEventListeners] *)
Definition records_initEventListeners (doc : gmap string Target) : gmap string Target :=
  register "export-records" "click" Call_exportRecords
    (register "model-type-filter" "change" Call_filterRecords
       (register "search-input" "input" (Debounced_searchRecords 500) doc)).

(** The element of that id, when there is one, is marked as initialized. *)
Definition initialized_at (id : string) (doc : gmap string Target) : Prop :=
  ∀ target, doc !! id = Some target → is_initialized target = true.

(** The listeners of the element of that id. *)
Definition handlers_of (id : string) (doc : gmap string Target) : list (string * Handler) :=
  from_option handlers [] (doc !! id).

(** [f] registers [handler] for [type] on the element of that id: when the
    element is there and not marked as initialized it gets the listener, after
    those it has, and the mark; when it is marked it stays as it is; and when
    it is missing it is still missing. *)
Definition registers (f : gmap string Target → gmap string Target) (id type : string)
    (handler : Handler) : Prop :=
  ∀ doc : gmap string Target,
    match doc !! id with
    | Some target =>
        f doc !! id
        = Some (if is_initialized target then target
                else mkTarget (Some "true") (handlers target ++ [(type, handler)]))
    | None => f doc !! id = None
    end.

(** [f] leaves every element but those of [ids] as it is. *)
Definition touches_only (f : gmap string Target → gmap string Target) (ids : list string)
    : Prop :=
  ∀ (doc : gmap string Target) (id : string), id ∉ ids → f doc !! id = doc !! id.

End listeners.

(** ** The record store of the backend *)

Module RecordStore.

Inductive Status : Type := pending | running | completed | failed.

#[global] Instance Status_eq_dec : EqDecision Status.
Proof. solve_decision. Defined.

Inductive StoreError : Type := NotFound | InvalidState.

Record ExcellentRecord : Type := mkExcellent {
  record_id : nat;
  reason : option string;
  category : string;
}.

(** The store: the status of each record by id, and the excellent-records
    relation. *)
Record Store : Type := mkStore {
  statuses : gmap nat Status;
  excellent : list ExcellentRecord;
}.

(** Modelled from the spec: the record store's [promote(id, reason,
    category)] is backend code that is not among the sources.  It fails with
    [NotFound] when the id is absent and with [InvalidState] when the record is
    not [completed]; otherwise it adds the promotion to the relation. *)
Definition promote (id : nat) (why : option string) (cat : string) (st : Store)
    : (ExcellentRecord * Store) + StoreError :=
  match statuses st !! id with
  | None => inr NotFound
  | Some status =>
      if decide (status = completed) then
        let made := mkExcellent id why cat in
        inl (made, mkStore (statuses st) (excellent st ++ [made]))
      else inr InvalidState
  end.

Definition error_name (e : StoreError) : string :=
  match e with
  | NotFound => "NotFound"
  | InvalidState => "InvalidState"
  end.

(** Modelled from the spec: the body [POST /api/records/{id}/excellent]
    answers with, [{success}] or, on error, [{success: false, detail}]. *)
Definition promote_response (result : (ExcellentRecord * Store) + StoreError) : JsVal :=
  match result with
  | inl _ => JObj [("success", JBool true)]
  | inr e => JObj [("success", JBool false); ("detail", JStr (error_name e))]
  end.

(** Modelled from the spec: [append(record) -> id] of the record store, with
    monotonic id assignment: the id after the largest in use.  Of a record
    the model keeps the status, which nothing changes once it is written. *)
Definition next_id (st : Store) : nat :=
  map_fold (λ id _ next, S id `max` next) 0 (statuses st).

Definition append (status : Status) (st : Store) : nat * Store :=
  (next_id st, mkStore (<[next_id st := status]> (statuses st)) (excellent st)).

Definition empty : Store := mkStore ∅ [].

(** The operations that change the store. *)
Inductive Operation : Type :=
  | Append (status : Status)
  | Promote (id : nat) (why : option string) (cat : string).

(** The store after an operation: a promotion that fails leaves it as it
    was. *)
Definition apply (op : Operation) (st : Store) : Store :=
  match op with
  | Append status => (append status st).2
  | Promote id why cat =>
      match promote id why cat st with
      | inl (_, promoted) => promoted
      | inr _ => st
      end
  end.

Definition after_operations (ops : list Operation) (st : Store) : Store :=
  foldl (λ st op, apply op st) st ops.

(** The address of the promotion of the record [id]. *)
Definition promotion_url (id : nat) : string :=
  API_BASE +:+ "/api/records/" +:+ pretty id +:+ "/excellent".

(** The record of the store that the address of a request names. *)
Definition named_by (st : Store) (r : Request) : option nat :=
  snd <$> list_find (λ id, req_url r = promotion_url id) (map_to_list (statuses st)).*1.

Section serve.
(** What the backend reads from the body of a request: the reason and the
    category. *)
Variable decode : option string → option string * string.

(** Modelled from the spec: the endpoint [POST /api/records/{id}/excellent]
    of the backend, on a store: the answer to a request, and the store after
    it.  A request that names no record of the store is answered as
    [NotFound]. *)
Definition handle (st : Store) (r : Request) : JsVal * Store :=
  match named_by st r with
  | Some id =>
      let (why, cat) := decode (req_body r) in
      let result := promote id why cat st in
      (promote_response result, apply (Promote id why cat) st)
  | None => (promote_response (inr NotFound), st)
  end.

(** Modelled from the spec: the server of a page whose backend started from
    the store [st]: it has handled the requests made before, and answers this
    one. *)
Definition serve (st : Store) (history : list Request) (r : Request) : FetchResult :=
  Responded 200 "OK" (inl (handle (foldl (λ st r, (handle st r).2) st history) r).1).
End serve.

End RecordStore.

(** ** The vocabulary of the properties *)

(** *** Reading the page *)

(** The element of that id is in the document. *)
Definition present (id : string) (p : Page) : Prop := is_Some (by_id p !! id).

(** The value of the control of that id, when it is in the document. *)
Definition value_in (p : Page) (id : string) : option string :=
  el_value <$> by_id p !! id.

(** What [submitSingleEvaluation] reads: the model path, the dataset name and
    the text of the configuration as typed; [None] when an element it reads
    from is missing. *)
Definition single_inputs (p : Page) : option (string * string * string) :=
  form ← by_id p !! "single-evaluation-form";
  modelPath ← match FormData_get "model-select" (el_entries form) with
               | Some chosen =>
                   if is_empty chosen then value_in p "model-select" else Some chosen
               | None => value_in p "model-select"
               end;
  datasetName ← value_in p "dataset-input";
  raw ← value_in p "config-json";
  Some (modelPath, datasetName, raw).

(** What [submitBatchEvaluation] reads: the checked models, the dataset name,
    the task name and the parallel flag. *)
Definition batch_inputs (p : Page) : option (list string * string * string * bool) :=
  _ ← by_id p !! "batch-evaluation-form";
  datasetName ← value_in p "batch-dataset-input";
  taskName ← value_in p "task-name";
  mode ← value_in p "parallel-execution";
  Some (batch_models_checked p, datasetName, taskName, String.eqb mode "true").

(** *** Requests and answers *)

(** The request [utils.apiRequest] makes. *)
Definition api_request (url : string) (options : Options) : Request :=
  mkRequest (API_BASE +:+ url) (opt_method options)
    [("Content-Type", "application/json")] (opt_body options).

Definition POST (url body : string) : Request :=
  api_request url (mkOptions (Some "POST") (Some body)).

Definition GET (url : string) : Request := api_request url no_options.

(** The server answers [r], asked after [history], with a success status and
    the JSON body [body]. *)
Definition answered (p : Page) (history : list Request) (r : Request) (body : JsVal) : Prop :=
  ∃ status statusText,
    response_ok status = true ∧ server p history r = Responded status statusText (inl body).

(** *** Submissions *)

Section SubmissionVocabulary.
Context `{Host}.

(** The part the two submissions share: the request, the reading of the
    answer, and the loading indicator around them. *)
Definition submission (url body created failed form log : string) : M unit :=
  try_finally
    (try_catch
       (utils.showLoading true;;
        response ← utils.apiRequest url (mkOptions (Some "POST") (Some body));
        success ← lift (get response "success");
        if ToBoolean success then
          utils.showNotification created "success" 3000%N;;
          emit (FormReset form);;
          emit (Spawn Call_loadTaskProgress)
        else
          detail ← lift (get response "detail");
          text ← lift (ToString detail);
          utils.showNotification (failed +:+ text) "error" 3000%N)
       (fun error => emit (ConsoleError log)))
    (utils.showLoading false).

Definition submission_single (body : string) : M unit :=
  submission "/api/evaluation/single" body "单模型测评任务已创建" "创建测评任务失败: "
    "single-evaluation-form" "提交单模型测评失败:".

Definition submission_batch (body : string) : M unit :=
  submission "/api/evaluation/batch" body "批量测评任务已创建" "创建批量测评失败: "
    "batch-evaluation-form" "提交批量测评失败:".

(** The configuration a text stands for: [null] when it is empty, what it
    parses to otherwise. *)
Definition config_of (configText : string) (config : JsVal) : Prop :=
  (configText = "" ∧ config = JNull)
  ∨ (configText ≠ "" ∧ JSON_parse configText = Some config).
End SubmissionVocabulary.

(** What a submission that the server accepts does, and one that it refuses. *)
Definition accepted (url body created form : string) : list Effect :=
  [Display "loading" "flex"; ConsoleLog url; Fetch (POST url body);
   Notify created "success" 3000%N; FormReset form; Spawn Call_loadTaskProgress;
   Display "loading" "none"].

Definition refused (url body message : string) : list Effect :=
  [Display "loading" "flex"; ConsoleLog url; Fetch (POST url body);
   Notify message "error" 3000%N; Display "loading" "none"].

(** *** The dashboard *)

(** The text a counter of the dashboard shows for a response. *)
Definition counter_text `{Host} (response : JsVal) : Completion string :=
  count ← dashboard.count_of response;
  ToString count.

(** The usage shown for the payload [data] of the GPU status. *)
Definition usage_of (data : JsVal) : JsVal :=
  or_else (get_opt (first_opt (get_opt data "gpus")) "utilization_gpu") (JNum 0%float).

(** The GPU list is absent, or it is empty, or its first device has no
    [utilization_gpu]. *)
Definition gpu_missing (data : JsVal) : Prop :=
  is_nullish (get_opt data "gpus") = true
  ∨ get_opt data "gpus" = JArr []
  ∨ ∃ first rest, get_opt data "gpus" = JArr (first :: rest)
                  ∧ is_nullish (get_opt first "utilization_gpu") = true.

(** The four calls [loadStats] makes before it awaits any. *)
Definition stats_calls : list Effect :=
  [ConsoleLog "/api/models"; Fetch (GET "/api/models");
   ConsoleLog "/api/datasets"; Fetch (GET "/api/datasets");
   ConsoleLog "/api/records?limit=100"; Fetch (GET "/api/records?limit=100");
   ConsoleLog "/api/monitoring/gpu/status"; Fetch (GET "/api/monitoring/gpu/status")].

(** The server answers the four with these bodies. *)
Definition stats_answered (p : Page) (s : Script) (models datasets records gpu : JsVal) : Prop :=
  let before := requests (trace s) in
  answered p before (GET "/api/models") models
  ∧ answered p (before ++ [GET "/api/models"]) (GET "/api/datasets") datasets
  ∧ answered p (before ++ [GET "/api/models"; GET "/api/datasets"])
      (GET "/api/records?limit=100") records
  ∧ answered p (before ++ [GET "/api/models"; GET "/api/datasets";
                           GET "/api/records?limit=100"])
      (GET "/api/monitoring/gpu/status") gpu.

(** *** The model list *)




(** *** The records *)

(** The space between the two buttons of a row. *)
Definition between_buttons : string := "
                        ".

(** The address [loadRecords] asks. *)
Definition records_url (page limit : nat) : string :=
  "/api/records?page=" +:+ pretty page +:+ "&limit=" +:+ pretty limit.

(** What [loadRecords] does when the rows render. *)
Definition records_shown (page limit : nat) (html : string) : list Effect :=
  [Display "loading" "flex"; ConsoleLog (records_url page limit);
   Fetch (GET (records_url page limit));
   SetHtml "#records-table tbody" html; Display "loading" "none"].

(** The address of the promotion of a record. *)
Definition excellent_url (id_text : string) : string :=
  "/api/records/" +:+ id_text +:+ "/excellent".

(** What [addToExcellent] does when the server answers with a body whose
    [success] is false. *)
Definition promotion_refused `{Host} (id_text : string) (reason : option string)
    : list Effect :=
  [Prompt "请输入加入优秀记录的理由（可选）:";
   ConsoleLog (excellent_url id_text);
   Fetch (POST (excellent_url id_text) (records.excellent_body reason));
   Notify "加入优秀记录失败" "error" 3000%N].

(** Every promotion in the relation of the store is of a completed
    record. *)
Definition only_completed (st : RecordStore.Store) : Prop :=
  ∀ x, x ∈ RecordStore.excellent st →
       RecordStore.statuses st !! RecordStore.record_id x = Some RecordStore.completed.

(** *** The chart buffer *)

(** The two arrays of the chart have the same length, at most 20. *)
Definition chart_bounded (s : Script) : Prop :=
  match monitoring_gpuChart s with
  | Some chart =>
      length (chart_labels chart) = length (chart_data chart)
      ∧ (length (chart_labels chart) ≤ 20)%nat
  | None => True
  end.

(** The functions of the script that this development runs. *)
Inductive Action : Type :=
  | Do_loadStats
  | Do_loadModels
  | Do_submitSingleEvaluation
  | Do_submitBatchEvaluation
  | Do_startProgressPolling
  | Do_loadRecords (page limit : nat)
  | Do_addToExcellent (recordId : JsVal)
  | Do_initChart
  | Do_startAutoRefresh
  | Do_updateChart
  | Do_timer (t : Timer).

Definition perform `{Host} (a : Action) : M unit :=
  match a with
  | Do_loadStats => dashboard.loadStats
  | Do_loadModels => models.loadModels
  | Do_submitSingleEvaluation => evaluation.submitSingleEvaluation
  | Do_submitBatchEvaluation => evaluation.submitBatchEvaluation
  | Do_startProgressPolling => evaluation.startProgressPolling
  | Do_loadRecords page limit => records.loadRecords page limit
  | Do_addToExcellent recordId => records.addToExcellent recordId
  | Do_initChart => monitoring.initChart
  | Do_startAutoRefresh => monitoring.startAutoRefresh
  | Do_updateChart => monitoring.updateChart
  | Do_timer t => timer_callback t
  end.

(** The state after a sequence of calls, each on the page as it is then. *)
Fixpoint after `{Host} (calls : list (Page * Action)) (s : Script) : Script :=
  match calls with
  | [] => s
  | (p, a) :: rest => after rest (run (perform a) p s)
  end.

(** [m] leaves [monitoring.gpuChart] as it is. *)
Definition keeps_chart {A} (m : M A) : Prop :=
  ∀ (p : Page) (s : Script), monitoring_gpuChart (m p s).2 = monitoring_gpuChart s.

(** ** Further vocabulary *)

(** The error a settled fetch makes [utils.apiRequest] throw: the rejection of
    the fetch, an [Error] for a status outside 200-299, or the rejection of
    [json()]; [None] when the request succeeds. *)
Definition failure_of (settled : FetchResult) : option JsError :=
  match settled with
  | Rejected e => Some e
  | Responded status statusText json =>
      if response_ok status then
        match json with
        | inl _ => None
        | inr e => Some e
        end
      else Some (Error ("HTTP " +:+ pretty status +:+ ": " +:+ statusText))
  end.

(** The server lets [r] fail, asked after [history], with [error]. *)
Definition failed (p : Page) (history : list Request) (r : Request) (error : JsError) : Prop :=
  failure_of (server p history r) = Some error.

(** What [utils.apiRequest] does with a request that fails. *)
Definition request_failed (url : string) (options : Options) (error : JsError) : list Effect :=
  [ConsoleLog url; Fetch (api_request url options); ConsoleError "API请求失败:";
   Notify ("请求失败: " +:+ err_message error) "error" 3000%N].

(** The effects [s'] has had since [s]. *)
Definition since (s s' : Script) : list Effect := drop (length (trace s)) (trace s').

(** [s'] continues [s]: it has the effects of [s] and then [since s s'].  *)
Definition continues (s s' : Script) : Prop := trace s `prefix_of` trace s'.

(** No effect of the list writes the text of an element. *)
Definition writes_no_text (effects : list Effect) : Prop :=
  Forall (λ e, match e with SetText _ _ => False | _ => True end) effects.

(** [s'] continues [s] without writing text. *)
Definition continues_textless (s s' : Script) : Prop :=
  ∃ more, trace s' = trace s ++ more ∧ writes_no_text more.

(** The last 20 entries of a list. *)
Definition last20 {A} (l : list A) : list A := drop (length l - 20) l.

(** The point [updateChart] adds on a page: the time and the utilisation read
    from the second paragraph of the first GPU block, 0 when it shows no
    percentage; [None] when the block or the paragraph is missing. *)
Definition chart_point `{Host} (p : Page) : option (string * JsVal) :=
  match gpu_info p with
  | Some (Some text) =>
      Some (time_now p,
            match monitoring.match_percent text with
            | Some digits => JNum (parseInt digits)
            | None => JNum 0%float
            end)
  | _ => None
  end.

(** A text of decimal digits. *)
Fixpoint all_digits (text : string) : bool :=
  match text with
  | EmptyString => true
  | String c rest => monitoring.is_digit c && all_digits rest
  end.

(** A text with no decimal digit and no percent sign. *)
Fixpoint plain (text : string) : bool :=
  match text with
  | EmptyString => true
  | String c rest =>
      negb (monitoring.is_digit c) && negb (Ascii.eqb c "%"%char) && plain rest
  end.

(** A text with no percent sign. *)
Fixpoint percentless (text : string) : bool :=
  match text with
  | EmptyString => true
  | String c rest => negb (Ascii.eqb c "%"%char) && percentless rest
  end.

(** The four requests of [loadStats]. *)
Definition stats_requests : list Request :=
  [GET "/api/models"; GET "/api/datasets"; GET "/api/records?limit=100";
   GET "/api/monitoring/gpu/status"].

(** What a loader that only logs its failure does with a request that
    fails. *)
Definition load_failed (url log : string) (error : JsError) : list Effect :=
  request_failed url no_options error ++ [ConsoleError log].

(** What a loader that announces its failure does with a request that
    fails: the failure is announced twice. *)
Definition load_failed_twice (url log notice : string) (error : JsError) : list Effect :=
  request_failed url no_options error ++ [ConsoleError log; Notify notice "error" 3000%N].

(** What [viewRecord] does when the record renders. *)
Definition record_viewed (id_text content : string) : list Effect :=
  [ConsoleLog ("/api/records/" +:+ id_text); Fetch (GET ("/api/records/" +:+ id_text));
   SetText "modal-title" "测评记录详情"; SetHtml "modal-body" content;
   Display "modal" "block"].

(** What it does when the answer cannot be rendered. *)
Definition record_not_viewed (id_text : string) : list Effect :=
  [ConsoleLog ("/api/records/" +:+ id_text); Fetch (GET ("/api/records/" +:+ id_text));
   ConsoleError "获取记录详情失败:"; Notify "获取记录详情失败" "error" 3000%N].

(** What [addToExcellent] does when the server accepts the promotion. *)
Definition promotion_accepted `{Host} (id_text : string) (reason : option string)
    : list Effect :=
  [Prompt "请输入加入优秀记录的理由（可选）:";
   ConsoleLog (excellent_url id_text);
   Fetch (POST (excellent_url id_text) (records.excellent_body reason));
   Notify "已加入优秀记录" "success" 3000%N; Spawn Call_loadRecords].

(** What a loader does when it writes [html] into the element [id]. *)
Definition loaded (url id html : string) : list Effect :=
  [ConsoleLog url; Fetch (GET url); SetHtml id html].

(** The payload is missing or empty: [data] is falsy or the empty array. *)
Definition no_items (data : JsVal) : Prop := ToBoolean data = false ∨ data = JArr [].

(** [s'] continues [s], with effects that are all [allowed]. *)
Definition only (allowed : Effect → Prop) (s s' : Script) : Prop :=
  ∃ more, trace s' = trace s ++ more ∧ Forall allowed more.

(** Whatever the page and the state, [m] has only [allowed] effects, and
    takes none back. *)
Definition emits_only {A} (allowed : Effect → Prop) (m : M A) : Prop :=
  ∀ (p : Page) (s : Script), only allowed s (run m p s).

Definition any_effect (e : Effect) : Prop := True.

(** Anything but a request. *)
Definition no_request (e : Effect) : Prop :=
  match e with
  | Fetch _ => False
  | _ => True
  end.

(** Anything but the text of an element. *)
Definition no_text (e : Effect) : Prop :=
  match e with
  | SetText _ _ => False
  | _ => True
  end.

(** A line of the console or a notification. *)
Definition log_or_notice (e : Effect) : Prop :=
  match e with
  | ConsoleLog _ | ConsoleError _ | Notify _ _ _ => True
  | _ => False
  end.

(** [s'] continues [s] with the loading indicator shown, then other
    effects, then the indicator hidden. *)
Definition around_loading (s s' : Script) : Prop :=
  ∃ middle,
    trace s' = trace s ++ Display "loading" "flex" :: middle ++ [Display "loading" "none"].

(** What a submission does when its request fails. *)
Definition submission_failed (url body log : string) (error : JsError) : list Effect :=
  Display "loading" "flex"
  :: request_failed url (mkOptions (Some "POST") (Some body)) error
  ++ [ConsoleError log; Display "loading" "none"].

(** What a loader with a loading indicator does when its request fails. *)
Definition guarded_load_failed (url log notice : string) (error : JsError) : list Effect :=
  Display "loading" "flex" :: load_failed_twice url log notice error
  ++ [Display "loading" "none"].

(** The four calls of [loadStats], and the state they leave. *)
Definition stats_called (s : Script) : Script :=
  add_effect (Fetch (GET "/api/monitoring/gpu/status"))
    (add_effect (ConsoleLog "/api/monitoring/gpu/status")
       (add_effect (Fetch (GET "/api/records?limit=100"))
          (add_effect (ConsoleLog "/api/records?limit=100")
             (add_effect (Fetch (GET "/api/datasets"))
                (add_effect (ConsoleLog "/api/datasets")
                   (add_effect (Fetch (GET "/api/models"))
                      (add_effect (ConsoleLog "/api/models") s))))))).


(** What [loadRecords] does when the rows cannot be rendered or written. *)
Definition records_failed (page limit : nat) : list Effect :=
  [Display "loading" "flex"; ConsoleLog (records_url page limit);
   Fetch (GET (records_url page limit));
   ConsoleError "加载测评记录失败:"; Notify "加载测评记录失败" "error" 3000%N;
   Display "loading" "none"].

(** What a loader that only logs its failure does when the answer cannot be
    rendered. *)
Definition not_rendered (url log : string) : list Effect :=
  [ConsoleLog url; Fetch (GET url); ConsoleError log].

(** What [loadNvidiaSMI] does when it shows [text]. *)
Definition smi_shown (text : string) : list Effect :=
  [ConsoleLog "/api/monitoring/nvidia-smi"; Fetch (GET "/api/monitoring/nvidia-smi");
   SetText "nvidia-smi-output" text].

(** What a field of a record shows through [format]: the field is read, and
    formatted. *)
Definition shown_by (format : JsVal → Completion string) (record : JsVal) (key : string)
    : Completion string :=
  value ← get record key;
  format value.

(** *** Debouncing *)

(** At most one timer is pending, and [timeout] is its id. *)
Definition one_timer {Args : Type} (c : debounce.Closure (Args:=Args)) : Prop :=
  debounce.timers c = []
  ∨ ∃ id args, debounce.timeout c = Some id ∧ debounce.timers c = [(id, args)].

(** ** A sample host and page, to run the functions on *)

Module Sample.

(** JSON text of a value, without escapes; a number that is not an integer
    prints as 0. *)
Fixpoint stringify (v : JsVal) : string :=
  match v with
  | JUndefined | JNull => "null"
  | JBool true => "true"
  | JBool false => "false"
  | JNum x => default "0" (pretty <$> float_to_Z x)
  | JStr s => dq +:+ s +:+ dq
  | JArr items => "[" +:+ join "," (stringify <$> items) +:+ "]"
  | JObj fields =>
      "{" +:+ join "," ((fun field : string * JsVal =>
                           let (key, value) := field in
                           dq +:+ key +:+ dq +:+ ":" +:+ stringify value) <$> fields)
      +:+ "}"
  end.

(** White space, among the characters of ASCII. *)
Definition is_space (c : Ascii.ascii) : bool :=
  let n := Ascii.N_of_ascii c in
  ((9 <=? n)%N && (n <=? 13)%N) || (n =? 32)%N.

Fixpoint trim_start (text : string) : string :=
  match text with
  | String c rest => if is_space c then trim_start rest else text
  | EmptyString => EmptyString
  end.

(** [text] without the white space at its two ends. *)
Definition trim (text : string) : string :=
  String.rev (trim_start (String.rev (trim_start text))).

(** The number a run of decimal digits denotes, after [value]. *)
Fixpoint digits_value (value : N) (digits : string) : N :=
  match digits with
  | String c rest => digits_value (10 * value + (Ascii.N_of_ascii c - 48))%N rest
  | EmptyString => value
  end.

(** A host that knows the JSON texts [null] and [{}] and takes no other for
    JSON, trims ASCII white space, and reads a run of digits exactly. *)
#[export] Instance host : Host := {|
  JSON_parse text :=
    if String.eqb text "null" then Some JNull
    else if String.eqb text "{}" then Some (JObj [])
    else None;
  JSON_stringify := stringify;
  String_trim := trim;
  Number_toString_other _ := "0.5";
  Number_toFixed _ _ := "0.5";
  StringToNumber _ := PrimFloat.nan;
  parseInt digits := PrimFloat.of_uint63 (Uint63.of_Z (Z.of_N (digits_value 0 digits)));
  toLocaleString _ := Normal "7,000,000,000";
  Date_toLocaleString _ := "2026/1/1 10:00:00";
  Object_prototype_text _ := None;
|}.

Definition control (text : string) : Element := mkElement text [].

(** A document with every element the script looks up, the configuration
    field holding [config]. *)
Definition document (config : string) : gmap string Element :=
  list_to_map
    [("notifications", control ""); ("loading", control "");
     ("single-evaluation-form", control ""); ("model-select", control "/models/a");
     ("dataset-input", control "ds1"); ("config-json", control config);
     ("batch-evaluation-form", control ""); ("batch-dataset-input", control "ds1");
     ("task-name", control "nightly"); ("parallel-execution", control "true");
     ("task-progress", control ""); ("gpu-status", control ""); ("gpu-chart", control "");
     ("models-list", control ""); ("total-models", control "");
     ("total-datasets", control ""); ("total-evaluations", control "");
     ("gpu-usage", control "")].

(** A page on that document, with [checked] the models ticked for a batch and
    a server that answers every request with the body [answer]. *)
Definition page (config : string) (checked : list string) (answer : JsVal) : Page :=
  mkPage (document config) checked true (Some (Some "利用率: 37%")) (Some "good") "10:00:00"
    (fun _ _ => Responded 200 "OK" (inl answer)).

(** A store whose record 7 failed and whose record 8 completed. *)
Definition store : RecordStore.Store :=
  RecordStore.mkStore
    (<[7%nat := RecordStore.failed]> (<[8%nat := RecordStore.completed]> ∅)) [].

(** Two devices: the dashboard shows the first. *)
Definition two_gpus : JsVal :=
  JObj [("data", JObj [("gpus", JArr [JObj [("utilization_gpu", JNum 37%float)];
                                      JObj [("utilization_gpu", JNum 99%float)]])])].

(** No device. *)
Definition no_gpu : JsVal := JObj [("data", JObj [("gpus", JArr [])])].

(** The chart is created and then updated 21 times. *)
Definition chart_calls : list (Page * Action) :=
  (page "" [] JNull, Do_initChart) :: replicate 21 (page "" [] JNull, Do_updateChart).

End Sample.

(** ** Pages with the other panels, and servers that fail *)

Module Scenario.

(** The sample document with the elements of the modal, of the panels and
    of the search. *)
Definition all_panels : gmap string Element :=
  list_to_map
    [("modal-title", Sample.control ""); ("modal-body", Sample.control "");
     ("modal", Sample.control ""); ("recent-activities", Sample.control "");
     ("datasets-list", Sample.control ""); ("nvidia-smi-output", Sample.control "");
     ("system-info", Sample.control ""); ("search-input", Sample.control "llama");
     ("model-type-filter", Sample.control "chat")]
  ∪ Sample.document "".

(** A page on a document, with [checked] the models ticked for a batch, a
    user who cancels the prompt, a GPU block that shows a fractional
    utilisation, and a server. *)
Definition page_on (document : gmap string Element) (checked : list string)
    (server : list Request → Request → FetchResult) : Page :=
  mkPage document checked true (Some (Some "利用率: 37.5%")) None "10:00:00" server.

Definition page_of (checked : list string) (server : list Request → Request → FetchResult)
    : Page :=
  page_on all_panels checked server.

(** A server that answers every request with the body [answer]. *)
Definition answering (answer : JsVal) : list Request → Request → FetchResult :=
  λ _ _, Responded 200 "OK" (inl answer).

(** No connection: every fetch rejects. *)
Definition offline : list Request → Request → FetchResult :=
  λ _ _, Rejected (TypeError "Failed to fetch").

(** A server that refuses every request. *)
Definition unavailable : list Request → Request → FetchResult :=
  λ _ _, Responded 503 "Service Unavailable" (inl JNull).

(** A server whose records fail and that answers the rest with an empty
    list. *)
Definition records_down : list Request → Request → FetchResult :=
  λ _ r,
    if String.eqb (req_url r) (API_BASE +:+ "/api/records?limit=100")
    then Responded 500 "Internal Server Error" (inl JNull)
    else Responded 200 "OK" (inl (JObj [("data", JArr [])])).

(** The batch form with models ticked and no dataset name. *)
Definition no_dataset : Page :=
  page_on (<["batch-dataset-input" := Sample.control ""]> all_panels) ["/models/a"]
    (answering JNull).

(** A page without the loading indicator. *)
Definition no_indicator : Page :=
  page_on (delete "loading" all_panels) [] (answering JNull).

(** A record whose score is 0 and whose duration is the boolean true. *)
Definition record : JsVal :=
  JObj [("id", JNum 7%float); ("model_name", JStr "a"); ("dataset_name", JStr "ds1");
        ("score", JNum 0%float); ("model_type", JStr "chat"); ("status", JStr "completed");
        ("execution_time", JBool true)].

(** Pages of 25 ticks: the clock does not matter here, the utilisation goes
    from 0% to 24%. *)
Definition ticks : list Page :=
  (λ n : nat,
     mkPage all_panels [] true (Some (Some ("利用率: " +:+ pretty n +:+ "%"))) None
       (pretty n) (answering JNull))
  <$> seq 0 25.

(** What the backend of the sample reads from a body: no reason, and the
    general category. *)
Definition decode (body : option string) : option string * string := (None, "general").

(** A page whose server is the backend on the sample store, where record 7
    failed and record 8 completed. *)
Definition backed : Page :=
  page_on all_panels [] (RecordStore.serve decode Sample.store).

End Scenario.

(** ** Properties *)

(** *** Tactics *)

(** Unfolds the monad and the helpers of [utils], down to matches on what the
    page holds and on what the server answers. *)
Ltac js_unfold :=
  cbv beta iota zeta delta
    [run outcome mbind M_bind mret M_ret getElementById ask get_script put_gpuChart
     new_FormData value_of deref throw lift emit try_catch try_finally fetch attempt
     set_textContent
     utils.showNotification utils.showLoading utils.apiRequest utils.apiRequest_call
     utils.apiRequest_settle] in *.

(** Splits on every lookup of an element that is still undecided. *)
Ltac split_lookups p :=
  repeat match goal with
         | |- context [by_id p !! ?id] => destruct (by_id p !! id) eqn:?; simpl in *
         end.

(** Rewrites with what is known of the page and of the answers, and computes,
    as long as that makes progress. *)
Ltac js_facts :=
  repeat (progress (simpl;
    repeat match goal with
           | H : ?l = _ |- context [?l] =>
               lazymatch l with _ _ => rewrite H end
           end)).

(** Puts a trace in the form [trace s ++ events]. *)
Ltac tidy_trace :=
  unfold add_effect; simpl; rewrite <- ?app_assoc; simpl.

(** *** The trace, and text *)

Lemma requests_app (t1 t2 : list Effect) :
  requests (t1 ++ t2) = requests t1 ++ requests t2.
Proof.
  induction t1 as [|e t1 IH]; [done|].
  destruct e; simpl; rewrite ?IH; done.
Qed.

Lemma is_empty_true (text : string) : is_empty text = true ↔ text = "".
Proof. unfold is_empty. apply String.eqb_eq. Qed.

Lemma is_empty_false (text : string) : is_empty text = false ↔ text ≠ "".
Proof. unfold is_empty. apply String.eqb_neq. Qed.

Lemma append_empty_inv (a b : string) : a +:+ b = "" → a = "" ∧ b = "".
Proof. by destruct a. Qed.

Lemma join_nil_inv (parts : list string) :
  join "" parts = "" → Forall (λ part, part = "") parts.
Proof.
  induction parts as [|x [|y rest] IH]; simpl; intros Hjoin.
  - done.
  - by repeat constructor.
  - destruct x; [|done]. simpl in Hjoin. constructor; [done|]. by apply IH.
Qed.

Lemma sequence_Forall {A} (P : A → Prop) (cs : list (Completion A)) (l : list A) :
  Forall (λ c, ∀ a, c = Normal a → P a) cs → sequence cs = Normal l → Forall P l.
Proof.
  intros Hcs. revert l. induction Hcs as [|c cs Hc _ IH]; simpl; intros l.
  - by intros [= <-].
  - destruct c as [a|]; [|done].
    destruct (sequence cs) as [l'|]; [|done].
    intros [= <-]. constructor; auto.
Qed.

(** The text of a list that is not empty and whose parts are not empty is
    the parts joined, not the placeholder for the empty text. *)
Lemma joined_or_placeholder {A} (render : A → Completion string) (items : list A)
    (parts : list string) (placeholder : string) :
  items ≠ [] →
  (∀ item part, render item = Normal part → part ≠ "") →
  sequence (render <$> items) = Normal parts →
  (if is_empty (join "" parts) then placeholder else join "" parts) = join "" parts.
Proof.
  intros Hitems Hfull Hparts.
  destruct (is_empty (join "" parts)) eqn:Hempty; [|done].
  exfalso. apply is_empty_true, join_nil_inv in Hempty.
  assert (Hall : Forall (λ part, part ≠ "") parts).
  { eapply sequence_Forall; [|done].
    apply Forall_fmap, Forall_forall. intros item _ part. apply Hfull. }
  destruct items as [|item rest]; [done|]. simpl in Hparts.
  destruct (render item); [|done].
  destruct (sequence _); [|done].
  injection Hparts as <-.
  apply Forall_cons in Hempty as [Hempty _], Hall as [Hall _]. done.
Qed.

(** *** Submissions *)

Section Submission.
Context `{Host}.

(** C1: a batch submission with no model checked makes no request at all (so
    no POST to /api/evaluation/batch, and no task): whenever it returns, the
    warning is all it did, and it returns when the page has the elements it
    reads from and the notification area. *)
Theorem submitBatchEvaluation_empty_selection (p : Page) (s : Script) :
  batch_models_checked p = [] →
  requests (trace (run evaluation.submitBatchEvaluation p s)) = requests (trace s)
  ∧ (outcome evaluation.submitBatchEvaluation p s = Normal tt →
     trace (run evaluation.submitBatchEvaluation p s)
     = trace s ++ [Notify "请选择至少一个模型" "warning" 3000%N])
  ∧ (is_Some (batch_inputs p) → present "notifications" p →
     outcome evaluation.submitBatchEvaluation p s = Normal tt).
Proof.
  intros Hnone. unfold batch_inputs, value_in, present.
  unfold evaluation.submitBatchEvaluation. js_unfold. rewrite Hnone. simpl.
  split_lookups p; tidy_trace;
    repeat split; intros; rewrite ?requests_app, ?app_nil_r;
    try done; try (by destruct_and?; match goal with X : is_Some None |- _ => destruct X end).
Qed.

(** What [submitSingleEvaluation] does once it has read its inputs. *)
Lemma submitSingleEvaluation_inputs (p : Page) (s : Script) (m d raw : string) :
  single_inputs p = Some (m, d, raw) →
  evaluation.submitSingleEvaluation p s
  = (if is_empty m || is_empty d then
       utils.showNotification "请填写模型和数据集" "warning" 3000%N
     else
       match evaluation.parse_config (String_trim raw) with
       | None => utils.showNotification "配置参数JSON格式错误" "error" 3000%N
       | Some config => submission_single (evaluation.single_body m d config)
       end) p s.
Proof.
  unfold single_inputs, value_in, evaluation.submitSingleEvaluation.
  intros Hin.
  destruct (by_id p !! "single-evaluation-form") as [form|] eqn:Hform; [|done].
  simpl in Hin.
  cbv beta iota zeta delta [mbind M_bind mret M_ret getElementById ask new_FormData
                             value_of deref throw].
  rewrite Hform.
  destruct (FormData_get "model-select" (el_entries form)) as [chosen|];
    [destruct (is_empty chosen)|];
    repeat match type of Hin with
           | context [by_id p !! ?id] => destruct (by_id p !! id); simpl in Hin; [|done]
           end;
    by simplify_eq.
Qed.

(** What [submitBatchEvaluation] does once it has read its inputs. *)
Lemma submitBatchEvaluation_inputs (p : Page) (s : Script)
    (selected : list string) (d t : string) (parallel : bool) :
  batch_inputs p = Some (selected, d, t, parallel) →
  evaluation.submitBatchEvaluation p s
  = (if (length selected =? 0)%nat then
       utils.showNotification "请选择至少一个模型" "warning" 3000%N
     else if is_empty d then
       utils.showNotification "请填写数据集名称" "warning" 3000%N
     else submission_batch (evaluation.batch_body selected d t parallel)) p s.
Proof.
  unfold batch_inputs, value_in, evaluation.submitBatchEvaluation.
  intros Hin.
  cbv beta iota zeta delta [mbind M_bind mret M_ret getElementById ask new_FormData
                             value_of deref throw].
  repeat match type of Hin with
         | context [by_id p !! ?id] => destruct (by_id p !! id); simpl in Hin; [|done]
         end.
  by simplify_eq.
Qed.

Lemma showNotification_quiet (message type : string) (p : Page) (s : Script) :
  requests (trace (utils.showNotification message type 3000%N p s).2) = requests (trace s).
Proof.
  js_unfold. destruct (by_id p !! "notifications"); simpl; [|done].
  by rewrite requests_app, app_nil_r.
Qed.

(** C5: a single submission whose model path or dataset name is empty, or
    whose configuration text (trimmed, as the function holds it) is not empty
    and does not parse as JSON, makes no request. *)
Theorem submitSingleEvaluation_rejects_invalid (p : Page) (s : Script) (m d raw : string) :
  single_inputs p = Some (m, d, raw) →
  m = "" ∨ d = "" ∨ (String_trim raw ≠ "" ∧ JSON_parse (String_trim raw) = None) →
  requests (trace (run evaluation.submitSingleEvaluation p s)) = requests (trace s).
Proof.
  intros Hin Hbad. unfold run. rewrite (submitSingleEvaluation_inputs p s m d raw Hin).
  destruct Hbad as [-> | [-> | [Hfull Hparse]]].
  - simpl. apply showNotification_quiet.
  - rewrite orb_true_r. apply showNotification_quiet.
  - destruct (is_empty m || is_empty d); [apply showNotification_quiet|].
    unfold evaluation.parse_config.
    apply is_empty_false in Hfull. rewrite Hfull, Hparse. apply showNotification_quiet.
Qed.

(** The shared part makes its request as soon as the loading indicator is
    there to be shown, and makes no other. *)
Lemma submission_requests (url body created failed form log : string) (p : Page) (s : Script) :
  present "loading" p →
  requests (trace (run (submission url body created failed form log) p s))
  = requests (trace s) ++ [POST url body].
Proof.
  intros [loading Hloading]. unfold submission. js_unfold. rewrite Hloading. simpl.
  repeat case_match; simplify_eq; simpl;
    unfold add_effect; simpl; rewrite ?requests_app; simpl; rewrite ?app_nil_r; done.
Qed.

(** The shared part, when the server answers with a body whose [success] is
    true. *)
Lemma submission_success (url body created failed form log : string) (p : Page) (s : Script)
    (response : JsVal) :
  present "loading" p → present "notifications" p →
  answered p (requests (trace s)) (POST url body) response →
  get response "success" = Normal (JBool true) →
  trace (run (submission url body created failed form log) p s)
  = trace s ++ accepted url body created form.
Proof.
  intros [loading Hloading] [notifications Hnotifications] (status & text & Hok & Hanswer) Hsuccess.
  unfold POST, api_request in *. simpl in Hanswer.
  unfold submission. js_unfold. unfold add_effect. js_facts.
  rewrite !requests_app. simpl. rewrite !app_nil_r. js_facts.
  unfold accepted, POST, api_request. simpl. by rewrite <- !app_assoc.
Qed.

(** The shared part, when the server answers with a body whose [success] is
    false. *)
Lemma submission_failure (url body created failed form log : string) (p : Page) (s : Script)
    (response detail : JsVal) (text : string) :
  present "loading" p → present "notifications" p →
  answered p (requests (trace s)) (POST url body) response →
  get response "success" = Normal (JBool false) →
  get response "detail" = Normal detail →
  ToString detail = Normal text →
  trace (run (submission url body created failed form log) p s)
  = trace s ++ refused url body (failed +:+ text).
Proof.
  intros [loading Hloading] [notifications Hnotifications] (status & st & Hok & Hanswer)
    Hsuccess Hdetail Htext.
  unfold POST, api_request in *. simpl in Hanswer.
  unfold submission. js_unfold. unfold add_effect. js_facts.
  rewrite !requests_app. simpl. rewrite !app_nil_r. js_facts.
  unfold refused, POST, api_request. simpl. by rewrite <- !app_assoc.
Qed.

Lemma config_of_parse (configText : string) (config : JsVal) :
  config_of configText config → evaluation.parse_config configText = Some config.
Proof.
  unfold evaluation.parse_config.
  intros [[-> ->] | [Hfull Hparse]]; [done|].
  apply is_empty_false in Hfull. by rewrite Hfull.
Qed.

Lemma submitSingleEvaluation_valid (p : Page) (s : Script) (m d raw : string) (config : JsVal) :
  single_inputs p = Some (m, d, raw) → m ≠ "" → d ≠ "" →
  config_of (String_trim raw) config →
  evaluation.submitSingleEvaluation p s
  = submission_single (evaluation.single_body m d config) p s.
Proof.
  intros Hin Hm Hd Hconfig. rewrite (submitSingleEvaluation_inputs p s m d raw Hin).
  apply is_empty_false in Hm, Hd. rewrite Hm, Hd. simpl.
  by rewrite (config_of_parse _ _ Hconfig).
Qed.

Lemma submitBatchEvaluation_valid (p : Page) (s : Script)
    (selected : list string) (d t : string) (parallel : bool) :
  batch_inputs p = Some (selected, d, t, parallel) → selected ≠ [] → d ≠ "" →
  evaluation.submitBatchEvaluation p s
  = submission_batch (evaluation.batch_body selected d t parallel) p s.
Proof.
  intros Hin Hsel Hd. rewrite (submitBatchEvaluation_inputs p s _ _ _ _ Hin).
  apply is_empty_false in Hd. rewrite Hd.
  by destruct selected.
Qed.

(** C3, as amended: a single submission with a model path and a dataset name
    that are not empty, and a configuration text that is empty or parses, makes
    one request, a POST to /api/evaluation/single whose body is the JSON text of
    the object with exactly the keys model_path, dataset_name and config; a
    batch submission with a model checked and a dataset name makes one request,
    a POST to /api/evaluation/batch whose body is the JSON text of the object
    with exactly the keys model_paths, dataset_name, task_name and parallel. *)
Theorem submissions_post_their_body :
  (∀ (p : Page) (s : Script) (m d raw : string) (config : JsVal),
     single_inputs p = Some (m, d, raw) → m ≠ "" → d ≠ "" →
     config_of (String_trim raw) config →
     present "loading" p →
     requests (trace (run evaluation.submitSingleEvaluation p s))
     = requests (trace s)
       ++ [POST "/api/evaluation/single"
             (JSON_stringify (JObj [("model_path", JStr m);
                                    ("dataset_name", JStr d);
                                    ("config", config)]))])
  ∧ (∀ (p : Page) (s : Script) (selected : list string) (d t : string) (parallel : bool),
       batch_inputs p = Some (selected, d, t, parallel) → selected ≠ [] → d ≠ "" →
       present "loading" p →
       requests (trace (run evaluation.submitBatchEvaluation p s))
       = requests (trace s)
         ++ [POST "/api/evaluation/batch"
               (JSON_stringify (JObj [("model_paths", JArr (JStr <$> selected));
                                      ("dataset_name", JStr d);
                                      ("task_name", JStr t);
                                      ("parallel", JBool parallel)]))]).
Proof.
  split.
  - intros p s m d raw config Hin Hm Hd Hconfig Hloading. unfold run.
    rewrite (submitSingleEvaluation_valid p s m d raw config) by done.
    by apply submission_requests.
  - intros p s selected d t parallel Hin Hsel Hd Hloading. unfold run.
    rewrite (submitBatchEvaluation_valid p s selected d t parallel) by done.
    by apply submission_requests.
Qed.

(** C4: the answer to a submission is read as [{success, detail}].  When
    [success] is true the client announces the task, resets the form and
    reloads the task progress; when it is false the client shows [detail] in an
    error notification and neither resets nor reloads.  So for the single
    submission, and so for the batch. *)
Theorem submission_answer_handling :
  (∀ (p : Page) (s : Script) (m d raw : string) (config response : JsVal),
     single_inputs p = Some (m, d, raw) → m ≠ "" → d ≠ "" →
     config_of (String_trim raw) config →
     present "loading" p → present "notifications" p →
     let body := evaluation.single_body m d config in
     answered p (requests (trace s)) (POST "/api/evaluation/single" body) response →
     (get response "success" = Normal (JBool true) →
      trace (run evaluation.submitSingleEvaluation p s)
      = trace s ++ accepted "/api/evaluation/single" body "单模型测评任务已创建"
                     "single-evaluation-form")
     ∧ (∀ (detail : JsVal) (text : string),
          get response "success" = Normal (JBool false) →
          get response "detail" = Normal detail → ToString detail = Normal text →
          trace (run evaluation.submitSingleEvaluation p s)
          = trace s ++ refused "/api/evaluation/single" body ("创建测评任务失败: " +:+ text)))
  ∧ (∀ (p : Page) (s : Script) (selected : list string) (d t : string) (parallel : bool)
       (response : JsVal),
       batch_inputs p = Some (selected, d, t, parallel) → selected ≠ [] → d ≠ "" →
       present "loading" p → present "notifications" p →
       let body := evaluation.batch_body selected d t parallel in
       answered p (requests (trace s)) (POST "/api/evaluation/batch" body) response →
       (get response "success" = Normal (JBool true) →
        trace (run evaluation.submitBatchEvaluation p s)
        = trace s ++ accepted "/api/evaluation/batch" body "批量测评任务已创建"
                       "batch-evaluation-form")
       ∧ (∀ (detail : JsVal) (text : string),
            get response "success" = Normal (JBool false) →
            get response "detail" = Normal detail → ToString detail = Normal text →
            trace (run evaluation.submitBatchEvaluation p s)
            = trace s ++ refused "/api/evaluation/batch" body ("创建批量测评失败: " +:+ text))).
Proof.
  split.
  - intros p s m d raw config response Hin Hm Hd Hconfig Hloading Hnote body Hanswer.
    unfold run. rewrite (submitSingleEvaluation_valid p s m d raw config) by done.
    split.
    + intros Hsuccess. by apply submission_success with response.
    + intros detail text Hsuccess Hdetail Htext.
      by apply submission_failure with response detail.
  - intros p s selected d t parallel response Hin Hsel Hd Hloading Hnote body Hanswer.
    unfold run. rewrite (submitBatchEvaluation_valid p s selected d t parallel) by done.
    split.
    + intros Hsuccess. by apply submission_success with response.
    + intros detail text Hsuccess Hdetail Htext.
      by apply submission_failure with response detail.
Qed.
End Submission.

(** *** Timers and formatters *)

Section Timers.
Context `{Host}.

(** C6: [startProgressPolling] registers one interval of 5000 ms and
    [startAutoRefresh] one of 10000 ms, whatever the page and the state; the
    first callback reloads the task progress when [#task-progress] is there,
    the second starts with the reload of the GPU status when [#gpu-status]
    is there, and neither does anything otherwise. *)
Theorem polling_intervals (p : Page) (s : Script) :
  trace (run evaluation.startProgressPolling p s)
  = trace s ++ [SetInterval ProgressPolling 5000%N]
  ∧ trace (run monitoring.startAutoRefresh p s)
    = trace s ++ [SetInterval AutoRefresh 10000%N]
  ∧ trace (run (timer_callback ProgressPolling) p s)
    = trace s ++ match by_id p !! "task-progress" with
                 | Some _ => [Spawn Call_loadTaskProgress]
                 | None => []
                 end
  ∧ match by_id p !! "gpu-status" with
    | Some _ => ∃ rest, trace (run (timer_callback AutoRefresh) p s)
                        = trace s ++ Spawn Call_loadGPUStatus :: rest
    | None => run (timer_callback AutoRefresh) p s = s
    end.
Proof.
  repeat split.
  - unfold timer_callback, evaluation.progressPolling_tick. js_unfold.
    destruct (by_id p !! "task-progress"); simpl; by rewrite ?app_nil_r.
  - unfold timer_callback, monitoring.autoRefresh_tick, monitoring.updateChart. js_unfold.
    destruct (by_id p !! "gpu-status"); simpl; [|done].
    destruct (monitoring_gpuChart s); simpl.
    + destruct (gpu_info p) as [[text|]|]; simpl; unfold add_effect; simpl;
        rewrite <- ?app_assoc; simpl; by eexists.
    + unfold add_effect; simpl. rewrite <- ?app_assoc; simpl; by eexists.
Qed.
End Timers.

Section Formatters.
Context `{Host}.

Lemma string_length_append (a b : string) :
  String.length (a +:+ b) = (String.length a + String.length b)%nat.
Proof. induction a as [|c a IH]; simpl; by rewrite ?IH. Qed.

(** A text with a unit after it is not the placeholder. *)
Lemma with_unit_not_placeholder (text unit : string) :
  (1 < String.length unit)%nat → text +:+ unit ≠ "-".
Proof.
  intros Hunit Hsame. apply (f_equal String.length) in Hsame.
  rewrite string_length_append in Hsame. simpl in Hsame. lia.
Qed.

Lemma formatExecutionTime_truthy (v : JsVal) (text : string) :
  ToBoolean v = true → utils.formatExecutionTime v = Normal text → text ≠ "-".
Proof.
  unfold utils.formatExecutionTime. intros ->. simpl.
  destruct (less_than v 60%float) as [[]|]; simpl; [| |done].
  - destruct (call_toFixed v 1); simpl; [|done].
    intros [= <-]. apply with_unit_not_placeholder. simpl. lia.
  - destruct (less_than v 3600%float) as [[]|]; simpl; [| |done];
      destruct (divided_by v _); simpl; try done;
      intros [= <-]; apply with_unit_not_placeholder; simpl; lia.
Qed.

Lemma formatMemory_truthy (v : JsVal) (text : string) :
  ToBoolean v = true → utils.formatMemory v = Normal text → text ≠ "-".
Proof.
  unfold utils.formatMemory. intros ->. simpl.
  destruct (less_than v 1024%float) as [[]|]; simpl; [| |done].
  - destruct (call_toFixed v 1); simpl; [|done].
    intros [= <-]. apply with_unit_not_placeholder. simpl. lia.
  - destruct (divided_by v _); simpl; [|done].
    intros [= <-]. apply with_unit_not_placeholder. simpl. lia.
Qed.

(** C8: the formatters test their argument for truthiness, so zero shows the
    placeholder of a missing value: [formatExecutionTime(0)] and
    [formatMemory(0)] are '-', [formatDate] of [null] and of the empty string
    is '-', and so is each of the three on any value that is falsy; while a
    truthy duration or size never shows as '-'. *)
Theorem formatters_placeholder_on_zero :
  utils.formatExecutionTime (JNum 0%float) = Normal "-"
  ∧ utils.formatMemory (JNum 0%float) = Normal "-"
  ∧ utils.formatDate JNull = Normal "-"
  ∧ utils.formatDate (JStr "") = Normal "-"
  ∧ (∀ v : JsVal, ToBoolean v = false →
       utils.formatExecutionTime v = Normal "-"
       ∧ utils.formatMemory v = Normal "-"
       ∧ utils.formatDate v = Normal "-")
  ∧ (∀ v : JsVal, ToBoolean v = true →
       utils.formatExecutionTime v ≠ Normal "-"
       ∧ utils.formatMemory v ≠ Normal "-").
Proof.
  split; [done|]. split; [done|]. split; [done|]. split; [done|]. split.
  - intros v Hfalsy.
    unfold utils.formatExecutionTime, utils.formatMemory, utils.formatDate.
    by rewrite Hfalsy.
  - intros v Htruthy. split; intros Hshown.
    + by apply (formatExecutionTime_truthy v "-").
    + by apply (formatMemory_truthy v "-").
Qed.
End Formatters.

(** *** The chart buffer *)

Section Chart.
Context `{Host}.

Lemma tail_length {A} (l : list A) : length (tail l) = (length l - 1)%nat.
Proof. destruct l; simpl; lia. Qed.

Lemma push_point_bounded (now : string) (value : JsVal) (chart : Chart) :
  length (chart_labels chart) = length (chart_data chart) →
  (length (chart_labels chart) ≤ 20)%nat →
  let pushed := monitoring.push_point now value chart in
  length (chart_labels pushed) = length (chart_data pushed)
  ∧ (length (chart_labels pushed) ≤ 20)%nat.
Proof.
  intros Hsame Hmost. unfold monitoring.push_point.
  destruct (Nat.ltb_spec 20 (length (chart_labels chart ++ [now]))) as [Hfull|Hroom];
    simpl; rewrite ?tail_length, !length_app in *; simpl in *; lia.
Qed.

(** A full buffer loses its oldest point for the new one. *)
Lemma push_point_shifts (now : string) (value : JsVal) (chart : Chart) :
  length (chart_labels chart) = 20%nat →
  length (chart_data chart) = 20%nat →
  monitoring.push_point now value chart
  = mkChart (tail (chart_labels chart) ++ [now]) (tail (chart_data chart) ++ [value]).
Proof.
  intros Hlabels Hdata. unfold monitoring.push_point.
  rewrite length_app, Hlabels. simpl.
  destruct (chart_labels chart), (chart_data chart); done.
Qed.

Lemma keeps_ret {A} (a : A) : keeps_chart (mret a).
Proof. done. Qed.

Lemma keeps_throw {A} (e : JsError) : keeps_chart (throw (A:=A) e).
Proof. done. Qed.

Lemma keeps_lift {A} (c : Completion A) : keeps_chart (lift c).
Proof. done. Qed.

Lemma keeps_emit (e : Effect) : keeps_chart (emit e).
Proof. done. Qed.

Lemma keeps_ask : keeps_chart ask.
Proof. done. Qed.

Lemma keeps_get_script : keeps_chart get_script.
Proof. done. Qed.

Lemma keeps_fetch (r : Request) : keeps_chart (fetch r).
Proof. done. Qed.

Lemma keeps_bind {A B} (m : M A) (k : A → M B) :
  keeps_chart m → (∀ a, keeps_chart (k a)) → keeps_chart (m ≫= k).
Proof.
  intros Hm Hk p s. unfold mbind, M_bind. specialize (Hm p s).
  destruct (m p s) as [[a|e] s']; simpl in *; [|done].
  by rewrite (Hk a p s').
Qed.

Lemma keeps_try_catch {A} (body : M A) (handler : JsError → M A) :
  keeps_chart body → (∀ e, keeps_chart (handler e)) → keeps_chart (try_catch body handler).
Proof.
  intros Hbody Hhandler p s. unfold try_catch. specialize (Hbody p s).
  destruct (body p s) as [[a|e] s']; simpl in *; [done|].
  by rewrite (Hhandler e p s').
Qed.

Lemma keeps_try_finally {A} (body : M A) (final : M unit) :
  keeps_chart body → keeps_chart final → keeps_chart (try_finally body final).
Proof.
  intros Hbody Hfinal p s. unfold try_finally. specialize (Hbody p s).
  destruct (body p s) as [c s']. specialize (Hfinal p s').
  destruct (final p s') as [[[]|e] s'']; simpl in *; congruence.
Qed.

Lemma keeps_attempt {A} (m : M A) : keeps_chart m → keeps_chart (attempt m).
Proof.
  intros Hm p s. unfold attempt. specialize (Hm p s). by destruct (m p s).
Qed.

(** Proves [keeps_chart] of a function built from pieces known to keep it. *)
Ltac keeps_chart_tac :=
  repeat first
    [ simple apply @keeps_ret | simple apply @keeps_throw | simple apply @keeps_lift
    | simple apply keeps_emit | simple apply keeps_ask | simple apply keeps_get_script
    | simple apply keeps_fetch
    | simple apply @keeps_attempt
    | simple apply @keeps_try_finally
    | simple apply @keeps_try_catch; [|intros ?]
    | simple apply @keeps_bind; [|intros ?]
    | solve [auto with keeps]
    | case_match ].

Create HintDb keeps.

Lemma keeps_getElementById (id : string) : keeps_chart (getElementById id).
Proof. unfold getElementById. keeps_chart_tac. Qed.

Lemma keeps_deref {A} (x : option A) : keeps_chart (deref x).
Proof. unfold deref. keeps_chart_tac. Qed.

Lemma keeps_new_FormData (form : option Element) : keeps_chart (new_FormData form).
Proof. unfold new_FormData. keeps_chart_tac. Qed.

#[local] Hint Resolve keeps_getElementById keeps_new_FormData : keeps.
#[local] Hint Resolve keeps_deref : keeps.

Lemma keeps_value_of (id : string) : keeps_chart (value_of id).
Proof. unfold value_of. keeps_chart_tac. Qed.

Lemma keeps_set_textContent (id : string) (value : Completion JsVal) :
  keeps_chart (set_textContent id value).
Proof. unfold set_textContent. keeps_chart_tac. Qed.

Lemma keeps_showNotification (message type : string) (duration : N) :
  keeps_chart (utils.showNotification message type duration).
Proof. unfold utils.showNotification. keeps_chart_tac. Qed.

Lemma keeps_showLoading (show : bool) : keeps_chart (utils.showLoading show).
Proof. unfold utils.showLoading. keeps_chart_tac. Qed.

#[local] Hint Resolve keeps_value_of keeps_set_textContent keeps_showNotification
  keeps_showLoading : keeps.

Lemma keeps_apiRequest_call (url : string) (options : Options) :
  keeps_chart (utils.apiRequest_call url options).
Proof. unfold utils.apiRequest_call. keeps_chart_tac. Qed.

Lemma keeps_apiRequest_settle (settled : FetchResult) :
  keeps_chart (utils.apiRequest_settle settled).
Proof. unfold utils.apiRequest_settle. keeps_chart_tac. Qed.

#[local] Hint Resolve keeps_apiRequest_call keeps_apiRequest_settle : keeps.

Lemma keeps_apiRequest (url : string) (options : Options) :
  keeps_chart (utils.apiRequest url options).
Proof. unfold utils.apiRequest. keeps_chart_tac. Qed.

#[local] Hint Resolve keeps_apiRequest : keeps.

Lemma updateChart_bounded (p : Page) (s : Script) :
  chart_bounded s → chart_bounded (run monitoring.updateChart p s).
Proof.
  unfold chart_bounded, monitoring.updateChart. js_unfold.
  destruct (monitoring_gpuChart s) as [chart|] eqn:Hchart; simpl; [|by rewrite Hchart].
  intros [Hsame Hmost].
  destruct (gpu_info p) as [[text|]|]; simpl; rewrite ?Hchart; try done.
  by apply push_point_bounded.
Qed.

Lemma initChart_bounded (p : Page) (s : Script) :
  chart_bounded s → chart_bounded (run monitoring.initChart p s).
Proof.
  unfold chart_bounded, monitoring.initChart. js_unfold.
  destruct (by_id p !! "gpu-chart"); simpl; [|done].
  intros _. split; [done | lia].
Qed.

Lemma keeps_chart_bounded (m : M unit) (p : Page) (s : Script) :
  keeps_chart m → chart_bounded s → chart_bounded (run m p s).
Proof. unfold chart_bounded, run. intros Hm. by rewrite Hm. Qed.

Lemma emit_bounded (e : Effect) (s : Script) :
  chart_bounded s → chart_bounded (add_effect e s).
Proof. done. Qed.

Lemma perform_bounded (a : Action) (p : Page) (s : Script) :
  chart_bounded s → chart_bounded (run (perform a) p s).
Proof.
  destruct a as [| | | | | page limit | recordId | | | | [|]]; simpl;
    try (apply keeps_chart_bounded;
         unfold dashboard.loadStats, models.loadModels, evaluation.submitSingleEvaluation,
           evaluation.submitBatchEvaluation, evaluation.startProgressPolling,
           records.loadRecords, records.addToExcellent, monitoring.startAutoRefresh,
           evaluation.progressPolling_tick;
         by keeps_chart_tac).
  - apply initChart_bounded.
  - apply updateChart_bounded.
  - unfold monitoring.autoRefresh_tick, run. intros Hs.
    cbv beta iota zeta delta [mbind M_bind mret M_ret getElementById ask emit].
    destruct (by_id p !! "gpu-status"); simpl; [|done].
    pose proof (updateChart_bounded p (add_effect (Spawn Call_loadGPUStatus) s)
                  (emit_bounded _ _ Hs)) as Hupdate.
    unfold run in Hupdate.
    destruct (monitoring.updateChart p _) as [[[]|err] s']; simpl in *; done.
Qed.

(** C9: the chart buffer is bounded.  From the state the script starts in,
    after any sequence of calls of its functions, each on any page, the labels
    and the data of the chart have the same length and it is at most 20; and a
    point pushed on a buffer of 20 shifts the oldest one out. *)
Theorem chart_buffer_bounded (calls : list (Page * Action)) :
  chart_bounded (after calls initial)
  ∧ ∀ (now : string) (value : JsVal) (chart : Chart),
      monitoring_gpuChart (after calls initial) = Some chart →
      length (chart_labels (monitoring.push_point now value chart))
      = length (chart_data (monitoring.push_point now value chart))
      ∧ (length (chart_labels (monitoring.push_point now value chart)) ≤ 20)%nat
      ∧ (length (chart_labels chart) = 20%nat →
         monitoring.push_point now value chart
         = mkChart (tail (chart_labels chart) ++ [now]) (tail (chart_data chart) ++ [value])).
Proof.
  assert (Hall : ∀ s, chart_bounded s → chart_bounded (after calls s)).
  { induction calls as [|[p a] rest IH]; intros s Hs; [done|].
    simpl. apply IH. by apply perform_bounded. }
  specialize (Hall initial I).
  split; [done|].
  intros now value chart Hchart. unfold chart_bounded in Hall. rewrite Hchart in Hall.
  destruct Hall as [Hsame Hmost].
  pose proof (push_point_bounded now value chart Hsame Hmost) as [? ?].
  repeat split; try done.
  intros Hfull. apply push_point_shifts; congruence.
Qed.
End Chart.

(** *** The dashboard *)

Section Dashboard.
Context `{Host}.

Lemma or_else_truthy_or (a b : JsVal) : is_nullish b = false → is_nullish (or_else a b) = false.
Proof. unfold or_else. intros Hb. destruct (ToBoolean a) eqn:Ha; [by destruct a|done]. Qed.

Lemma count_of_shown (response count : JsVal) :
  dashboard.count_of response = Normal count → is_nullish count = false.
Proof.
  unfold dashboard.count_of. destruct (get response "data") as [data|]; simpl; [|done].
  intros [= <-]. by apply or_else_truthy_or.
Qed.

Lemma counter_text_inv (response : JsVal) (text : string) :
  counter_text response = Normal text →
  ∃ count, dashboard.count_of response = Normal count
           ∧ is_nullish count = false ∧ ToString count = Normal text.
Proof.
  unfold counter_text. destruct (dashboard.count_of response) as [count|] eqn:Hcount; [|done].
  simpl. intros Htext. exists count. eauto using count_of_shown.
Qed.

Lemma usage_of_first (data first : JsVal) (rest : list JsVal) :
  get_opt data "gpus" = JArr (first :: rest) →
  usage_of data = or_else (get_opt first "utilization_gpu") (JNum 0%float).
Proof. unfold usage_of. by intros ->. Qed.

Lemma usage_of_missing (data : JsVal) : gpu_missing data → usage_of data = JNum 0%float.
Proof.
  unfold usage_of.
  intros [Habsent | [-> | (first & rest & -> & Hlacks)]]; simpl.
  - by destruct (get_opt data "gpus").
  - done.
  - unfold or_else. by destruct (get_opt first "utilization_gpu").
Qed.

(** What [loadStats] does when the four requests succeed and the three
    counters are written. *)
Lemma loadStats_shows (p : Page) (s : Script) (models datasets records gpu data : JsVal)
    (c1 c2 c3 usage : string) :
  stats_answered p s models datasets records gpu →
  present "total-models" p → present "total-datasets" p →
  present "total-evaluations" p → present "gpu-usage" p →
  counter_text models = Normal c1 → counter_text datasets = Normal c2 →
  counter_text records = Normal c3 →
  get gpu "data" = Normal data →
  ToString (usage_of data) = Normal usage →
  trace (run dashboard.loadStats p s)
  = trace s ++ stats_calls
    ++ [SetText "total-models" c1; SetText "total-datasets" c2;
        SetText "total-evaluations" c3; SetText "gpu-usage" (usage +:+ "%")].
Proof.
  intros ((st1 & tx1 & Hok1 & Hans1) & (st2 & tx2 & Hok2 & Hans2)
          & (st3 & tx3 & Hok3 & Hans3) & (st4 & tx4 & Hok4 & Hans4))
    [e1 He1] [e2 He2] [e3 He3] [e4 He4] Hc1 Hc2 Hc3 Hdata Husage.
  apply counter_text_inv in Hc1 as (n1 & Hn1 & Hnull1 & Ht1).
  apply counter_text_inv in Hc2 as (n2 & Hn2 & Hnull2 & Ht2).
  apply counter_text_inv in Hc3 as (n3 & Hn3 & Hnull3 & Ht3).
  unfold GET, api_request in *. simpl in Hans1, Hans2, Hans3, Hans4.
  unfold dashboard.loadStats, dashboard.gpuUsage_of, usage_of in *.
  js_unfold. unfold add_effect. simpl.
  rewrite !requests_app. simpl. rewrite !app_nil_r, <- !app_assoc. simpl.
  js_facts.
  unfold stats_calls, GET, api_request. simpl. by rewrite <- !app_assoc.
Qed.

(** C7: the GPU usage of the dashboard comes from the first device alone.
    When the four requests of [loadStats] succeed and its three counters are
    written, the text of [#gpu-usage] is the [utilization_gpu] of the first
    entry of [data.gpus] (or 0 when that is falsy) followed by a percent sign,
    whatever the other entries are; and it is 0% when the list is absent or
    empty or its first entry has no [utilization_gpu]. *)
Theorem loadStats_gpu_usage (p : Page) (s : Script) (models datasets records gpu data : JsVal)
    (c1 c2 c3 : string) :
  stats_answered p s models datasets records gpu →
  present "total-models" p → present "total-datasets" p →
  present "total-evaluations" p → present "gpu-usage" p →
  counter_text models = Normal c1 → counter_text datasets = Normal c2 →
  counter_text records = Normal c3 →
  get gpu "data" = Normal data →
  let shows (text : string) :=
    trace (run dashboard.loadStats p s)
    = trace s ++ stats_calls
      ++ [SetText "total-models" c1; SetText "total-datasets" c2;
          SetText "total-evaluations" c3; SetText "gpu-usage" text] in
  (∀ (first : JsVal) (rest : list JsVal) (usage : string),
     get_opt data "gpus" = JArr (first :: rest) →
     ToString (or_else (get_opt first "utilization_gpu") (JNum 0%float)) = Normal usage →
     shows (usage +:+ "%"))
  ∧ (gpu_missing data → shows "0%").
Proof.
  intros Hanswered Hp1 Hp2 Hp3 Hp4 Hc1 Hc2 Hc3 Hdata shows. subst shows. split.
  - intros first rest usage Hgpus Husage.
    eapply loadStats_shows; eauto.
    by rewrite (usage_of_first data first rest).
  - intros Hmissing.
    apply (loadStats_shows p s models datasets records gpu data c1 c2 c3 "0"); auto.
    by rewrite usage_of_missing.
Qed.
End Dashboard.

(** *** The model list *)

Section Models.
Context `{Host}.






End Models.


(** *** The records *)

Section Records.
Context `{Host}.

Lemma strict_eq_string_spec (v : JsVal) (text : string) :
  strict_eq_string v text = true ↔ v = JStr text.
Proof.
  destruct v; simpl; try done.
  rewrite String.eqb_eq. split; congruence.
Qed.

(** The last cell of a row: the button that opens the record, and after it
    the button that promotes it when the status is the string 'completed', and
    nothing otherwise. *)
Lemma record_actions_completed (record id status : JsVal) (id_text : string) :
  get record "id" = Normal id → ToString id = Normal id_text →
  get record "status" = Normal status →
  records.record_actions record
  = Normal (records.view_button id_text +:+ between_buttons
            +:+ (if strict_eq_string status "completed"
                 then records.excellent_button id_text else "")).
Proof.
  intros Hid Htext Hstatus.
  unfold records.record_actions, records.promotion.
  rewrite Hid, Hstatus. simpl. rewrite Htext. simpl.
  destruct (strict_eq_string status "completed"); simpl; by rewrite ?Htext.
Qed.

Lemma record_row_parts (record : JsVal) (html : string) :
  records.record_row record = Normal html →
  ∃ cells actions,
    records.record_cells record = Normal cells
    ∧ records.record_actions record = Normal actions
    ∧ html = cells +:+ actions +:+ records.row_end.
Proof.
  unfold records.record_row.
  destruct (records.record_cells record) as [cells|]; simpl; [|done].
  destruct (records.record_actions record) as [actions|]; simpl; [|done].
  intros [= <-]. by exists cells, actions.
Qed.

Lemma record_row_not_empty (record : JsVal) (html : string) :
  records.record_row record = Normal html → html ≠ "".
Proof.
  intros (cells & actions & _ & _ & ->)%record_row_parts Hempty.
  apply append_empty_inv in Hempty as [_ Hempty].
  by apply append_empty_inv in Hempty as [_ Hempty].
Qed.

Lemma records_html_rows (items : list JsVal) (html : string) :
  items ≠ [] →
  records.records_html (JArr items) = Normal html →
  ∃ rows, sequence (records.record_row <$> items) = Normal rows ∧ html = join "" rows.
Proof.
  unfold records.records_html. intros Hitems.
  destruct (sequence _) as [rows|] eqn:Hrows; simpl; [|done].
  intros [= <-]. exists rows. split; [done|].
  by apply (joined_or_placeholder records.record_row items);
    [|apply record_row_not_empty|].
Qed.

(** What [loadRecords] does when the rows render. *)
Lemma loadRecords_renders (p : Page) (s : Script) (page limit : nat)
    (response data : JsVal) (html : string) :
  present "loading" p → records_tbody p = true →
  answered p (requests (trace s)) (GET (records_url page limit)) response →
  get response "data" = Normal data →
  records.records_html (or_else data (JArr [])) = Normal html →
  trace (run (records.loadRecords page limit) p s)
  = trace s ++ records_shown page limit html.
Proof.
  intros [e1 He1] Htbody (st & tx & Hok & Hans) Hdata Hhtml.
  unfold GET, api_request, records_url in *. simpl in Hans.
  unfold records.loadRecords. js_unfold. unfold add_effect. js_facts.
  rewrite !requests_app. simpl. rewrite !app_nil_r. js_facts.
  unfold records_shown, GET, api_request, records_url. simpl. by rewrite <- !app_assoc.
Qed.

(** What [addToExcellent] does when the server answers with a body whose
    [success] is false: it asks for the reason, makes the request and shows
    the failure; the script keeps nothing else of it. *)
Lemma addToExcellent_refused (p : Page) (s : Script) (recordId response : JsVal)
    (id_text : string) :
  ToString recordId = Normal id_text →
  present "notifications" p →
  answered p (requests (trace s))
    (POST (excellent_url id_text) (records.excellent_body (prompt_reply p))) response →
  get response "success" = Normal (JBool false) →
  records.addToExcellent recordId p s
  = (Normal tt,
     mkScript (models_selectedModel s) (monitoring_gpuChart s)
       (trace s ++ promotion_refused id_text (prompt_reply p))).
Proof.
  intros Htext [e He] (st & tx & Hok & Hans) Hsuccess.
  unfold POST, api_request, excellent_url in *. simpl in Hans.
  unfold records.addToExcellent. js_unfold. unfold add_effect. js_facts.
  rewrite !requests_app. simpl. rewrite !app_nil_r. js_facts.
  unfold promotion_refused, POST, api_request, excellent_url. simpl.
  by rewrite <- !app_assoc.
Qed.

(** The record store promotes a completed record, which is then in the
    relation, and refuses any other, leaving the relation as it was. *)
Lemma promote_completed_only (st : RecordStore.Store) (id : nat) (why : option string)
    (cat : string) (status : RecordStore.Status) :
  RecordStore.statuses st !! id = Some status →
  RecordStore.promote id why cat st
  = if decide (status = RecordStore.completed)
    then inl (RecordStore.mkExcellent id why cat,
              RecordStore.mkStore (RecordStore.statuses st)
                (RecordStore.excellent st ++ [RecordStore.mkExcellent id why cat]))
    else inr RecordStore.InvalidState.
Proof. unfold RecordStore.promote. by intros ->. Qed.

Lemma promote_refuses (st : RecordStore.Store) (id : nat) (why : option string)
    (cat : string) (status : RecordStore.Status) :
  RecordStore.statuses st !! id = Some status →
  status ≠ RecordStore.completed →
  RecordStore.promote id why cat st = inr RecordStore.InvalidState.
Proof.
  intros Hstatus Hnot. rewrite (promote_completed_only st id why cat status Hstatus).
  by destruct (decide _).
Qed.

Lemma append_suffix_inj (a b c : string) : a +:+ c = b +:+ c → a = b.
Proof.
  revert b. induction a as [|x a IH]; intros [|y b] Hsame.
  - done.
  - apply (f_equal String.length) in Hsame. rewrite !string_length_append in Hsame.
    simpl in Hsame. lia.
  - apply (f_equal String.length) in Hsame. rewrite !string_length_append in Hsame.
    simpl in Hsame. lia.
  - change (String x (a +:+ c) = String y (b +:+ c)) in Hsame.
    injection Hsame as -> Hsame. f_equal. by apply IH.
Qed.

Lemma promotion_url_inj (id other : nat) :
  RecordStore.promotion_url id = RecordStore.promotion_url other → id = other.
Proof.
  unfold RecordStore.promotion_url. intros Hsame.
  apply (inj (String.append API_BASE)) in Hsame.
  apply (inj (String.append "/api/records/")) in Hsame.
  apply append_suffix_inj in Hsame. by apply (inj pretty) in Hsame.
Qed.

(** The address of the promotion of a record of the store names it. *)
Lemma named_by_promotion (st : RecordStore.Store) (r : Request) (id : nat)
    (status : RecordStore.Status) :
  RecordStore.statuses st !! id = Some status →
  req_url r = RecordStore.promotion_url id →
  RecordStore.named_by st r = Some id.
Proof.
  intros Hstatus Hurl. unfold RecordStore.named_by.
  destruct (list_find _ _) as [[i found]|] eqn:Hfind; simpl.
  - apply list_find_Some in Hfind as (_ & Hfound & _).
    rewrite Hurl in Hfound. by apply promotion_url_inj in Hfound as ->.
  - apply list_find_None in Hfind. rewrite Forall_forall in Hfind.
    destruct (Hfind id); [|done].
    apply list_elem_of_fmap. exists (id, status). split; [done|].
    by apply elem_of_map_to_list.
Qed.

(** The id of a new record is above every id in use. *)
Lemma next_id_above (st : RecordStore.Store) (id : nat) (status : RecordStore.Status) :
  RecordStore.statuses st !! id = Some status → (id < RecordStore.next_id st)%nat.
Proof.
  unfold RecordStore.next_id. revert id status.
  apply (map_fold_weak_ind
           (λ next m, ∀ id status, m !! id = Some status → (id < next)%nat)).
  - intros id status Hnone. by rewrite lookup_empty in Hnone.
  - intros i x m next _ IH id status Hlookup.
    destruct (decide (id = i)) as [->|Hother]; [lia|].
    rewrite lookup_insert_ne in Hlookup by done. specialize (IH id status Hlookup). lia.
Qed.

Lemma next_id_fresh (st : RecordStore.Store) :
  RecordStore.statuses st !! RecordStore.next_id st = None.
Proof.
  destruct (RecordStore.statuses st !! RecordStore.next_id st) as [status|] eqn:Hused;
    [|done].
  apply next_id_above in Hused. lia.
Qed.

Lemma only_completed_apply (op : RecordStore.Operation) (st : RecordStore.Store) :
  only_completed st → only_completed (RecordStore.apply op st).
Proof.
  intros Hst. destruct op as [status|id why cat]; simpl.
  - intros x Hx. simpl in *. specialize (Hst x Hx).
    rewrite lookup_insert_ne; [done|]. intros Hsame.
    rewrite <- Hsame, next_id_fresh in Hst. done.
  - unfold RecordStore.promote.
    destruct (RecordStore.statuses st !! id) as [status|] eqn:Hstatus; [|done].
    destruct (decide (status = RecordStore.completed)) as [->|Hnot]; [|done].
    intros x Hx. simpl in *. apply elem_of_app in Hx as [Hx|Hx]; [by apply Hst|].
    apply list_elem_of_singleton in Hx as ->. done.
Qed.

(** Whatever is appended and promoted, the relation holds promotions of
    completed records only. *)
Lemma only_completed_after (ops : list RecordStore.Operation) (st : RecordStore.Store) :
  only_completed st → only_completed (RecordStore.after_operations ops st).
Proof.
  revert st. induction ops as [|op ops IH]; intros st Hst; [done|].
  simpl. by apply IH, only_completed_apply.
Qed.

(** A promotion changes no status. *)
Lemma handle_statuses (decode : option string → option string * string)
    (st : RecordStore.Store) (r : Request) :
  RecordStore.statuses (RecordStore.handle decode st r).2 = RecordStore.statuses st.
Proof.
  unfold RecordStore.handle. destruct (RecordStore.named_by st r) as [id|]; [|done].
  destruct (decode (req_body r)) as [why cat]. simpl. unfold RecordStore.promote.
  destruct (RecordStore.statuses st !! id) as [status|]; [|done].
  by destruct (decide (status = RecordStore.completed)).
Qed.

Lemma handled_statuses (decode : option string → option string * string)
    (st : RecordStore.Store) (history : list Request) :
  RecordStore.statuses (foldl (λ st r, (RecordStore.handle decode st r).2) st history)
  = RecordStore.statuses st.
Proof.
  revert st. induction history as [|r history IH]; intros st; [done|].
  simpl. by rewrite IH, handle_statuses.
Qed.

(** The backend refuses the promotion of a record that is not completed,
    whatever it has handled before, and keeps its store. *)
Lemma serve_refuses (decode : option string → option string * string)
    (st : RecordStore.Store) (history : list Request) (r : Request) (id : nat)
    (status : RecordStore.Status) :
  RecordStore.statuses st !! id = Some status → status ≠ RecordStore.completed →
  req_url r = RecordStore.promotion_url id →
  let now := foldl (λ st r, (RecordStore.handle decode st r).2) st history in
  RecordStore.serve decode st history r
  = Responded 200 "OK"
      (inl (JObj [("success", JBool false); ("detail", JStr "InvalidState")]))
  ∧ (RecordStore.handle decode now r).2 = now.
Proof.
  intros Hstatus Hnot Hurl now.
  assert (Hnow : RecordStore.statuses now !! id = Some status)
    by (unfold now; by rewrite handled_statuses).
  unfold RecordStore.serve. fold now. unfold RecordStore.handle.
  rewrite (named_by_promotion now r id status Hnow Hurl).
  destruct (decode (req_body r)) as [why cat]. simpl.
  by rewrite (promote_refuses now id why cat status Hnow Hnot).
Qed.

(** The promotion is offered exactly for the status 'completed'. *)
Lemma promotion_offered (record status : JsVal) (html : string) :
  get record "status" = Normal status →
  records.promotion record = Normal html →
  html ≠ "" ↔ status = JStr "completed".
Proof.
  intros Hstatus. unfold records.promotion. rewrite Hstatus. simpl.
  destruct (strict_eq_string status "completed") eqn:Hcompleted.
  - apply strict_eq_string_spec in Hcompleted as ->.
    destruct (get record "id") as [id|]; simpl; [|done].
    destruct (ToString id) as [id_text|]; simpl; [|done].
    intros [= <-]. split; [done|]. by intros _.
  - intros [= <-]. split; [done|]. intros Hcompleted'.
    apply strict_eq_string_spec in Hcompleted'. congruence.
Qed.

(** C2: [loadRecords] shows the rows of the records, and the last cell of a
    row holds the button '查看' and after it the button '加入优秀', which
    calls [records.addToExcellent] on the id, exactly when the status of the
    record is the string 'completed'.  A promotion the server answers with
    [success] false is reported in an error notification, with no word of
    success and no reload of the records, and the script keeps nothing of it:
    its state is as before but for these effects.  In the record store,
    whatever is appended and promoted, the relation holds promotions of
    completed records only; the promotion of any other record fails with
    [InvalidState] and leaves the store as it was; and the client of a
    backend on such a store, asked to promote such a record, reports the
    failure, whatever the backend has handled before. *)
Theorem promotion_only_of_completed :
  (∀ (p : Page) (s : Script) (page limit : nat) (response data : JsVal) (html : string),
     present "loading" p → records_tbody p = true →
     answered p (requests (trace s)) (GET (records_url page limit)) response →
     get response "data" = Normal data →
     records.records_html (or_else data (JArr [])) = Normal html →
     trace (run (records.loadRecords page limit) p s)
     = trace s ++ records_shown page limit html)
  ∧ (∀ (items : list JsVal) (html : string),
       items ≠ [] →
       records.records_html (JArr items) = Normal html →
       ∃ rows, sequence (records.record_row <$> items) = Normal rows
               ∧ html = join "" rows)
  ∧ (∀ (record : JsVal) (html : string),
       records.record_row record = Normal html →
       ∃ cells actions,
         records.record_cells record = Normal cells
         ∧ records.record_actions record = Normal actions
         ∧ html = cells +:+ actions +:+ records.row_end)
  ∧ (∀ (record id status : JsVal) (id_text : string),
       get record "id" = Normal id → ToString id = Normal id_text →
       get record "status" = Normal status →
       (status = JStr "completed" →
        records.record_actions record
        = Normal (("<button class=" +:+ dq +:+ "btn btn-secondary" +:+ dq +:+ " onclick=" +:+ dq
                   +:+ "records.viewRecord(" +:+ id_text +:+ ")" +:+ dq +:+ ">查看</button>")
                  +:+ "
                        "
                  +:+ "<button class=" +:+ dq +:+ "btn btn-primary" +:+ dq +:+ " onclick=" +:+ dq
                  +:+ "records.addToExcellent(" +:+ id_text +:+ ")" +:+ dq
                  +:+ ">加入优秀</button>"))
       ∧ (status ≠ JStr "completed" →
          records.record_actions record
          = Normal (("<button class=" +:+ dq +:+ "btn btn-secondary" +:+ dq +:+ " onclick="
                     +:+ dq +:+ "records.viewRecord(" +:+ id_text +:+ ")" +:+ dq
                     +:+ ">查看</button>")
                    +:+ "
                        "))
       ∧ ∀ html : string,
           records.promotion record = Normal html →
           html ≠ "" ↔ status = JStr "completed")
  ∧ (∀ (p : Page) (s : Script) (recordId response : JsVal) (id_text : string),
       ToString recordId = Normal id_text →
       present "notifications" p →
       answered p (requests (trace s))
         (POST (excellent_url id_text) (records.excellent_body (prompt_reply p))) response →
       get response "success" = Normal (JBool false) →
       records.addToExcellent recordId p s
       = (Normal tt,
          mkScript (models_selectedModel s) (monitoring_gpuChart s)
            (trace s ++ [Prompt "请输入加入优秀记录的理由（可选）:";
                         ConsoleLog ("/api/records/" +:+ id_text +:+ "/excellent");
                         Fetch (POST ("/api/records/" +:+ id_text +:+ "/excellent")
                                  (records.excellent_body (prompt_reply p)));
                         Notify "加入优秀记录失败" "error" 3000%N])))
  ∧ (∀ (ops : list RecordStore.Operation) (x : RecordStore.ExcellentRecord),
       x ∈ RecordStore.excellent (RecordStore.after_operations ops RecordStore.empty) →
       RecordStore.statuses (RecordStore.after_operations ops RecordStore.empty)
         !! RecordStore.record_id x
       = Some RecordStore.completed)
  ∧ (∀ (st : RecordStore.Store) (id : nat) (why : option string) (cat : string)
       (status : RecordStore.Status),
       RecordStore.statuses st !! id = Some status →
       status ≠ RecordStore.completed →
       RecordStore.promote id why cat st = inr RecordStore.InvalidState
       ∧ RecordStore.apply (RecordStore.Promote id why cat) st = st)
  ∧ (∀ (decode : option string → option string * string) (p : Page) (s : Script)
       (st : RecordStore.Store) (id : nat) (status : RecordStore.Status) (recordId : JsVal),
       server p = RecordStore.serve decode st →
       RecordStore.statuses st !! id = Some status →
       status ≠ RecordStore.completed →
       ToString recordId = Normal (pretty id) →
       present "notifications" p →
       records.addToExcellent recordId p s
       = (Normal tt,
          mkScript (models_selectedModel s) (monitoring_gpuChart s)
            (trace s ++ promotion_refused (pretty id) (prompt_reply p)))
       ∧ let now := foldl (λ st r, (RecordStore.handle decode st r).2) st
                      (requests (trace s)) in
         (RecordStore.handle decode now
            (POST (excellent_url (pretty id)) (records.excellent_body (prompt_reply p)))).2
         = now).
Proof.
  split; [exact loadRecords_renders|].
  split; [exact records_html_rows|].
  split; [exact record_row_parts|].
  split; [|split; [|split; [|split]]].
  - intros record id status id_text Hid Htext Hstatus.
    pose proof (record_actions_completed record id status id_text Hid Htext Hstatus)
      as Hactions.
    split; [|split].
    + intros ->. by rewrite Hactions.
    + intros Hnot. rewrite Hactions.
      destruct (strict_eq_string status "completed") eqn:Hcompleted; [|done].
      by apply strict_eq_string_spec in Hcompleted.
    + intros html. by apply promotion_offered.
  - intros p s recordId response id_text Htext Hnote Hanswer Hsuccess.
    by apply (addToExcellent_refused p s recordId response id_text).
  - intros ops x. apply only_completed_after. by intros y Hy%elem_of_nil.
  - intros st id why cat status Hstatus Hnot.
    pose proof (promote_refuses st id why cat status Hstatus Hnot) as Hrefused.
    split; [done|]. simpl. by rewrite Hrefused.
  - intros decode p s st id status recordId Hserver Hstatus Hnot Htext Hnote.
    destruct (serve_refuses decode st (requests (trace s))
                (POST (excellent_url (pretty id)) (records.excellent_body (prompt_reply p)))
                id status Hstatus Hnot eq_refl) as [Hserved Hkept].
    split; [|exact Hkept].
    apply (addToExcellent_refused p s recordId
             (JObj [("success", JBool false); ("detail", JStr "InvalidState")])
             (pretty id) Htext Hnote); [|done].
    exists 200%nat, "OK". split; [done|]. by rewrite Hserver.
Qed.
End Records.

(** *** The properties at the sample page *)

Lemma submitBatchEvaluation_empty_selection_witness :
  requests (trace (run (@evaluation.submitBatchEvaluation Sample.host)
                     (Sample.page "{}" [] JNull) initial)) = [].
Proof.
  exact (proj1 (@submitBatchEvaluation_empty_selection Sample.host
                  (Sample.page "{}" [] JNull) initial eq_refl)).
Defined.

Lemma submitSingleEvaluation_rejects_invalid_witness :
  requests (trace (run (@evaluation.submitSingleEvaluation Sample.host)
                     (Sample.page "{" [] JNull) initial)) = [].
Proof.
  apply (@submitSingleEvaluation_rejects_invalid Sample.host
           (Sample.page "{" [] JNull) initial "/models/a" "ds1" "{").
  - vm_compute. reflexivity.
  - right. right. split; [discriminate | reflexivity].
Defined.

(** C3, the claim as first stated, fails: the model path and the dataset name
    are not empty, the configuration text does not parse, and no request is
    made. *)
Lemma submitSingleEvaluation_malformed_config_counterexample :
  single_inputs (Sample.page "{" [] JNull) = Some ("/models/a", "ds1", "{")
  ∧ @JSON_parse Sample.host "{" = None
  ∧ requests (trace (run (@evaluation.submitSingleEvaluation Sample.host)
                       (Sample.page "{" [] JNull) initial)) = [].
Proof. repeat split; vm_compute; reflexivity. Qed.

Lemma submissions_post_their_body_witness :
  requests (trace (run (@evaluation.submitSingleEvaluation Sample.host)
                     (Sample.page "{}" [] JNull) initial))
  = [POST "/api/evaluation/single"
       (Sample.stringify
          (JObj [("model_path", JStr "/models/a"); ("dataset_name", JStr "ds1");
                 ("config", JObj [])]))]
  ∧ requests (trace (run (@evaluation.submitBatchEvaluation Sample.host)
                       (Sample.page "{}" ["/models/a"; "/models/b"] JNull) initial))
    = [POST "/api/evaluation/batch"
         (Sample.stringify
            (JObj [("model_paths", JArr [JStr "/models/a"; JStr "/models/b"]);
                   ("dataset_name", JStr "ds1"); ("task_name", JStr "nightly");
                   ("parallel", JBool true)]))].
Proof.
  split.
  - apply (proj1 (@submissions_post_their_body Sample.host)
             (Sample.page "{}" [] JNull) initial "/models/a" "ds1" "{}" (JObj [])).
    + vm_compute. reflexivity.
    + discriminate.
    + discriminate.
    + right. split; [discriminate | reflexivity].
    + vm_compute. eexists. reflexivity.
  - apply (proj2 (@submissions_post_their_body Sample.host)
             (Sample.page "{}" ["/models/a"; "/models/b"] JNull) initial
             ["/models/a"; "/models/b"] "ds1" "nightly" true).
    + vm_compute. reflexivity.
    + discriminate.
    + discriminate.
    + vm_compute. eexists. reflexivity.
Defined.

Lemma submission_answer_handling_witness :
  trace (run (@evaluation.submitSingleEvaluation Sample.host)
           (Sample.page "{}" [] (JObj [("success", JBool true)])) initial)
  = accepted "/api/evaluation/single"
      (@evaluation.single_body Sample.host "/models/a" "ds1" (JObj []))
      "单模型测评任务已创建" "single-evaluation-form"
  ∧ trace (run (@evaluation.submitBatchEvaluation Sample.host)
             (Sample.page "{}" ["/models/a"]
                (JObj [("success", JBool false); ("detail", JStr "NotFound")])) initial)
    = refused "/api/evaluation/batch"
        (@evaluation.batch_body Sample.host ["/models/a"] "ds1" "nightly" true)
        "创建批量测评失败: NotFound".
Proof.
  split.
  - apply (proj1 (@submission_answer_handling Sample.host)
             (Sample.page "{}" [] (JObj [("success", JBool true)])) initial
             "/models/a" "ds1" "{}" (JObj []) (JObj [("success", JBool true)])).
    + vm_compute. reflexivity.
    + discriminate.
    + discriminate.
    + right. split; [discriminate | reflexivity].
    + vm_compute. eexists. reflexivity.
    + vm_compute. eexists. reflexivity.
    + exists 200%nat, "OK". split; reflexivity.
    + reflexivity.
  - apply (proj2 (@submission_answer_handling Sample.host)
             (Sample.page "{}" ["/models/a"]
                (JObj [("success", JBool false); ("detail", JStr "NotFound")])) initial
             ["/models/a"] "ds1" "nightly" true
             (JObj [("success", JBool false); ("detail", JStr "NotFound")]))
      with (detail := JStr "NotFound").
    + vm_compute. reflexivity.
    + discriminate.
    + discriminate.
    + vm_compute. eexists. reflexivity.
    + vm_compute. eexists. reflexivity.
    + exists 200%nat, "OK". split; reflexivity.
    + reflexivity.
    + reflexivity.
    + reflexivity.
Defined.

Lemma loadStats_gpu_usage_witness :
  trace (run (@dashboard.loadStats Sample.host) (Sample.page "" [] Sample.two_gpus) initial)
  = stats_calls ++ [SetText "total-models" "0"; SetText "total-datasets" "0";
                    SetText "total-evaluations" "0"; SetText "gpu-usage" "37%"]
  ∧ trace (run (@dashboard.loadStats Sample.host) (Sample.page "" [] Sample.no_gpu) initial)
    = stats_calls ++ [SetText "total-models" "0"; SetText "total-datasets" "0";
                      SetText "total-evaluations" "0"; SetText "gpu-usage" "0%"].
Proof.
  assert (Hanswers : ∀ answer history r,
            answered (Sample.page "" [] answer) history r answer).
  { intros answer history r. exists 200%nat, "OK". split; reflexivity. }
  split.
  - refine (proj1 (@loadStats_gpu_usage Sample.host (Sample.page "" [] Sample.two_gpus) initial
                     Sample.two_gpus Sample.two_gpus Sample.two_gpus Sample.two_gpus
                     (JObj [("gpus", JArr [JObj [("utilization_gpu", JNum 37%float)];
                                           JObj [("utilization_gpu", JNum 99%float)]])])
                     "0" "0" "0" _ _ _ _ _ _ _ _ _)
              (JObj [("utilization_gpu", JNum 37%float)])
              [JObj [("utilization_gpu", JNum 99%float)]] "37" _ _);
      first [ by repeat split; apply Hanswers
            | by vm_compute; eexists
            | by vm_compute ].
  - refine (proj2 (@loadStats_gpu_usage Sample.host (Sample.page "" [] Sample.no_gpu) initial
                     Sample.no_gpu Sample.no_gpu Sample.no_gpu Sample.no_gpu (JObj [("gpus", JArr [])])
                     "0" "0" "0" _ _ _ _ _ _ _ _ _) _);
      first [ by repeat split; apply Hanswers
            | by vm_compute; eexists
            | by vm_compute
            | by right; left ].
Defined.

Lemma chart_buffer_bounded_witness :
  chart_bounded (@after Sample.host Sample.chart_calls initial).
Proof. exact (proj1 (@chart_buffer_bounded Sample.host Sample.chart_calls)). Defined.

(** After 21 updates the buffer holds 20 points. *)
Example chart_after_21_updates :
  (λ chart, (length (chart_labels chart), length (chart_data chart)))
    <$> monitoring_gpuChart (@after Sample.host Sample.chart_calls initial)
  = Some (20%nat, 20%nat).
Proof. vm_compute. reflexivity. Qed.



Lemma promotion_only_of_completed_witness :
  @records.addToExcellent Sample.host (JNum 7%float) Scenario.backed initial
  = (Normal tt, mkScript None None (@promotion_refused Sample.host "7" None)).
Proof.
  apply (proj1 (proj2 (proj2 (proj2 (proj2 (proj2 (proj2 (proj2
           (@promotion_only_of_completed Sample.host)))))))
           Scenario.decode Scenario.backed initial Sample.store 7%nat RecordStore.failed
           (JNum 7%float) eq_refl eq_refl ltac:(discriminate) eq_refl
           ltac:(vm_compute; eexists; reflexivity))).
Defined.

(** C2, the claim as first stated, fails.  It has the client record the
    promotion as rejected, and the client records nothing: asked to promote
    record 7, which failed, on a page whose backend refuses it, the script
    ends in the state it started from but for the prompt, the request and
    the error notification, and the store of the backend is as it was. *)
Lemma addToExcellent_keeps_no_rejection_counterexample :
  let request :=
    POST "/api/records/7/excellent"
      (Sample.stringify (JObj [("reason", JNull); ("category", JStr "general")])) in
  run (@records.addToExcellent Sample.host (JNum 7%float)) Scenario.backed initial
  = mkScript None None
      [Prompt "请输入加入优秀记录的理由（可选）:"; ConsoleLog "/api/records/7/excellent";
       Fetch request; Notify "加入优秀记录失败" "error" 3000%N]
  ∧ (RecordStore.handle Scenario.decode Sample.store request).2 = Sample.store.
Proof. vm_compute. split; reflexivity. Qed.

(** ** Further properties *)

(** Unfolds the monad and leaves the functions of [utils] folded. *)
Ltac js_bind :=
  cbv beta iota zeta delta
    [run outcome mbind M_bind mret M_ret try_catch try_finally lift throw attempt].

(** *** Requests *)

Section Requests.
Context `{Host}.

Lemma requests_add_effect (e : Effect) (s : Script) :
  requests (trace (add_effect e s))
  = requests (trace s) ++ match e with Fetch r => [r] | _ => [] end.
Proof. unfold add_effect. simpl. rewrite requests_app. by destruct e. Qed.

Lemma apiRequest_call_run (url : string) (options : Options) (p : Page) (s : Script) :
  utils.apiRequest_call url options p s
  = (Normal (server p (requests (trace s)) (api_request url options)),
     add_effect (Fetch (api_request url options)) (add_effect (ConsoleLog url) s)).
Proof.
  unfold utils.apiRequest_call. js_unfold.
  by rewrite requests_add_effect, app_nil_r.
Qed.

Lemma apiRequest_settle_quiet (settled : FetchResult) (p : Page) (s : Script) :
  requests (trace (utils.apiRequest_settle settled p s).2) = requests (trace s).
Proof.
  unfold utils.apiRequest_settle. js_unfold.
  repeat case_match; simplify_eq; simpl;
    rewrite ?requests_app; simpl; rewrite ?app_nil_r; done.
Qed.

Lemma apiRequest_requests (url : string) (options : Options) (p : Page) (s : Script) :
  requests (trace (utils.apiRequest url options p s).2)
  = requests (trace s) ++ [api_request url options].
Proof.
  unfold utils.apiRequest. js_bind. rewrite apiRequest_call_run.
  rewrite apiRequest_settle_quiet, !requests_add_effect. simpl.
  by rewrite app_nil_r.
Qed.

(** X1: [utils.apiRequest] makes exactly one request on every page and in
    every state, whatever the server answers: to the API base followed by the
    address, with the JSON content type and the method and body of its
    caller, and with no method and no body when its caller passes no
    options.  It never retries and never gives up before asking. *)
Theorem apiRequest_one_request (url : string) (options : Options) (p : Page) (s : Script) :
  requests (trace (run (utils.apiRequest url options) p s))
  = requests (trace s)
    ++ [mkRequest ("http://localhost:9000" +:+ url) (opt_method options)
          [("Content-Type", "application/json")] (opt_body options)]
  ∧ requests (trace (run (utils.apiRequest url no_options) p s))
    = requests (trace s)
      ++ [mkRequest ("http://localhost:9000" +:+ url) None
            [("Content-Type", "application/json")] None].
Proof. split; apply apiRequest_requests. Qed.

(** The request succeeds: the body is returned and nothing is shown. *)
Lemma apiRequest_answered (url : string) (options : Options) (p : Page) (s : Script)
    (body : JsVal) :
  answered p (requests (trace s)) (api_request url options) body →
  utils.apiRequest url options p s
  = (Normal body,
     add_effect (Fetch (api_request url options)) (add_effect (ConsoleLog url) s)).
Proof.
  intros (status & text & Hok & Hanswer).
  unfold utils.apiRequest. js_bind. rewrite apiRequest_call_run, Hanswer.
  unfold utils.apiRequest_settle. js_unfold. by rewrite Hok.
Qed.

Lemma apiRequest_settle_failed (settled : FetchResult) (error : JsError) (p : Page)
    (s : Script) :
  failure_of settled = Some error → present "notifications" p →
  utils.apiRequest_settle settled p s
  = (Throw error,
     add_effect (Notify ("请求失败: " +:+ err_message error) "error" 3000%N)
       (add_effect (ConsoleError "API请求失败:") s)).
Proof.
  intros Hfailure [notifications Hnotifications].
  unfold utils.apiRequest_settle, failure_of in *. js_unfold.
  destruct settled as [e|status text [body|e]]; simpl in *;
    try destruct (response_ok status); simplify_eq; simpl;
    by rewrite Hnotifications.
Qed.

Lemma apiRequest_failed (url : string) (options : Options) (p : Page) (s : Script)
    (error : JsError) :
  failed p (requests (trace s)) (api_request url options) error →
  present "notifications" p →
  utils.apiRequest url options p s
  = (Throw error,
     add_effect (Notify ("请求失败: " +:+ err_message error) "error" 3000%N)
       (add_effect (ConsoleError "API请求失败:")
          (add_effect (Fetch (api_request url options))
             (add_effect (ConsoleLog url) s)))).
Proof.
  intros Hfailed Hnote.
  unfold utils.apiRequest. js_bind. rewrite apiRequest_call_run.
  by rewrite (apiRequest_settle_failed _ error).
Qed.

(** X2: a request that fails (the fetch rejects, the status is outside
    200-299, or the body is not JSON) is logged, announced in an error
    notification that carries the message of the error, and thrown on to the
    caller as that same error; for a bad status the message is
    "HTTP <status>: <statusText>" and the body is not read. *)
Theorem apiRequest_failure (url : string) (options : Options) (p : Page) (s : Script)
    (error : JsError) :
  failed p (requests (trace s)) (api_request url options) error →
  present "notifications" p →
  outcome (utils.apiRequest url options) p s = Throw error
  ∧ trace (run (utils.apiRequest url options) p s)
    = trace s ++ request_failed url options error
  ∧ ∀ (status : nat) (statusText : string) (json : JsVal + JsError),
      server p (requests (trace s)) (api_request url options)
      = Responded status statusText json →
      response_ok status = false →
      err_message error = "HTTP " +:+ pretty status +:+ ": " +:+ statusText.
Proof.
  intros Hfailed Hnote. unfold run, outcome.
  rewrite (apiRequest_failed url options p s error Hfailed Hnote).
  repeat split.
  - unfold add_effect, request_failed. simpl. by rewrite <- !app_assoc.
  - intros status statusText json Hserver Hbad.
    unfold failed, failure_of in Hfailed. rewrite Hserver, Hbad in Hfailed.
    by simplify_eq.
Qed.
End Requests.

(** *** What a function may do *)

Section Effects.
Context `{Host}.

Lemma only_refl (allowed : Effect → Prop) (s : Script) : only allowed s s.
Proof. exists []. by rewrite app_nil_r. Qed.

Lemma only_trans (allowed : Effect → Prop) (s1 s2 s3 : Script) :
  only allowed s1 s2 → only allowed s2 s3 → only allowed s1 s3.
Proof.
  intros (more1 & H1 & Hall1) (more2 & H2 & Hall2). exists (more1 ++ more2).
  split; [by rewrite H2, H1, app_assoc|by apply Forall_app].
Qed.

Lemma only_add (allowed : Effect → Prop) (e : Effect) (s : Script) :
  allowed e → only allowed s (add_effect e s).
Proof. intros He. exists [e]. split; [done|by apply Forall_singleton]. Qed.

Lemma only_requests (s s' : Script) :
  only no_request s s' → requests (trace s') = requests (trace s).
Proof.
  intros (more & -> & Hall). rewrite requests_app.
  assert (requests more = []) as ->; [|by rewrite app_nil_r].
  induction Hall as [|e more He _ IH]; [done|]. by destruct e.
Qed.

Lemma emits_ret {A} (allowed : Effect → Prop) (a : A) : emits_only allowed (mret a).
Proof. intros p s. apply only_refl. Qed.

Lemma emits_throw {A} (allowed : Effect → Prop) (e : JsError) :
  emits_only allowed (throw (A:=A) e).
Proof. intros p s. apply only_refl. Qed.

Lemma emits_lift {A} (allowed : Effect → Prop) (c : Completion A) :
  emits_only allowed (lift c).
Proof. intros p s. apply only_refl. Qed.

Lemma emits_ask (allowed : Effect → Prop) : emits_only allowed ask.
Proof. intros p s. apply only_refl. Qed.

Lemma emits_get_script (allowed : Effect → Prop) : emits_only allowed get_script.
Proof. intros p s. apply only_refl. Qed.

Lemma emits_put_gpuChart (allowed : Effect → Prop) (c : option Chart) :
  emits_only allowed (put_gpuChart c).
Proof. intros p s. exists []. by rewrite app_nil_r. Qed.

Lemma emits_emit (allowed : Effect → Prop) (e : Effect) :
  allowed e → emits_only allowed (emit e).
Proof. intros He p s. by apply only_add. Qed.

Lemma emits_fetch (allowed : Effect → Prop) (r : Request) :
  allowed (Fetch r) → emits_only allowed (fetch r).
Proof. intros He p s. by apply only_add. Qed.

Lemma emits_bind {A B} (allowed : Effect → Prop) (m : M A) (k : A → M B) :
  emits_only allowed m → (∀ a, emits_only allowed (k a)) → emits_only allowed (m ≫= k).
Proof.
  intros Hm Hk p s. unfold run, mbind, M_bind. specialize (Hm p s). unfold run in Hm.
  destruct (m p s) as [[a|e] s']; simpl in *; [|done].
  apply only_trans with s'; [done|apply Hk].
Qed.

Lemma emits_try_catch {A} (allowed : Effect → Prop) (body : M A) (handler : JsError → M A) :
  emits_only allowed body → (∀ e, emits_only allowed (handler e)) →
  emits_only allowed (try_catch body handler).
Proof.
  intros Hbody Hhandler p s. unfold run, try_catch. specialize (Hbody p s).
  unfold run in Hbody.
  destruct (body p s) as [[a|e] s']; simpl in *; [done|].
  apply only_trans with s'; [done|apply Hhandler].
Qed.

Lemma emits_try_finally {A} (allowed : Effect → Prop) (body : M A) (final : M unit) :
  emits_only allowed body → emits_only allowed final →
  emits_only allowed (try_finally body final).
Proof.
  intros Hbody Hfinal p s. unfold run, try_finally. specialize (Hbody p s).
  unfold run in Hbody.
  destruct (body p s) as [c s']. specialize (Hfinal p s'). unfold run in Hfinal.
  destruct (final p s') as [[[]|e] s'']; simpl in *; by apply only_trans with s'.
Qed.

Lemma emits_attempt {A} (allowed : Effect → Prop) (m : M A) :
  emits_only allowed m → emits_only allowed (attempt m).
Proof.
  intros Hm p s. unfold run, attempt. specialize (Hm p s). unfold run in Hm.
  by destruct (m p s).
Qed.

Lemma emits_weaken {A} (allowed wider : Effect → Prop) (m : M A) :
  (∀ e, allowed e → wider e) → emits_only allowed m → emits_only wider m.
Proof.
  intros Hwider Hm p s. destruct (Hm p s) as (more & Hmore & Hall).
  exists more. split; [done|]. by apply (Forall_impl _ _ _ Hall).
Qed.

End Effects.

Create HintDb emits.

(** Proves [emits_only] of a function built from pieces known to. *)
Ltac emits_tac :=
  repeat first
    [ simple apply @emits_ret | simple apply @emits_throw | simple apply @emits_lift
    | simple apply emits_ask | simple apply emits_get_script
    | simple apply emits_put_gpuChart
    | simple apply emits_emit; [exact I]
    | simple apply emits_fetch; [exact I]
    | simple apply @emits_attempt
    | simple apply @emits_try_finally
    | simple apply @emits_try_catch; [|intros ?]
    | simple apply @emits_bind; [|intros ?]
    | solve [auto with emits]
    | case_match ].

Section EffectsOfHelpers.
Context `{Host}.

Lemma emits_getElementById (allowed : Effect → Prop) (id : string) :
  emits_only allowed (getElementById id).
Proof. unfold getElementById. emits_tac. Qed.

Lemma emits_deref {A} (allowed : Effect → Prop) (x : option A) :
  emits_only allowed (deref x).
Proof. unfold deref. emits_tac. Qed.

Lemma emits_new_FormData (allowed : Effect → Prop) (form : option Element) :
  emits_only allowed (new_FormData form).
Proof. unfold new_FormData. emits_tac. Qed.

#[local] Hint Resolve emits_getElementById emits_deref emits_new_FormData : emits.

Lemma emits_value_of (allowed : Effect → Prop) (id : string) :
  emits_only allowed (value_of id).
Proof. unfold value_of. emits_tac. Qed.

Lemma emits_showNotification (allowed : Effect → Prop) (message type : string) (duration : N) :
  allowed (Notify message type duration) →
  emits_only allowed (utils.showNotification message type duration).
Proof. intros He. unfold utils.showNotification. emits_tac. by apply emits_emit. Qed.

Lemma emits_showLoading (allowed : Effect → Prop) (show : bool) :
  (∀ value, allowed (Display "loading" value)) →
  emits_only allowed (utils.showLoading show).
Proof. intros He. unfold utils.showLoading. emits_tac; by apply emits_emit. Qed.

Lemma emits_showModal (allowed : Effect → Prop) (title content : string) :
  allowed (SetText "modal-title" title) → allowed (SetHtml "modal-body" content) →
  allowed (Display "modal" "block") →
  emits_only allowed (utils.showModal title content).
Proof. intros. unfold utils.showModal. emits_tac; by apply emits_emit. Qed.

Lemma emits_set_innerHTML (allowed : Effect → Prop) (id : string) (html : Completion string) :
  (∀ text, allowed (SetHtml id text)) →
  emits_only allowed (set_innerHTML id html).
Proof. intros. unfold set_innerHTML. emits_tac; by apply emits_emit. Qed.

Lemma emits_set_textContent (allowed : Effect → Prop) (id : string) (value : Completion JsVal) :
  (∀ text, allowed (SetText id text)) →
  emits_only allowed (set_textContent id value).
Proof. intros. unfold set_textContent. emits_tac; by apply emits_emit. Qed.

Lemma emits_apiRequest_settle (allowed : Effect → Prop) (settled : FetchResult) :
  (∀ e, log_or_notice e → allowed e) →
  emits_only allowed (utils.apiRequest_settle settled).
Proof.
  intros He. unfold utils.apiRequest_settle.
  emits_tac; first [ by apply emits_emit, He | by apply emits_showNotification, He ].
Qed.

Lemma emits_apiRequest (allowed : Effect → Prop) (url : string) (options : Options) :
  (∀ e, log_or_notice e → allowed e) → allowed (Fetch (api_request url options)) →
  emits_only allowed (utils.apiRequest url options).
Proof.
  intros He Hfetch. unfold utils.apiRequest, utils.apiRequest_call.
  emits_tac; first [ by apply emits_emit, He | by apply emits_fetch
                   | by apply emits_apiRequest_settle ].
Qed.

#[local] Hint Resolve emits_value_of : emits.
#[local] Hint Extern 1 (emits_only any_effect (utils.showNotification _ _ _)) =>
  simple apply emits_showNotification; exact I : emits.
#[local] Hint Extern 1 (emits_only any_effect (utils.showLoading _)) =>
  simple apply emits_showLoading; intros ?; exact I : emits.
#[local] Hint Extern 1 (emits_only any_effect (utils.showModal _ _)) =>
  simple apply emits_showModal; exact I : emits.
#[local] Hint Extern 1 (emits_only any_effect (set_innerHTML _ _)) =>
  simple apply emits_set_innerHTML; intros ?; exact I : emits.
#[local] Hint Extern 1 (emits_only any_effect (set_textContent _ _)) =>
  simple apply emits_set_textContent; intros ?; exact I : emits.
#[local] Hint Extern 1 (emits_only any_effect (utils.apiRequest _ _)) =>
  simple apply emits_apiRequest; [intros ? ?; exact I|exact I] : emits.

End EffectsOfHelpers.

#[local] Hint Resolve emits_getElementById emits_deref emits_new_FormData emits_value_of
  : emits.
#[local] Hint Extern 1 (emits_only any_effect (utils.showNotification _ _ _)) =>
  simple apply emits_showNotification; exact I : emits.
#[local] Hint Extern 1 (emits_only any_effect (utils.showLoading _)) =>
  simple apply emits_showLoading; intros ?; exact I : emits.
#[local] Hint Extern 1 (emits_only any_effect (utils.showModal _ _)) =>
  simple apply emits_showModal; exact I : emits.
#[local] Hint Extern 1 (emits_only any_effect (set_innerHTML _ _)) =>
  simple apply emits_set_innerHTML; intros ?; exact I : emits.
#[local] Hint Extern 1 (emits_only any_effect (set_textContent _ _)) =>
  simple apply emits_set_textContent; intros ?; exact I : emits.
#[local] Hint Extern 1 (emits_only any_effect (utils.apiRequest _ _)) =>
  simple apply emits_apiRequest; [intros ? ?; exact I|exact I] : emits.

(** *** Running a function step by step *)

Section Steps.
Context `{Host}.

Lemma bind_normal {A B} (m : M A) (k : A → M B) (p : Page) (s s1 : Script) (a : A) :
  m p s = (Normal a, s1) → (m ≫= k) p s = k a p s1.
Proof. intros Hm. unfold mbind, M_bind. by rewrite Hm. Qed.

Lemma bind_throw {A B} (m : M A) (k : A → M B) (p : Page) (s s1 : Script) (e : JsError) :
  m p s = (Throw e, s1) → (m ≫= k) p s = (Throw e, s1).
Proof. intros Hm. unfold mbind, M_bind. by rewrite Hm. Qed.

Lemma try_catch_bind_normal {A B} (m : M A) (k : A → M B) (handler : JsError → M B)
    (p : Page) (s s1 : Script) (a : A) :
  m p s = (Normal a, s1) →
  try_catch (m ≫= k) handler p s = try_catch (k a) handler p s1.
Proof. intros Hm. unfold try_catch, mbind, M_bind. by rewrite Hm. Qed.

Lemma try_catch_bind_throw {A B} (m : M A) (k : A → M B) (handler : JsError → M B)
    (p : Page) (s s1 : Script) (e : JsError) :
  m p s = (Throw e, s1) →
  try_catch (m ≫= k) handler p s = handler e p s1.
Proof. intros Hm. unfold try_catch, mbind, M_bind. by rewrite Hm. Qed.

Lemma showLoading_run (show : bool) (p : Page) (s : Script) :
  present "loading" p →
  utils.showLoading show p s
  = (Normal tt, add_effect (Display "loading" (if show then "flex" else "none")) s).
Proof. intros [loading Hloading]. js_unfold. rewrite Hloading. by destruct show. Qed.

Lemma showNotification_run (message type : string) (duration : N) (p : Page) (s : Script) :
  present "notifications" p →
  utils.showNotification message type duration p s
  = (Normal tt, add_effect (Notify message type duration) s).
Proof. intros [notifications Hnotifications]. js_unfold. by rewrite Hnotifications. Qed.

(** A loader whose request fails hands the error to its handler. *)
Lemma load_request_failed {B} (url : string) (options : Options) (k : JsVal → M B)
    (handler : JsError → M B) (p : Page) (s : Script) (error : JsError) :
  failed p (requests (trace s)) (api_request url options) error →
  present "notifications" p →
  try_catch (utils.apiRequest url options ≫= k) handler p s
  = handler error p
      (add_effect (Notify ("请求失败: " +:+ err_message error) "error" 3000%N)
         (add_effect (ConsoleError "API请求失败:")
            (add_effect (Fetch (api_request url options))
               (add_effect (ConsoleLog url) s)))).
Proof.
  intros Hfailed Hnote. apply try_catch_bind_throw. by apply apiRequest_failed.
Qed.

(** A loader whose request succeeds goes on with the body. *)
Lemma load_request_answered {B} (url : string) (options : Options) (k : JsVal → M B)
    (handler : JsError → M B) (p : Page) (s : Script) (body : JsVal) :
  answered p (requests (trace s)) (api_request url options) body →
  try_catch (utils.apiRequest url options ≫= k) handler p s
  = try_catch (k body) handler p
      (add_effect (Fetch (api_request url options)) (add_effect (ConsoleLog url) s)).
Proof. intros Hanswered. apply try_catch_bind_normal. by apply apiRequest_answered. Qed.

(** The same behind the loading indicator. *)
Lemma guarded_request_failed {B} (url : string) (options : Options) (k : JsVal → M B)
    (handler : JsError → M B) (p : Page) (s : Script) (error : JsError) :
  failed p (requests (trace s)) (api_request url options) error →
  present "loading" p → present "notifications" p →
  try_catch (utils.showLoading true ≫= λ _, utils.apiRequest url options ≫= k) handler p s
  = handler error p
      (add_effect (Notify ("请求失败: " +:+ err_message error) "error" 3000%N)
         (add_effect (ConsoleError "API请求失败:")
            (add_effect (Fetch (api_request url options))
               (add_effect (ConsoleLog url)
                  (add_effect (Display "loading" "flex") s))))).
Proof.
  intros Hfailed Hloading Hnote.
  rewrite (try_catch_bind_normal _ _ _ p s _ tt (showLoading_run true p s Hloading)).
  apply load_request_failed; [|done].
  by rewrite requests_add_effect, app_nil_r.
Qed.

Lemma guarded_request_answered {B} (url : string) (options : Options) (k : JsVal → M B)
    (handler : JsError → M B) (p : Page) (s : Script) (body : JsVal) :
  answered p (requests (trace s)) (api_request url options) body →
  present "loading" p →
  try_catch (utils.showLoading true ≫= λ _, utils.apiRequest url options ≫= k) handler p s
  = try_catch (k body) handler p
      (add_effect (Fetch (api_request url options))
         (add_effect (ConsoleLog url) (add_effect (Display "loading" "flex") s))).
Proof.
  intros Hanswered Hloading.
  rewrite (try_catch_bind_normal _ _ _ p s _ tt (showLoading_run true p s Hloading)).
  apply load_request_answered.
  unfold answered. by rewrite requests_add_effect, app_nil_r.
Qed.

(** [try { ... } finally { showLoading(false) }] on a page with the
    indicator. *)
Lemma finally_hide {A} (body : M A) (p : Page) (s : Script) :
  present "loading" p →
  try_finally body (utils.showLoading false) p s
  = ((body p s).1, add_effect (Display "loading" "none") (body p s).2).
Proof.
  intros Hloading. unfold try_finally. destruct (body p s) as [c s1].
  by rewrite (showLoading_run false p s1 Hloading).
Qed.
End Steps.

(** *** The loading indicator *)

Section Loading.
Context `{Host}.

(** A function that shows the indicator, works, and hides it in [finally]. *)
Lemma loading_around {A} (rest : M A) (handler : JsError → M A) (p : Page) (s : Script) :
  present "loading" p →
  emits_only any_effect rest → (∀ e, emits_only any_effect (handler e)) →
  around_loading s
    (run (try_finally (try_catch (utils.showLoading true ≫= λ _, rest) handler)
            (utils.showLoading false)) p s).
Proof.
  intros Hloading Hrest Hhandler. unfold run. rewrite finally_hide by done.
  rewrite (try_catch_bind_normal _ _ _ p s _ tt (showLoading_run true p s Hloading)).
  destruct (emits_try_catch any_effect rest handler Hrest Hhandler p
              (add_effect (Display "loading" "flex") s)) as (middle & Hmiddle & _).
  exists middle. unfold run in Hmiddle. simpl. rewrite Hmiddle. simpl.
  by rewrite <- !app_assoc.
Qed.

Lemma submission_around_loading (url body created failed form log : string)
    (p : Page) (s : Script) :
  present "loading" p →
  around_loading s (run (submission url body created failed form log) p s).
Proof.
  intros Hloading. unfold submission. apply loading_around; [done| |intros e]; emits_tac.
Qed.

(** X3: on a page with the loading indicator, [loadModels], [loadRecords]
    and a submission that passes its checks show the indicator first and hide
    it last, whatever the server answers and whatever fails in between: the
    indicator is never left showing. *)
Theorem loading_indicator_balanced (p : Page) (s : Script) :
  present "loading" p →
  around_loading s (run models.loadModels p s)
  ∧ (∀ page limit : nat, around_loading s (run (records.loadRecords page limit) p s))
  ∧ (∀ (m d raw : string) (config : JsVal),
       single_inputs p = Some (m, d, raw) → m ≠ "" → d ≠ "" →
       config_of (String_trim raw) config →
       around_loading s (run evaluation.submitSingleEvaluation p s))
  ∧ (∀ (selected : list string) (d t : string) (parallel : bool),
       batch_inputs p = Some (selected, d, t, parallel) → selected ≠ [] → d ≠ "" →
       around_loading s (run evaluation.submitBatchEvaluation p s)).
Proof.
  intros Hloading. repeat split.
  - unfold models.loadModels. apply loading_around; [done| |intros e]; emits_tac.
  - intros page limit. unfold records.loadRecords.
    apply loading_around; [done| |intros e]; emits_tac.
  - intros m d raw config Hin Hm Hd Hconfig. unfold run.
    rewrite (submitSingleEvaluation_valid p s m d raw config) by done.
    by apply submission_around_loading.
  - intros selected d t parallel Hin Hsel Hd. unfold run.
    rewrite (submitBatchEvaluation_valid p s selected d t parallel) by done.
    by apply submission_around_loading.
Qed.
End Loading.

(** *** Requests that fail *)

Section Failures.
Context `{Host}.

Lemma submission_request_failed (url body created failed_text form log : string)
    (p : Page) (s : Script) (error : JsError) :
  present "loading" p → present "notifications" p →
  failed p (requests (trace s)) (POST url body) error →
  trace (run (submission url body created failed_text form log) p s)
  = trace s ++ submission_failed url body log error.
Proof.
  intros Hloading Hnote Hfailed. unfold run, submission.
  rewrite finally_hide by done.
  rewrite (guarded_request_failed _ _ _ _ p s error) by done.
  unfold submission_failed, request_failed, emit, add_effect. simpl.
  by rewrite <- !app_assoc.
Qed.

(** X4: a submission whose request fails (no connection, a status outside
    200-299, a body that is not JSON) shows the error notification of the
    request, logs the failure and hides the loading indicator; it announces
    no task, does not reset the form and does not reload the task progress.
    So for the single submission, and so for the batch. *)
Theorem submission_request_failure :
  (∀ (p : Page) (s : Script) (m d raw : string) (config : JsVal) (error : JsError),
     single_inputs p = Some (m, d, raw) → m ≠ "" → d ≠ "" →
     config_of (String_trim raw) config →
     present "loading" p → present "notifications" p →
     let body := evaluation.single_body m d config in
     failed p (requests (trace s)) (POST "/api/evaluation/single" body) error →
     trace (run evaluation.submitSingleEvaluation p s)
     = trace s ++ submission_failed "/api/evaluation/single" body "提交单模型测评失败:" error)
  ∧ (∀ (p : Page) (s : Script) (selected : list string) (d t : string) (parallel : bool)
       (error : JsError),
       batch_inputs p = Some (selected, d, t, parallel) → selected ≠ [] → d ≠ "" →
       present "loading" p → present "notifications" p →
       let body := evaluation.batch_body selected d t parallel in
       failed p (requests (trace s)) (POST "/api/evaluation/batch" body) error →
       trace (run evaluation.submitBatchEvaluation p s)
       = trace s ++ submission_failed "/api/evaluation/batch" body "提交批量测评失败:" error).
Proof.
  split.
  - intros p s m d raw config error Hin Hm Hd Hconfig Hloading Hnote body Hfailed.
    unfold run. rewrite (submitSingleEvaluation_valid p s m d raw config) by done.
    by apply submission_request_failed.
  - intros p s selected d t parallel error Hin Hsel Hd Hloading Hnote body Hfailed.
    unfold run. rewrite (submitBatchEvaluation_valid p s selected d t parallel) by done.
    by apply submission_request_failed.
Qed.

(** X5: a batch submission with models checked and an empty dataset name
    makes no request: the warning that asks for the dataset name is all it
    does. *)
Theorem submitBatchEvaluation_needs_dataset (p : Page) (s : Script)
    (selected : list string) (t : string) (parallel : bool) :
  batch_inputs p = Some (selected, "", t, parallel) → selected ≠ [] →
  requests (trace (run evaluation.submitBatchEvaluation p s)) = requests (trace s)
  ∧ (present "notifications" p →
     trace (run evaluation.submitBatchEvaluation p s)
     = trace s ++ [Notify "请填写数据集名称" "warning" 3000%N]).
Proof.
  intros Hin Hsel. unfold run.
  rewrite (submitBatchEvaluation_inputs p s selected "" t parallel Hin).
  destruct selected as [|model rest]; [done|]. simpl. split.
  - apply showNotification_quiet.
  - intros Hnote. by rewrite showNotification_run.
Qed.

(** X6: the loaders that announce their own failure announce a failed
    request twice: the notification of the request, with the message of the
    error, and then their own.  [loadModels] and [loadRecords] hide the
    loading indicator after it; nothing is rendered. *)
Theorem failed_load_announced_twice (p : Page) (s : Script) (error : JsError) :
  present "notifications" p →
  (present "loading" p →
   failed p (requests (trace s)) (GET "/api/models") error →
   trace (run models.loadModels p s)
   = trace s ++ guarded_load_failed "/api/models" "加载模型数据失败:" "加载模型数据失败" error)
  ∧ (∀ page limit : nat,
       present "loading" p →
       failed p (requests (trace s)) (GET (records_url page limit)) error →
       trace (run (records.loadRecords page limit) p s)
       = trace s ++ guarded_load_failed (records_url page limit) "加载测评记录失败:"
                      "加载测评记录失败" error)
  ∧ (failed p (requests (trace s)) (GET "/api/datasets") error →
     trace (run datasets.loadDatasets p s)
     = trace s ++ load_failed_twice "/api/datasets" "加载数据集数据失败:"
                    "加载数据集数据失败" error)
  ∧ (∀ (stringify : JsVal → string) (recordId : JsVal) (id_text : string),
       ToString recordId = Normal id_text →
       failed p (requests (trace s)) (GET ("/api/records/" +:+ id_text)) error →
       trace (run (records.viewRecord stringify recordId) p s)
       = trace s ++ load_failed_twice ("/api/records/" +:+ id_text) "获取记录详情失败:"
                      "获取记录详情失败" error).
Proof.
  intros Hnote. repeat split.
  - intros Hloading Hfailed. unfold run, models.loadModels.
    rewrite finally_hide by done.
    rewrite (guarded_request_failed _ _ _ _ p s error) by done.
    unfold mbind, M_bind, emit. rewrite showNotification_run by done.
    unfold guarded_load_failed, load_failed_twice, request_failed, add_effect. simpl.
    by rewrite <- !app_assoc.
  - intros page limit Hloading Hfailed. unfold run, records.loadRecords.
    rewrite finally_hide by done.
    rewrite (guarded_request_failed _ _ _ _ p s error) by done.
    unfold mbind, M_bind, emit. rewrite showNotification_run by done.
    unfold guarded_load_failed, load_failed_twice, request_failed, add_effect. simpl.
    by rewrite <- !app_assoc.
  - intros Hfailed. unfold run, datasets.loadDatasets.
    rewrite (load_request_failed _ _ _ _ p s error) by done.
    unfold mbind, M_bind, emit. rewrite showNotification_run by done.
    unfold load_failed_twice, request_failed, add_effect. simpl.
    by rewrite <- !app_assoc.
  - intros stringify recordId id_text Htext Hfailed. unfold run, records.viewRecord.
    rewrite (try_catch_bind_normal _ _ _ p s s id_text) by (by rewrite Htext).
    rewrite (load_request_failed _ _ _ _ p s error) by done.
    unfold mbind, M_bind, emit. rewrite showNotification_run by done.
    unfold load_failed_twice, request_failed, add_effect. simpl.
    by rewrite <- !app_assoc.
Qed.

(** X7: the loaders that only log their failure leave the page as it is
    when their request fails: the notification of the request is shown once,
    the failure is logged, and the element they fill is not written to. *)
Theorem failed_load_leaves_page (p : Page) (s : Script) (error : JsError) :
  present "notifications" p →
  (failed p (requests (trace s)) (GET "/api/evaluation/tasks") error →
   trace (run evaluation.loadTaskProgress p s)
   = trace s ++ load_failed "/api/evaluation/tasks" "加载任务进度失败:" error)
  ∧ (failed p (requests (trace s)) (GET "/api/records?limit=10") error →
     trace (run dashboard.loadRecentActivities p s)
     = trace s ++ load_failed "/api/records?limit=10" "加载最近活动失败:" error)
  ∧ (failed p (requests (trace s)) (GET "/api/monitoring/gpu/status") error →
     trace (run monitoring.loadGPUStatus p s)
     = trace s ++ load_failed "/api/monitoring/gpu/status" "加载GPU状态失败:" error)
  ∧ (failed p (requests (trace s)) (GET "/api/monitoring/nvidia-smi") error →
     trace (run monitoring.loadNvidiaSMI p s)
     = trace s ++ load_failed "/api/monitoring/nvidia-smi" "加载nvidia-smi输出失败:" error)
  ∧ (failed p (requests (trace s)) (GET "/api/monitoring/system/info") error →
     trace (run monitoring.loadSystemInfo p s)
     = trace s ++ load_failed "/api/monitoring/system/info" "加载系统信息失败:" error).
Proof.
  intros Hnote.
  repeat split; intros Hfailed; unfold run;
    [ unfold evaluation.loadTaskProgress | unfold dashboard.loadRecentActivities
    | unfold monitoring.loadGPUStatus | unfold monitoring.loadNvidiaSMI
    | unfold monitoring.loadSystemInfo ];
    rewrite (load_request_failed _ _ _ _ p s error) by done;
    unfold load_failed, request_failed, emit, add_effect; simpl;
    by rewrite <- !app_assoc.
Qed.
End Failures.

(** *** What the functions never do *)

Section Never.
Context `{Host}.

(** X8: searching, filtering and exporting the records are stubs: whatever
    the page, they ask the server nothing and write nothing to the page; a
    line in the console or a notification is all they may leave. *)
Theorem records_stubs_idle :
  emits_only log_or_notice records.searchRecords
  ∧ emits_only log_or_notice records.filterRecords
  ∧ emits_only log_or_notice records.exportRecords.
Proof.
  repeat split.
  - unfold records.searchRecords. emits_tac.
  - unfold records.filterRecords. emits_tac.
  - unfold records.exportRecords. by apply emits_showNotification.
Qed.

End Never.

(** *** The counters of the dashboard *)

Section Counters.
Context `{Host}.

Lemma attempt_run {A} (m : M A) (p : Page) (s : Script) :
  attempt m p s = (Normal (m p s).1, (m p s).2).
Proof. unfold attempt. by destruct (m p s). Qed.

Lemma stats_called_requests (s : Script) :
  requests (trace (stats_called s)) = requests (trace s) ++ stats_requests.
Proof.
  unfold stats_called. rewrite !requests_add_effect, !app_nil_r.
  by rewrite <- !app_assoc.
Qed.

Lemma stats_called_only (allowed : Effect → Prop) (s : Script) :
  (∀ e, no_text e → allowed e) → only allowed s (stats_called s).
Proof.
  intros Hallowed. unfold stats_called.
  repeat (eapply only_trans; [|apply only_add; by apply Hallowed]).
  apply only_refl.
Qed.

(** X9: [loadStats] asks its four addresses, in the order of the array,
    on every page and whatever the server answers to any of them: no request
    waits for the answer to another, and none is left out after a
    failure. *)
Theorem loadStats_four_requests (p : Page) (s : Script) :
  requests (trace (run dashboard.loadStats p s))
  = requests (trace s)
    ++ [GET "/api/models"; GET "/api/datasets"; GET "/api/records?limit=100";
        GET "/api/monitoring/gpu/status"].
Proof.
  unfold run, dashboard.loadStats.
  do 4 (erewrite try_catch_bind_normal; [|apply apiRequest_call_run]).
  transitivity (requests (trace (stats_called s))); [|apply stats_called_requests].
  apply only_requests.
  refine (emits_try_catch no_request _ _ _ _ p _); [|intros e; emits_tac].
  repeat (simple apply @emits_bind;
          [first [ apply emits_attempt, emits_apiRequest_settle; by intros []
                 | apply emits_lift
                 | apply emits_set_textContent; by intros ]
          |intros ?]).
  apply emits_set_textContent; by intros.
Qed.
Lemma apiRequest_settle_throws (settled : FetchResult) (error : JsError) (p : Page)
    (s : Script) :
  failure_of settled = Some error →
  ∃ thrown, (utils.apiRequest_settle settled p s).1 = Throw thrown.
Proof.
  intros Hfailure. unfold utils.apiRequest_settle, failure_of in *. js_unfold.
  destruct settled as [e|status text [body|e]]; simpl in *;
    try destruct (response_ok status); simplify_eq; simpl;
    destruct (by_id p !! "notifications"); simpl; by eexists.
Qed.

(** X10: the counters of the dashboard are all or nothing.  When any one of
    the four requests of [loadStats] fails, no counter is written, not even
    those whose own request succeeded: the dashboard keeps the texts it
    had. *)
Theorem loadStats_all_or_nothing (p : Page) (s : Script) (i : nat) (r : Request)
    (error : JsError) :
  stats_requests !! i = Some r →
  failed p (requests (trace s) ++ take i stats_requests) r error →
  only no_text s (run dashboard.loadStats p s).
Proof.
  intros Hi Hfailed. unfold run, dashboard.loadStats.
  do 4 (erewrite try_catch_bind_normal; [|apply apiRequest_call_run]).
  do 4 (erewrite try_catch_bind_normal; [|apply attempt_run]).
  set (o1 := utils.apiRequest_settle _ p (add_effect _ _)).
  set (o2 := utils.apiRequest_settle _ p o1.2).
  set (o3 := utils.apiRequest_settle _ p o2.2).
  set (o4 := utils.apiRequest_settle _ p o3.2).
  assert (Hsettle : ∀ settled state,
            only no_text state (utils.apiRequest_settle settled p state).2).
  { intros settled state. apply (emits_apiRequest_settle no_text); by intros []. }
  assert (Hchain : only no_text s o4.2).
  { eapply only_trans; [|apply Hsettle]. eapply only_trans; [|apply Hsettle].
    eapply only_trans; [|apply Hsettle]. eapply only_trans; [|apply Hsettle].
    by apply (stats_called_only no_text s). }
  assert (Hthrow : ∃ thrown, [o1.1; o2.1; o3.1; o4.1] !! i = Some (Throw thrown)).
  { unfold failed in Hfailed.
    destruct i as [|[|[|[|i]]]]; simpl in Hi; simplify_eq; simpl in Hfailed;
      rewrite ?app_nil_r in Hfailed;
      [ destruct (apiRequest_settle_throws
                    (server p (requests (trace s)) (GET "/api/models")) error p
                    (stats_called s)) as [thrown Hthrown]
      | destruct (apiRequest_settle_throws
                    (server p (requests (trace s) ++ [GET "/api/models"])
                       (GET "/api/datasets")) error p o1.2) as [thrown Hthrown]
      | destruct (apiRequest_settle_throws
                    (server p (requests (trace s) ++ [GET "/api/models"; GET "/api/datasets"])
                       (GET "/api/records?limit=100")) error p o2.2) as [thrown Hthrown]
      | destruct (apiRequest_settle_throws
                    (server p (requests (trace s)
                               ++ [GET "/api/models"; GET "/api/datasets";
                                   GET "/api/records?limit=100"])
                       (GET "/api/monitoring/gpu/status")) error p o3.2)
          as [thrown Hthrown] ];
      try done;
      match goal with
      | Hthrown : _ = Throw ?thrown |- _ => exists thrown; rewrite <- Hthrown
      end;
      subst o1 o2 o3 o4; rewrite ?requests_add_effect, ?app_nil_r, <- ?app_assoc;
      reflexivity. }
  destruct Hthrow as [thrown Hthrow]. revert Hthrow.
  unfold try_catch, mbind, M_bind, lift.
  generalize (o1.1), (o2.1), (o3.1), (o4.1). intros c1 c2 c3 c4 Hthrow.
  destruct c1, c2, c3, c4; destruct i as [|[|[|[|i]]]]; simplify_eq;
    by apply only_trans with o4.2, only_add.
Qed.
End Counters.

(** *** The lists *)

Section Lists.
Context `{Host}.

Lemma or_else_no_items (data : JsVal) : no_items data → or_else data (JArr []) = JArr [].
Proof. unfold or_else. by intros [-> | ->]. Qed.

(** A loader makes the request of [utils.apiRequest] and no other, when what
    follows the request makes none. *)
Lemma load_requests {B} (url : string) (options : Options) (k : JsVal → M B)
    (handler : JsError → M B) (p : Page) (s : Script) :
  (∀ a, emits_only no_request (k a)) → (∀ e, emits_only no_request (handler e)) →
  requests (trace (try_catch (utils.apiRequest url options ≫= k) handler p s).2)
  = requests (trace s) ++ [api_request url options].
Proof.
  intros Hk Hhandler. rewrite <- (apiRequest_requests url options p s).
  unfold try_catch, mbind, M_bind.
  destruct (utils.apiRequest url options p s) as [[a|e] s1]; simpl.
  - specialize (Hk a p s1). unfold run in Hk.
    destruct (k a p s1) as [[b|e] s2]; simpl in *.
    + by apply only_requests.
    + rewrite <- (only_requests s1 s2 Hk). apply only_requests, Hhandler.
  - apply only_requests, Hhandler.
Qed.

(** X11: a list with nothing in it shows its placeholder.  When the answer
    has no [data], or a falsy one, or an empty array, the task progress, the
    recent activities, the datasets and the records each show their message
    of an empty list in place of the entries. *)
Theorem empty_lists_show_placeholder (p : Page) (s : Script) (response data : JsVal) :
  get response "data" = Normal data → no_items data →
  (present "task-progress" p →
   answered p (requests (trace s)) (GET "/api/evaluation/tasks") response →
   trace (run evaluation.loadTaskProgress p s)
   = trace s ++ loaded "/api/evaluation/tasks" "task-progress" "<p>暂无测评任务</p>")
  ∧ (present "recent-activities" p →
     answered p (requests (trace s)) (GET "/api/records?limit=10") response →
     trace (run dashboard.loadRecentActivities p s)
     = trace s ++ loaded "/api/records?limit=10" "recent-activities" "<p>暂无最近活动</p>")
  ∧ (present "datasets-list" p →
     answered p (requests (trace s)) (GET "/api/datasets") response →
     trace (run datasets.loadDatasets p s)
     = trace s ++ loaded "/api/datasets" "datasets-list" "<p>暂无数据集数据</p>")
  ∧ (∀ page limit : nat,
       present "loading" p → records_tbody p = true →
       answered p (requests (trace s)) (GET (records_url page limit)) response →
       trace (run (records.loadRecords page limit) p s)
       = trace s ++ records_shown page limit records.no_records).
Proof.
  intros Hdata Hnone. apply or_else_no_items in Hnone.
  repeat split.
  - intros [e He] Hanswered. unfold run, evaluation.loadTaskProgress.
    rewrite (load_request_answered _ _ _ _ p s response) by done.
    unfold set_innerHTML. js_unfold. rewrite Hdata. simpl. rewrite Hnone, He. simpl.
    unfold loaded, add_effect. simpl. by rewrite <- !app_assoc.
  - intros [e He] Hanswered. unfold run, dashboard.loadRecentActivities.
    rewrite (load_request_answered _ _ _ _ p s response) by done.
    unfold set_innerHTML. js_unfold. rewrite Hdata. simpl. rewrite Hnone, He. simpl.
    unfold loaded, add_effect. simpl. by rewrite <- !app_assoc.
  - intros [e He] Hanswered. unfold run, datasets.loadDatasets.
    rewrite (load_request_answered _ _ _ _ p s response) by done.
    unfold set_innerHTML. js_unfold. rewrite Hdata. simpl. rewrite Hnone, He. simpl.
    unfold loaded, add_effect. simpl. by rewrite <- !app_assoc.
  - intros page limit Hloading Htbody Hanswered. unfold run, records.loadRecords.
    rewrite finally_hide by done.
    rewrite (guarded_request_answered _ _ _ _ p s response) by done.
    destruct Hloading as [e He].
    js_unfold. rewrite Hdata. simpl. rewrite Hnone, Htbody. simpl.
    unfold records_shown, add_effect. simpl. by rewrite <- !app_assoc.
Qed.

(** X12: each loader asks the server once, on every page and whatever the
    answer: the address is fixed, the request has no method and no body, and
    neither a failure nor a missing element makes it ask again. *)
Theorem loaders_ask_once (p : Page) (s : Script) :
  requests (trace (run evaluation.loadTaskProgress p s))
  = requests (trace s) ++ [GET "/api/evaluation/tasks"]
  ∧ requests (trace (run dashboard.loadRecentActivities p s))
    = requests (trace s) ++ [GET "/api/records?limit=10"]
  ∧ requests (trace (run datasets.loadDatasets p s))
    = requests (trace s) ++ [GET "/api/datasets"]
  ∧ requests (trace (run monitoring.loadGPUStatus p s))
    = requests (trace s) ++ [GET "/api/monitoring/gpu/status"]
  ∧ requests (trace (run monitoring.loadNvidiaSMI p s))
    = requests (trace s) ++ [GET "/api/monitoring/nvidia-smi"]
  ∧ requests (trace (run monitoring.loadSystemInfo p s))
    = requests (trace s) ++ [GET "/api/monitoring/system/info"].
Proof.
  unfold run.
  repeat split;
    [ unfold evaluation.loadTaskProgress | unfold dashboard.loadRecentActivities
    | unfold datasets.loadDatasets | unfold monitoring.loadGPUStatus
    | unfold monitoring.loadNvidiaSMI | unfold monitoring.loadSystemInfo ];
    apply load_requests; intros;
    emits_tac;
    first [ by apply emits_set_innerHTML | by apply emits_set_textContent
          | by apply emits_showNotification ].
Qed.
End Lists.

(** *** The monitoring panel *)

Section Monitoring.
Context `{Host}.

(** X13: what the GPU panel shows for an answer without devices.  When
    [data.gpus] is missing or falsy the panel shows the message that no GPU
    was detected; when it is the empty array the panel is emptied and the
    message is not shown; and when the answer has no [data] nothing is
    written: the failure is logged and the panel keeps what it showed. *)
Theorem loadGPUStatus_without_devices (p : Page) (s : Script) (response gpuData : JsVal) :
  present "gpu-status" p →
  answered p (requests (trace s)) (GET "/api/monitoring/gpu/status") response →
  get response "data" = Normal gpuData →
  (∀ gpus : JsVal,
     get gpuData "gpus" = Normal gpus → ToBoolean gpus = false →
     trace (run monitoring.loadGPUStatus p s)
     = trace s ++ loaded "/api/monitoring/gpu/status" "gpu-status" "<p>未检测到GPU</p>")
  ∧ (get gpuData "gpus" = Normal (JArr []) →
     trace (run monitoring.loadGPUStatus p s)
     = trace s ++ loaded "/api/monitoring/gpu/status" "gpu-status" "")
  ∧ (is_nullish gpuData = true →
     trace (run monitoring.loadGPUStatus p s)
     = trace s ++ not_rendered "/api/monitoring/gpu/status" "加载GPU状态失败:").
Proof.
  intros [e He] Hanswered Hdata. unfold run, monitoring.loadGPUStatus.
  rewrite (load_request_answered _ _ _ _ p s response) by done.
  unfold set_innerHTML, monitoring.gpu_status_html. js_unfold. rewrite Hdata, He. simpl.
  repeat split.
  - intros gpus Hgpus Hfalsy. rewrite Hgpus. simpl. rewrite Hfalsy. simpl.
    unfold loaded, add_effect. simpl. by rewrite <- !app_assoc.
  - intros Hgpus. rewrite Hgpus. simpl.
    unfold loaded, add_effect. simpl. by rewrite <- !app_assoc.
  - intros Hnull. destruct gpuData; try done; simpl;
      unfold not_rendered, add_effect; simpl; by rewrite <- !app_assoc.
Qed.

(** X14: the nvidia-smi panel shows the output of the answer when it is a
    text that is not empty, and the message that the output cannot be had
    when [data.output] is missing, null or empty. *)
Theorem loadNvidiaSMI_output (p : Page) (s : Script) (response data output : JsVal) :
  present "nvidia-smi-output" p →
  answered p (requests (trace s)) (GET "/api/monitoring/nvidia-smi") response →
  get response "data" = Normal data →
  get data "output" = Normal output →
  (ToBoolean output = false →
   trace (run monitoring.loadNvidiaSMI p s) = trace s ++ smi_shown "无法获取nvidia-smi输出")
  ∧ (∀ text : string,
       output = JStr text → text ≠ "" →
       trace (run monitoring.loadNvidiaSMI p s) = trace s ++ smi_shown text).
Proof.
  intros [e He] Hanswered Hdata Houtput. unfold run, monitoring.loadNvidiaSMI.
  rewrite (load_request_answered _ _ _ _ p s response) by done.
  js_unfold. rewrite Hdata, He. simpl. rewrite Houtput. simpl. unfold or_else.
  split.
  - intros ->. simpl. unfold smi_shown, add_effect. simpl. by rewrite <- !app_assoc.
  - intros text -> Hfull. apply is_empty_false in Hfull. unfold is_empty in Hfull.
    simpl. rewrite Hfull. simpl.
    unfold smi_shown, add_effect. simpl. by rewrite <- !app_assoc.
Qed.

(** X15: the panel of the host shows the paragraphs of the answer's [data];
    an answer without [data] writes nothing and is only logged. *)
Theorem loadSystemInfo_shows (p : Page) (s : Script) (response systemData : JsVal) :
  present "system-info" p →
  answered p (requests (trace s)) (GET "/api/monitoring/system/info") response →
  get response "data" = Normal systemData →
  (∀ html : string,
     monitoring.system_info_html systemData = Normal html →
     trace (run monitoring.loadSystemInfo p s)
     = trace s ++ loaded "/api/monitoring/system/info" "system-info" html)
  ∧ (is_nullish systemData = true →
     trace (run monitoring.loadSystemInfo p s)
     = trace s ++ not_rendered "/api/monitoring/system/info" "加载系统信息失败:").
Proof.
  intros [e He] Hanswered Hdata. unfold run, monitoring.loadSystemInfo.
  rewrite (load_request_answered _ _ _ _ p s response) by done.
  unfold set_innerHTML. js_unfold. rewrite Hdata, He. simpl.
  split.
  - intros html ->. simpl. unfold loaded, add_effect. simpl. by rewrite <- !app_assoc.
  - intros Hnull. destruct systemData; try done; simpl;
      unfold not_rendered, add_effect; simpl; by rewrite <- !app_assoc.
Qed.
End Monitoring.

(** *** A record *)

Section Record.
Context `{Host}.

(** X16: [viewRecord] asks for the record of that id and opens the modal on
    its details: the title, then the body, then the modal is displayed.  An
    answer without [data] opens nothing: the failure is logged and
    announced. *)
Theorem viewRecord_opens_modal (stringify : JsVal → string) (p : Page) (s : Script)
    (recordId response record : JsVal) (id_text : string) :
  ToString recordId = Normal id_text →
  answered p (requests (trace s)) (GET ("/api/records/" +:+ id_text)) response →
  get response "data" = Normal record →
  (∀ content : string,
     records.record_details stringify record = Normal content →
     present "modal-title" p → present "modal-body" p → present "modal" p →
     trace (run (records.viewRecord stringify recordId) p s)
     = trace s ++ record_viewed id_text content)
  ∧ (is_nullish record = true → present "notifications" p →
     trace (run (records.viewRecord stringify recordId) p s)
     = trace s ++ record_not_viewed id_text).
Proof.
  intros Htext Hanswered Hdata. unfold run, records.viewRecord.
  rewrite (try_catch_bind_normal _ _ _ p s s id_text) by (by rewrite Htext).
  rewrite (load_request_answered _ _ _ _ p s response) by done.
  split.
  - intros content Hcontent [e1 He1] [e2 He2] [e3 He3].
    unfold utils.showModal. js_unfold. rewrite Hdata. simpl. rewrite Hcontent. simpl.
    rewrite He1. simpl. rewrite He2. simpl. rewrite He3. simpl.
    unfold record_viewed, GET, add_effect. simpl. by rewrite <- !app_assoc.
  - intros Hnull [e He]. js_unfold. rewrite Hdata. simpl.
    destruct record; try done; simpl; rewrite He; simpl;
      unfold record_not_viewed, GET, add_effect; simpl; by rewrite <- !app_assoc.
Qed.

(** X17: [addToExcellent] asks the server whatever the user answers to the
    prompt.  Cancelling the prompt does not cancel the promotion: the request
    is made all the same, with [null] for the reason. *)
Theorem addToExcellent_asks_on_cancel (p : Page) (s : Script) (recordId : JsVal)
    (id_text : string) :
  ToString recordId = Normal id_text →
  requests (trace (run (records.addToExcellent recordId) p s))
  = requests (trace s)
    ++ [POST (excellent_url id_text) (records.excellent_body (prompt_reply p))]
  ∧ (prompt_reply p = None →
     requests (trace (run (records.addToExcellent recordId) p s))
     = requests (trace s)
       ++ [POST (excellent_url id_text)
             (JSON_stringify (JObj [("reason", JNull); ("category", JStr "general")]))]).
Proof.
  intros Htext.
  assert (Hrequests :
    requests (trace (run (records.addToExcellent recordId) p s))
    = requests (trace s)
      ++ [POST (excellent_url id_text) (records.excellent_body (prompt_reply p))]).
  { unfold run, records.addToExcellent.
    erewrite try_catch_bind_normal; [|reflexivity].
    erewrite try_catch_bind_normal; [|reflexivity].
    rewrite (try_catch_bind_normal _ _ _ p _ _ id_text) by (unfold lift; by rewrite Htext).
    rewrite load_requests.
    - by rewrite requests_add_effect, app_nil_r.
    - intros response. emits_tac; by apply emits_showNotification.
    - intros e. emits_tac. }
  split; [done|]. intros Hcancel. by rewrite Hrequests, Hcancel.
Qed.

(** X18: a promotion the server accepts is announced, and the records are
    loaded again; that reload asks for the first page of 50. *)
Theorem addToExcellent_accepted (p : Page) (s : Script) (recordId response : JsVal)
    (id_text : string) :
  ToString recordId = Normal id_text →
  present "notifications" p →
  answered p (requests (trace s))
    (POST (excellent_url id_text) (records.excellent_body (prompt_reply p))) response →
  get response "success" = Normal (JBool true) →
  trace (run (records.addToExcellent recordId) p s)
  = trace s ++ promotion_accepted id_text (prompt_reply p)
  ∧ (present "loading" p →
     ∀ s' : Script,
       requests (trace (run (async_body Call_loadRecords) p s'))
       = requests (trace s') ++ [GET "/api/records?page=1&limit=50"]).
Proof.
  intros Htext Hnote Hanswered Hsuccess. split.
  - unfold run, records.addToExcellent.
    erewrite try_catch_bind_normal; [|reflexivity].
    erewrite try_catch_bind_normal; [|reflexivity].
    rewrite (try_catch_bind_normal _ _ _ p _ _ id_text) by (unfold lift; by rewrite Htext).
    rewrite (load_request_answered _ _ _ _ p _ response)
      by (unfold answered; by rewrite requests_add_effect, app_nil_r).
    unfold try_catch, mbind, M_bind, lift. rewrite Hsuccess. simpl.
    rewrite showNotification_run by done.
    unfold promotion_accepted, POST, emit, add_effect. simpl. by rewrite <- !app_assoc.
  - intros Hloading s'. unfold run, async_body, records.loadRecords.
    rewrite finally_hide by done. cbn [snd].
    rewrite requests_add_effect, app_nil_r.
    rewrite (try_catch_bind_normal _ _ _ p s' _ tt (showLoading_run true p s' Hloading)).
    rewrite load_requests.
    + by rewrite requests_add_effect, app_nil_r.
    + intros response'. emits_tac.
    + intros e. emits_tac. by apply emits_showNotification.
Qed.
End Record.

(** *** Values that are not what the templates expect *)

Section Values.
Context `{Host}.

Lemma formatExecutionTime_not_number (v : JsVal) (x : float) :
  (∀ n, v ≠ JNum n) → ToBoolean v = true → ToNumber v = Normal x →
  PrimFloat.ltb x 60 = true →
  utils.formatExecutionTime v = Throw (TypeError "toFixed is not a function").
Proof.
  intros Hnot Htruthy Hnumber Hunder.
  unfold utils.formatExecutionTime, less_than. rewrite Htruthy, Hnumber. simpl.
  rewrite Hunder. simpl. destruct v; try done. by destruct (Hnot x0).
Qed.

(** X19: a duration or a size that is not a number.  A truthy value that is
    not a number but converts to one below the first threshold (a numeric
    text such as '12.5', the boolean true) makes [formatExecutionTime] and
    [formatMemory] throw, since only numbers have [toFixed]; at or above the
    threshold the same value is converted, divided and formatted. *)
Theorem formatters_need_numbers (v : JsVal) (x : float) :
  (∀ n, v ≠ JNum n) → ToBoolean v = true → ToNumber v = Normal x →
  (PrimFloat.ltb x 60 = true →
   utils.formatExecutionTime v = Throw (TypeError "toFixed is not a function"))
  ∧ (PrimFloat.ltb x 1024 = true →
     utils.formatMemory v = Throw (TypeError "toFixed is not a function"))
  ∧ (PrimFloat.ltb x 60 = false → PrimFloat.ltb x 3600 = true →
     utils.formatExecutionTime v
     = Normal (Number_toFixed (PrimFloat.div x 60) 1 +:+ "分钟"))
  ∧ (PrimFloat.ltb x 60 = false → PrimFloat.ltb x 3600 = false →
     utils.formatExecutionTime v
     = Normal (Number_toFixed (PrimFloat.div x 3600) 1 +:+ "小时"))
  ∧ (PrimFloat.ltb x 1024 = false →
     utils.formatMemory v = Normal (Number_toFixed (PrimFloat.div x 1024) 1 +:+ " GB")).
Proof.
  intros Hnot Htruthy Hnumber. repeat split.
  - by apply formatExecutionTime_not_number.
  - intros Hunder. unfold utils.formatMemory, less_than. rewrite Htruthy, Hnumber. simpl.
    rewrite Hunder. simpl. destruct v; try done. by destruct (Hnot x0).
  - intros Hminute Hhour.
    unfold utils.formatExecutionTime, less_than, divided_by.
    rewrite Htruthy, Hnumber. simpl. rewrite Hminute. simpl. by rewrite Hhour.
  - intros Hminute Hhour.
    unfold utils.formatExecutionTime, less_than, divided_by.
    rewrite Htruthy, Hnumber. simpl. rewrite Hminute. simpl. by rewrite Hhour.
  - intros Hover. unfold utils.formatMemory, less_than, divided_by.
    rewrite Htruthy, Hnumber. simpl. by rewrite Hover.
Qed.

Lemma sequence_throws {A} (cs : list (Completion A)) (c : Completion A) :
  c ∈ cs → (∃ e, c = Throw e) → ∃ e, sequence cs = Throw e.
Proof.
  intros Hin [e ->]. induction cs as [|c cs IH]; [by apply elem_of_nil in Hin|].
  apply elem_of_cons in Hin as [<- | Hin]; simpl; [by eexists|].
  destruct c; [|by eexists]. destruct (IH Hin) as [e' ->]. by eexists.
Qed.

(** A row whose duration cannot be formatted cannot be rendered, whatever
    its other fields. *)
Lemma record_row_bad_duration (record v : JsVal) (x : float) :
  get record "execution_time" = Normal v →
  (∀ n, v ≠ JNum n) → ToBoolean v = true → ToNumber v = Normal x →
  PrimFloat.ltb x 60 = true →
  ∃ e, records.record_row record = Throw e.
Proof.
  intros Hget Hnot Htruthy Hnumber Hunder.
  unfold records.record_row, records.record_cells.
  pose proof (formatExecutionTime_not_number v x Hnot Htruthy Hnumber Hunder) as Hthrows.
  unfold mbind, Completion_bind, cbind.
  repeat case_match; simplify_eq; first [congruence|by eexists].
Qed.

Lemma loadRecords_not_rendered (p : Page) (s : Script) (page limit : nat)
    (response data : JsVal) :
  present "loading" p → present "notifications" p →
  answered p (requests (trace s)) (GET (records_url page limit)) response →
  get response "data" = Normal data →
  (∃ e, records.records_html (or_else data (JArr [])) = Throw e) ∨ records_tbody p = false →
  trace (run (records.loadRecords page limit) p s) = trace s ++ records_failed page limit.
Proof.
  intros Hloading Hnote Hanswered Hdata Hbad. unfold run, records.loadRecords.
  rewrite finally_hide by done.
  rewrite (guarded_request_answered _ _ _ _ p s response) by done.
  destruct Hnote as [e He]. js_unfold. rewrite Hdata. simpl.
  destruct Hbad as [[thrown ->] | Htbody]; simpl.
  - rewrite He. simpl. unfold records_failed, add_effect. simpl. by rewrite <- !app_assoc.
  - rewrite Htbody.
    destruct (records.records_html (or_else data (JArr []))); simpl; rewrite He; simpl;
      unfold records_failed, add_effect; simpl; by rewrite <- !app_assoc.
Qed.

(** X20: the table of the records is rendered whole or not at all.  One
    record that cannot be rendered (so one whose duration is a numeric text
    under 60), a [data] that is truthy and not an array, or a page without
    the body of the table: each leaves the table as it was, with the failure
    logged and announced, and none of the other rows is shown. *)
Theorem loadRecords_whole_or_nothing (p : Page) (s : Script) (page limit : nat)
    (response data : JsVal) :
  present "loading" p → present "notifications" p →
  answered p (requests (trace s)) (GET (records_url page limit)) response →
  get response "data" = Normal data →
  (∀ (items : list JsVal) (record v : JsVal) (x : float),
     data = JArr items → record ∈ items →
     get record "execution_time" = Normal v →
     (∀ n, v ≠ JNum n) → ToBoolean v = true → ToNumber v = Normal x →
     PrimFloat.ltb x 60 = true →
     trace (run (records.loadRecords page limit) p s) = trace s ++ records_failed page limit)
  ∧ (ToBoolean data = true → (∀ items, data ≠ JArr items) →
     trace (run (records.loadRecords page limit) p s) = trace s ++ records_failed page limit)
  ∧ (records_tbody p = false →
     trace (run (records.loadRecords page limit) p s) = trace s ++ records_failed page limit).
Proof.
  intros Hloading Hnote Hanswered Hdata. repeat split.
  - intros items record v x -> Hin Hget Hnot Htruthy Hnumber Hunder.
    apply (loadRecords_not_rendered p s page limit response (JArr items)); try done.
    left. simpl.
    destruct (sequence_throws (records.record_row <$> items) (records.record_row record))
      as [e He]; [by apply list_elem_of_fmap_2|by apply (record_row_bad_duration _ v x)|].
    unfold mbind, Completion_bind, cbind. rewrite He. by eexists.
  - intros Htruthy Hnot.
    apply (loadRecords_not_rendered p s page limit response data); try done.
    left. unfold or_else. rewrite Htruthy.
    destruct data; simpl; try by eexists. by destruct (Hnot items).
  - intros Htbody.
    apply (loadRecords_not_rendered p s page limit response data); try done. by right.
Qed.

(** Reads the fields that the hypotheses on [shown_by] speak of. *)
Ltac read_fields :=
  unfold shown_by, mbind, Completion_bind, cbind in *;
  repeat match goal with
         | H : match get ?record ?key with _ => _ end = Normal _ |- _ =>
             destruct (get record key) eqn:?; [|discriminate H]
         end.

(** X21: a score of 0 is shown as a missing score.  When the score of a
    record is falsy (0, the empty text, false, null or missing), the entry of
    a recent activity, the cells of the row of the record and the details of
    the record are the templates of the source with '-' where the score
    goes, whatever the other fields show; so that a record with a falsy
    score renders as the same record with a [null] score does. *)
Theorem falsy_score_shown_as_missing (stringify : JsVal → string) :
  (∀ (record score : JsVal) (model_text dataset_text type_text created_text : string),
     get record "score" = Normal score → ToBoolean score = false →
     shown_by ToString record "model_name" = Normal model_text →
     shown_by ToString record "dataset_name" = Normal dataset_text →
     shown_by ToString record "model_type" = Normal type_text →
     shown_by utils.formatDate record "created_at" = Normal created_text →
     dashboard.activity_item record
     = Normal ("
                <div class=" +:+ dq +:+ "activity-item" +:+ dq +:+ ">
                    <div class=" +:+ dq +:+ "activity-title" +:+ dq +:+ ">" +:+ model_text +:+ " - " +:+ dataset_text +:+ "</div>
                    <div class=" +:+ dq +:+ "activity-meta" +:+ dq +:+ ">
                        分数: " +:+ "-" +:+ " | 
                        类型: " +:+ type_text +:+ " | 
                        时间: " +:+ created_text +:+ "
                    </div>
                </div>
            "))
  ∧ (∀ (record score : JsVal)
       (id_text model_text dataset_text type_text status_class status_text time_text : string),
       get record "score" = Normal score → ToBoolean score = false →
       shown_by ToString record "id" = Normal id_text →
       shown_by ToString record "model_name" = Normal model_text →
       shown_by ToString record "dataset_name" = Normal dataset_text →
       shown_by ToString record "model_type" = Normal type_text →
       shown_by ToString record "status" = Normal status_class →
       shown_by records.getStatusText record "status" = Normal status_text →
       shown_by utils.formatExecutionTime record "execution_time" = Normal time_text →
       records.record_cells record
       = Normal ("
                <tr>
                    <td>" +:+ id_text +:+ "</td>
                    <td>" +:+ model_text +:+ "</td>
                    <td>" +:+ dataset_text +:+ "</td>
                    <td>" +:+ "-" +:+ "</td>
                    <td>" +:+ type_text +:+ "</td>
                    <td><span class=" +:+ dq +:+ "status-badge status-" +:+ status_class +:+ dq +:+ ">" +:+ status_text +:+ "</span></td>
                    <td>" +:+ time_text +:+ "</td>
                    <td>
                        "))
  ∧ (∀ (record score : JsVal)
       (model_text dataset_text type_text status_text time_text memory_text created_text
        error_text metrics_text : string),
       get record "score" = Normal score → ToBoolean score = false →
       shown_by ToString record "model_name" = Normal model_text →
       shown_by ToString record "dataset_name" = Normal dataset_text →
       shown_by ToString record "model_type" = Normal type_text →
       shown_by records.getStatusText record "status" = Normal status_text →
       shown_by utils.formatExecutionTime record "execution_time" = Normal time_text →
       shown_by utils.formatMemory record "memory_usage" = Normal memory_text →
       shown_by utils.formatDate record "created_at" = Normal created_text →
       records.error_paragraph record = Normal error_text →
       records.metrics_paragraph stringify record = Normal metrics_text →
       records.record_details stringify record
       = Normal ("
                <div class=" +:+ dq +:+ "record-details" +:+ dq +:+ ">
                    <h3>测评详情</h3>
                    <p><strong>模型:</strong> " +:+ model_text +:+ "</p>
                    <p><strong>数据集:</strong> " +:+ dataset_text +:+ "</p>
                    <p><strong>分数:</strong> " +:+ "-" +:+ "</p>
                    <p><strong>模型类型:</strong> " +:+ type_text +:+ "</p>
                    <p><strong>状态:</strong> " +:+ status_text +:+ "</p>
                    <p><strong>执行时间:</strong> " +:+ time_text +:+ "</p>
                    <p><strong>内存使用:</strong> " +:+ memory_text +:+ "</p>
                    <p><strong>创建时间:</strong> " +:+ created_text +:+ "</p>
                    " +:+ error_text +:+ "
                    " +:+ metrics_text +:+ "
                </div>
            "))
  ∧ (∀ (score : JsVal) (fields : list (string * JsVal)),
       ToBoolean score = false →
       records.record_row (JObj (("score", score) :: fields))
       = records.record_row (JObj (("score", JNull) :: fields))
       ∧ dashboard.activity_item (JObj (("score", score) :: fields))
         = dashboard.activity_item (JObj (("score", JNull) :: fields))
       ∧ records.record_details stringify (JObj (("score", score) :: fields))
         = records.record_details stringify (JObj (("score", JNull) :: fields))).
Proof.
  split; [|split; [|split]].
  - intros record score model_text dataset_text type_text created_text Hscore Hfalsy
      Hmodel Hdataset Htype Hcreated.
    read_fields. unfold dashboard.activity_item, or_else. js_facts. done.
  - intros record score id_text model_text dataset_text type_text status_class status_text
      time_text Hscore Hfalsy Hid Hmodel Hdataset Htype Hclass Hstatus Htime.
    read_fields. unfold records.record_cells, or_else. js_facts. done.
  - intros record score model_text dataset_text type_text status_text time_text memory_text
      created_text error_text metrics_text Hscore Hfalsy Hmodel Hdataset Htype Hstatus
      Htime Hmemory Hcreated Herror Hmetrics.
    read_fields. unfold records.record_details, or_else. js_facts. done.
  - intros score fields Hfalsy.
    unfold records.record_row, records.record_cells, records.record_actions,
      records.promotion, dashboard.activity_item, records.record_details,
      records.error_paragraph, records.metrics_paragraph.
    simpl. unfold or_else. rewrite Hfalsy. simpl. done.
Qed.
End Values.

(** *** The chart *)

Section Window.
Context `{Host}.

Lemma append_cons (c : Ascii.ascii) (a b : string) :
  String c a +:+ b = String c (a +:+ b).
Proof. reflexivity. Qed.

Lemma append_assoc (a b c : string) : (a +:+ b) +:+ c = a +:+ b +:+ c.
Proof. induction a as [|x a IH]; [done|]. by rewrite !append_cons, IH. Qed.

Lemma append_empty_r (a : string) : a +:+ "" = a.
Proof. induction a as [|x a IH]; [done|]. by rewrite append_cons, IH. Qed.

Lemma percent_not_digit (c : Ascii.ascii) :
  Ascii.eqb c "%"%char = true → monitoring.is_digit c = false.
Proof. intros Hc. apply Ascii.eqb_eq in Hc. by subst c. Qed.

(** Text before the first digit and the first percent sign is passed over. *)
Lemma match_percent_plain (before rest : string) :
  plain before = true →
  monitoring.match_percent_from "" (before +:+ rest) = monitoring.match_percent_from "" rest.
Proof.
  induction before as [|c before IH]; simpl; [done|]. intros Hplain.
  apply andb_true_iff in Hplain as [Hc Hplain].
  apply andb_true_iff in Hc as [Hdigit Hpercent].
  apply negb_true_iff in Hdigit, Hpercent. rewrite Hdigit, Hpercent. simpl. by apply IH.
Qed.

(** A run of digits that a percent sign follows is the match. *)
Lemma match_percent_digits (run digits rest : string) :
  all_digits digits = true → run +:+ digits ≠ "" →
  monitoring.match_percent_from run (digits +:+ String "%"%char rest)
  = Some (run +:+ digits).
Proof.
  revert run. induction digits as [|c digits IH]; simpl; intros run Hdigits Hfull.
  - rewrite append_empty_r in *. apply is_empty_false in Hfull. by rewrite Hfull.
  - apply andb_true_iff in Hdigits as [Hc Hdigits]. rewrite Hc.
    rewrite IH; [|done|]; rewrite append_assoc; simpl; [done|].
    intros Hempty. apply append_empty_inv in Hempty as [_ Hempty]. done.
Qed.

(** A run of digits that anything else follows is given up. *)
Lemma match_percent_gives_up (run digits rest : string) (c : Ascii.ascii) :
  all_digits digits = true →
  monitoring.is_digit c = false → Ascii.eqb c "%"%char = false →
  monitoring.match_percent_from run (digits +:+ String c rest)
  = monitoring.match_percent_from "" rest.
Proof.
  revert run. induction digits as [|d digits IH]; simpl; intros run Hdigits Hdigit Hpercent.
  - by rewrite Hdigit, Hpercent.
  - apply andb_true_iff in Hdigits as [Hd Hdigits]. rewrite Hd. by apply IH.
Qed.

Lemma match_percent_none (run text : string) :
  percentless text = true → monitoring.match_percent_from run text = None.
Proof.
  revert run. induction text as [|c text IH]; simpl; intros run Hnone; [done|].
  apply andb_true_iff in Hnone as [Hc Hnone]. apply negb_true_iff in Hc. rewrite Hc.
  simpl. destruct (monitoring.is_digit c); by apply IH.
Qed.

(** X22: what [updateChart] reads from the text of the utilisation.  After
    text with no digit and no percent sign, a whole number followed by a
    percent sign is read as its digits; a number with a decimal point is read
    as the digits after the point, so that 37.5% is charted as 5; and a text
    without a percent sign has no match, which is charted as 0. *)
Theorem match_percent_reads (before after : string) :
  plain before = true →
  (∀ digits : string,
     all_digits digits = true → digits ≠ "" →
     monitoring.match_percent (before +:+ digits +:+ "%" +:+ after) = Some digits)
  ∧ (∀ whole fraction : string,
       all_digits whole = true → all_digits fraction = true → fraction ≠ "" →
       monitoring.match_percent (before +:+ whole +:+ "." +:+ fraction +:+ "%" +:+ after)
       = Some fraction)
  ∧ (∀ text : string,
       percentless text = true → monitoring.match_percent text = None).
Proof.
  intros Hplain. unfold monitoring.match_percent. repeat split.
  - intros digits Hdigits Hfull. rewrite match_percent_plain by done.
    change ("%" +:+ after) with (String "%"%char after).
    by rewrite (match_percent_digits "" digits after).
  - intros whole fraction Hwhole Hfraction Hfull. rewrite match_percent_plain by done.
    change ("%" +:+ after) with (String "%"%char after).
    change ("." +:+ fraction +:+ String "%"%char after)
      with (String "."%char (fraction +:+ String "%"%char after)).
    rewrite match_percent_gives_up by done.
    by rewrite (match_percent_digits "" fraction after).
  - intros text Hnone. by apply match_percent_none.
Qed.

Lemma last20_short {A} (l : list A) : (length l ≤ 20)%nat → last20 l = l.
Proof. intros Hshort. unfold last20. by replace (length l - 20)%nat with 0%nat by lia. Qed.

Lemma last20_length {A} (l : list A) : length (last20 l) = (length l `min` 20)%nat.
Proof. unfold last20. rewrite length_drop. lia. Qed.

(** Pushing onto the last 20 and shifting keeps the last 20. *)
Lemma last20_push {A} (l : list A) (x : A) :
  last20 (l ++ [x])
  = if (20 <? length (last20 l ++ [x]))%nat then tail (last20 l ++ [x])
    else last20 l ++ [x].
Proof.
  rewrite length_app, last20_length. simpl.
  destruct (Nat.ltb_spec 20 (length l `min` 20 + 1)) as [Hfull|Hroom].
  - unfold last20. rewrite length_app. simpl.
    replace (length l + 1 - 20)%nat with (length l - 20 + 1)%nat by lia.
    rewrite <- (drop_drop _ 1 (length l - 20)), drop_app_le by lia.
    by destruct (drop (length l - 20) l ++ [x]).
  - rewrite (last20_short l), last20_short by (rewrite ?length_app; simpl; lia). done.
Qed.

Lemma updateChart_chart (p : Page) (s : Script) (chart : Chart) :
  monitoring_gpuChart s = Some chart →
  monitoring_gpuChart (run monitoring.updateChart p s)
  = Some match chart_point p with
         | Some (now, value) => monitoring.push_point now value chart
         | None => chart
         end.
Proof.
  intros Hchart. unfold monitoring.updateChart, chart_point. js_unfold.
  rewrite Hchart. simpl. by destruct (gpu_info p) as [[text|]|].
Qed.

Lemma updates_window (pages : list Page) (points : list (string * JsVal)) (s : Script) :
  monitoring_gpuChart s = Some (mkChart (last20 points.*1) (last20 points.*2)) →
  monitoring_gpuChart (after ((λ p, (p, Do_updateChart)) <$> pages) s)
  = Some (mkChart (last20 (points ++ omap chart_point pages).*1)
            (last20 (points ++ omap chart_point pages).*2)).
Proof.
  revert points s. induction pages as [|p pages IH]; intros points s Hchart; simpl.
  - by rewrite app_nil_r.
  - pose proof (updateChart_chart p s _ Hchart) as Hnext.
    destruct (chart_point p) as [[now value]|].
    + rewrite (IH (points ++ [(now, value)])).
      * by rewrite <- !app_assoc.
      * rewrite Hnext. unfold monitoring.push_point. simpl.
        rewrite !fmap_app. simpl. rewrite !last20_push, !length_app, !last20_length.
        rewrite !length_fmap. by destruct (_ <? _)%nat.
    + by apply IH.
Qed.

(** X23: the chart is a sliding window.  After [initChart] on a page with
    the canvas, and any number of calls of [updateChart], the chart holds the
    last 20 of the points read, in the order they were read, with the time of
    each; a call on a page whose GPU block or utilisation paragraph is missing
    adds no point. *)
Theorem chart_sliding_window (first : Page) (pages : list Page) (s : Script) :
  present "gpu-chart" first →
  let points := omap chart_point pages in
  monitoring_gpuChart
    (after ((first, Do_initChart) :: ((λ p, (p, Do_updateChart)) <$> pages)) s)
  = Some (mkChart (drop (length points - 20) points.*1)
            (drop (length points - 20) points.*2)).
Proof.
  intros [canvas Hcanvas] points. simpl.
  rewrite (updates_window pages []).
  - unfold last20. simpl. by rewrite !length_fmap.
  - unfold monitoring.initChart. js_unfold. by rewrite Hcanvas.
Qed.
End Window.

(** *** A page without the loading indicator *)

Section Indicator.
Context `{Host}.

(** X24: the loading indicator is needed before anything is asked.  On a
    page without the element [#loading], [loadModels], [loadRecords] and a
    submission that passes its checks make no request: showing the indicator
    throws, and hiding it in [finally] throws again, so that they end by
    that throw. *)
Theorem loading_element_needed (p : Page) (s : Script) :
  by_id p !! "loading" = None →
  let thrown := Throw (TypeError "Cannot read properties of null") in
  (requests (trace (run models.loadModels p s)) = requests (trace s)
   ∧ outcome models.loadModels p s = thrown)
  ∧ (∀ page limit : nat,
       requests (trace (run (records.loadRecords page limit) p s)) = requests (trace s)
       ∧ outcome (records.loadRecords page limit) p s = thrown)
  ∧ (∀ (m d raw : string) (config : JsVal),
       single_inputs p = Some (m, d, raw) → m ≠ "" → d ≠ "" →
       config_of (String_trim raw) config →
       requests (trace (run evaluation.submitSingleEvaluation p s)) = requests (trace s)
       ∧ outcome evaluation.submitSingleEvaluation p s = thrown)
  ∧ (∀ (selected : list string) (d t : string) (parallel : bool),
       batch_inputs p = Some (selected, d, t, parallel) → selected ≠ [] → d ≠ "" →
       requests (trace (run evaluation.submitBatchEvaluation p s)) = requests (trace s)
       ∧ outcome evaluation.submitBatchEvaluation p s = thrown).
Proof.
  intros Hnone thrown.
  assert (Hsubmission : ∀ url body created failed_text form log,
            requests (trace (run (submission url body created failed_text form log) p s))
            = requests (trace s)
            ∧ outcome (submission url body created failed_text form log) p s = thrown).
  { intros. unfold submission. js_unfold. rewrite Hnone. simpl.
    by rewrite requests_app, app_nil_r. }
  split; [|split; [|split]].
  - unfold models.loadModels. js_unfold. rewrite Hnone. simpl.
    destruct (by_id p !! "notifications"); simpl;
      by rewrite ?requests_app, ?app_nil_r.
  - intros page limit. unfold records.loadRecords. js_unfold. rewrite Hnone. simpl.
    destruct (by_id p !! "notifications"); simpl;
      by rewrite ?requests_app, ?app_nil_r.
  - intros m d raw config Hin Hm Hd Hconfig. unfold run, outcome.
    rewrite (submitSingleEvaluation_valid p s m d raw config) by done.
    apply Hsubmission.
  - intros selected d t parallel Hin Hsel Hd. unfold run, outcome.
    rewrite (submitBatchEvaluation_valid p s selected d t parallel) by done.
    apply Hsubmission.
Qed.
End Indicator.

(** *** Debouncing *)

Section Debounce.
Context {Args : Type}.

Lemma filter_fired (id : nat) (args : Args) :
  filter (λ timer : nat * Args, timer.1 ≠ id) [(id, args)] = [].
Proof. rewrite filter_cons, filter_nil. by rewrite decide_False by (by intros Hsame). Qed.

Lemma executedFunction_timers (args : Args) (c : debounce.Closure) :
  one_timer c →
  debounce.timers (debounce.executedFunction args c) = [(debounce.fresh c, args)].
Proof.
  unfold debounce.executedFunction, debounce.clearTimeout.
  intros [Hnone | (id & old & Htimeout & Htimers)]; simpl.
  - rewrite Hnone. by destruct (debounce.timeout c).
  - by rewrite Htimeout, Htimers, filter_fired.
Qed.

Lemma one_timer_executedFunction (args : Args) (c : debounce.Closure) :
  one_timer c → one_timer (debounce.executedFunction args c).
Proof.
  intros Hone. right. exists (debounce.fresh c), args.
  split; [done|by apply executedFunction_timers].
Qed.

(** A timer that fires is the pending one, and leaves none. *)
Lemma later_spec (id : nat) (c : debounce.Closure (Args:=Args)) :
  one_timer c →
  (∃ args, debounce.timers c = [(id, args)]
           ∧ (debounce.later id c).1 = Some args
           ∧ debounce.timers (debounce.later id c).2 = [])
  ∨ ((∀ args, debounce.timers c ≠ [(id, args)]) ∧ debounce.later id c = (None, c)).
Proof.
  unfold debounce.later, debounce.clearTimeout.
  intros [Hnone | (i & args & Htimeout & Htimers)].
  - right. rewrite Hnone. simpl. split; [by intros|done].
  - rewrite Htimers, Htimeout. simpl. case_decide as Hfired; simpl in *.
    + subst i. left. exists args. by rewrite !filter_fired.
    + right. split; [|done]. intros other Hsame. by simplify_eq.
Qed.

Lemma one_timer_later (id : nat) (c : debounce.Closure (Args:=Args)) :
  one_timer c → one_timer (debounce.later id c).2.
Proof.
  intros Hone. destruct (later_spec id c Hone) as [(args & _ & _ & Hnone) | [_ ->]].
  - by left.
  - done.
Qed.

Lemma one_timer_run (events : list debounce.Event) (c : debounce.Closure (Args:=Args)) :
  one_timer c → one_timer (debounce.run events c).2.
Proof.
  revert c. induction events as [|[args|id] events IH]; intros c Hone; simpl.
  - done.
  - by apply IH, one_timer_executedFunction.
  - pose proof (one_timer_later id c Hone) as Hlater.
    destruct (debounce.later id c) as [call c']. specialize (IH c' Hlater).
    by destruct (debounce.run events c').
Qed.

Lemma run_app (events more : list debounce.Event) (c : debounce.Closure (Args:=Args)) :
  debounce.run (events ++ more) c
  = ((debounce.run events c).1 ++ (debounce.run more (debounce.run events c).2).1,
     (debounce.run more (debounce.run events c).2).2).
Proof.
  revert c. induction events as [|[args|id] events IH]; intros c; simpl.
  - by destruct (debounce.run more c).
  - apply IH.
  - destruct (debounce.later id c) as [call c']. rewrite IH.
    destruct (debounce.run events c') as [calls c'']. simpl.
    by rewrite app_assoc.
Qed.

Lemma run_one_called (args : Args) (c : debounce.Closure) :
  debounce.run [debounce.Called args] c = ([], debounce.executedFunction args c).
Proof. done. Qed.

Lemma run_one_fired (id : nat) (c : debounce.Closure (Args:=Args)) :
  debounce.run [debounce.Fired id] c
  = (option_list (debounce.later id c).1 ++ [], (debounce.later id c).2).
Proof. simpl. by destruct (debounce.later id c). Qed.

Lemma run_called (burst : list Args) (c : debounce.Closure) :
  debounce.run (debounce.Called <$> burst) c
  = ([], foldl (λ c args, debounce.executedFunction args c) c burst).
Proof. revert c. induction burst as [|args burst IH]; intros c; simpl; [done|apply IH]. Qed.

Lemma burst_timers (burst : list Args) (args : Args) (c : debounce.Closure) :
  one_timer c →
  ∃ id, debounce.timers
          (foldl (λ c args, debounce.executedFunction args c) c (burst ++ [args]))
        = [(id, args)]
        ∧ one_timer (foldl (λ c args, debounce.executedFunction args c) c (burst ++ [args])).
Proof.
  intros Hone. rewrite foldl_app. simpl.
  assert (Hburst : one_timer (foldl (λ c args, debounce.executedFunction args c) c burst)).
  { clear args. revert c Hone. induction burst as [|args burst IH]; intros c Hone; [done|].
    simpl. by apply IH, one_timer_executedFunction. }
  eexists. split; [by apply executedFunction_timers|by apply one_timer_executedFunction].
Qed.

(** X25: debouncing runs the last call of a burst, once.  Whatever happened
    to the debounced function before, after it is called any number of times
    in a row (the last time with [args]) one timer is pending; when it fires
    [func] is called with [args] and no timer is left, so that the earlier
    calls of the burst never run; and no other timer can fire. *)
Theorem debounce_runs_last_call (before : list debounce.Event) (burst : list Args)
    (args : Args) :
  let c := (debounce.run (before ++ (debounce.Called <$> burst ++ [args]))
              debounce.created).2 in
  ∃ id,
    debounce.timers c = [(id, args)]
    ∧ (debounce.later id c).1 = Some args
    ∧ debounce.timers (debounce.later id c).2 = []
    ∧ ∀ other, other ≠ id → debounce.later other c = (None, c).
Proof.
  intros c.
  assert (Hbefore : one_timer (debounce.run before debounce.created).2).
  { apply one_timer_run. by left. }
  assert (Hc : c = foldl (λ c args, debounce.executedFunction args c)
                     (debounce.run before debounce.created).2 (burst ++ [args])).
  { unfold c. by rewrite run_app, run_called. }
  destruct (burst_timers burst args _ Hbefore) as (id & Htimers & Hone).
  rewrite <- Hc in Htimers, Hone. clearbody c. clear Hc. exists id. split; [done|].
  destruct (later_spec id c Hone) as [(args' & Hsame & Hcall & Hnone) | [Hnot _]].
  - rewrite Htimers in Hsame. simplify_eq. repeat split; [done..|].
    intros other Hother.
    destruct (later_spec other c Hone) as [(args2 & Hpending & _) | [_ Hidle]]; [|done].
    rewrite Htimers in Hpending. by simplify_eq.
  - by destruct (Hnot args).
Qed.

(** What has run is among what was called, and the pending call is the last
    one. *)
Lemma run_sublist (events : list debounce.Event) :
  let result := debounce.run events (debounce.created (Args:=Args)) in
  one_timer result.2
  ∧ result.1 `sublist_of` debounce.called events
  ∧ ∀ id args, debounce.timers result.2 = [(id, args)] →
      ∃ earlier, debounce.called events = earlier ++ [args]
                 ∧ result.1 `sublist_of` earlier.
Proof.
  induction events as [|e events IH] using rev_ind.
  - split; [by left|]. split; [done|]. by intros.
  - destruct IH as (Hone & Hsub & Hpending). cbv zeta.
    rewrite run_app. unfold debounce.called in *. rewrite omap_app.
    destruct e as [args|id].
    + rewrite run_one_called. cbn [fst snd omap option_list mbind]. rewrite app_nil_r.
      split; [by apply one_timer_executedFunction|].
      split; [by apply sublist_inserts_r|].
      intros id args' Htimers. rewrite executedFunction_timers in Htimers by done.
      simplify_eq. by eexists.
    + rewrite run_one_fired. cbn [fst snd omap option_list]. rewrite !app_nil_r.
      destruct (later_spec id _ Hone) as [(args & Htimers & Hcall & Hnone) | [_ Hidle]].
      * rewrite Hcall. cbn [option_list].
        destruct (Hpending id args Htimers) as (earlier & Hcalled & Hearlier).
        rewrite Hcalled.
        split; [by left|]. split; [by apply sublist_app|].
        intros id' args'. by rewrite Hnone.
      * rewrite Hidle. cbn [fst snd option_list]. rewrite app_nil_r. done.
Qed.

(** X26: debouncing never invents a call and never repeats one.  Over any
    sequence of calls and timers, [func] is called only with arguments the
    debounced function was called with, in the order of those calls and at
    most once for each: in particular no more often than it. *)
Theorem debounce_calls_were_made (events : list debounce.Event) :
  (debounce.run events (debounce.created (Args:=Args))).1
    `sublist_of` debounce.called events
  ∧ (length (debounce.run events (debounce.created (Args:=Args))).1
     ≤ length (debounce.called events))%nat.
Proof.
  destruct (run_sublist events) as (_ & Hsub & _).
  split; [done|by apply sublist_length].
Qed.
End Debounce.

(** *** Listeners *)

Section Listeners.
Import listeners.

Lemma register_fixed (id type : string) (handler : Handler) (doc : gmap string Target) :
  initialized_at id doc → register id type handler doc = doc.
Proof.
  unfold register. intros Hdone. destruct (doc !! id) as [target|] eqn:Htarget; [|done].
  by rewrite (Hdone target).
Qed.

Lemma register_establishes (id type : string) (handler : Handler) (doc : gmap string Target) :
  initialized_at id (register id type handler doc).
Proof.
  unfold register, initialized_at. intros target.
  destruct (doc !! id) as [old|] eqn:Hold.
  - destruct (is_initialized old) eqn:Hdone; cbv iota.
    + rewrite Hold. by intros [= <-].
    + rewrite lookup_insert_eq. by intros [= <-].
  - by rewrite Hold.
Qed.

Lemma register_preserves (id other type : string) (handler : Handler) (doc : gmap string Target) :
  initialized_at other doc → initialized_at other (register id type handler doc).
Proof.
  intros Hdone. destruct (decide (other = id)) as [->|Hother].
  - apply register_establishes.
  - unfold register, initialized_at. intros target.
    destruct (doc !! id) as [old|]; [|apply Hdone].
    destruct (is_initialized old); cbv iota; [apply Hdone|].
    rewrite lookup_insert_ne by done. apply Hdone.
Qed.

(** A registration adds at most its own listener, after those there. *)
Lemma register_handlers (id other type : string) (handler : Handler) (doc : gmap string Target) :
  handlers_of other (register id type handler doc) = handlers_of other doc
  ∨ (other = id
     ∧ handlers_of other (register id type handler doc)
       = handlers_of other doc ++ [(type, handler)]).
Proof.
  unfold register, handlers_of.
  destruct (doc !! id) as [old|] eqn:Hold; [|by left].
  destruct (is_initialized old); cbv iota; [by left|].
  destruct (decide (other = id)) as [->|Hother].
  - right. by rewrite lookup_insert_eq, Hold.
  - left. by rewrite lookup_insert_ne.
Qed.

Lemma register_lookup (id type : string) (handler : Handler) (doc : gmap string Target) :
  register id type handler doc !! id
  = (λ target, if is_initialized target then target
               else mkTarget (Some "true") (handlers target ++ [(type, handler)]))
    <$> doc !! id.
Proof.
  unfold register. destruct (doc !! id) as [target|] eqn:Htarget; simpl; [|done].
  destruct (is_initialized target); [done|]. by rewrite lookup_insert_eq.
Qed.

Lemma register_lookup_other (id other type : string) (handler : Handler)
    (doc : gmap string Target) :
  other ≠ id → register id type handler doc !! other = doc !! other.
Proof.
  intros Hother. unfold register. destruct (doc !! id) as [target|]; [|done].
  destruct (is_initialized target); [done|]. by rewrite lookup_insert_ne.
Qed.

(** Proves what a chain of registrations does to one element. *)
Ltac registers_tac :=
  intros doc;
  rewrite ?register_lookup_other by done;
  rewrite register_lookup;
  rewrite ?register_lookup_other by done;
  by destruct (doc !! _).

(** X27: the listeners of the sections are registered exactly once.
    [models.initEventListeners] gives the scan button its click listener,
    [evaluation.initForms] the two forms their submit listeners, and
    [records.initEventListeners] the search its debounced input listener (500
    ms), the filter its change listener and the export button its click
    listener: each when the element is there and not yet marked as
    initialized, marking it; an element that is marked, also by the markup,
    is left as it is, and so is every other element.  Hence the second and
    later calls change nothing, and a click scans, submits or exports
    once. *)
Theorem listeners_registered_once :
  registers models_initEventListeners "scan-models" "click" Call_scanModels
  ∧ registers evaluation_initForms "single-evaluation-form" "submit"
      Call_submitSingleEvaluation
  ∧ registers evaluation_initForms "batch-evaluation-form" "submit"
      Call_submitBatchEvaluation
  ∧ registers records_initEventListeners "search-input" "input"
      (Debounced_searchRecords 500)
  ∧ registers records_initEventListeners "model-type-filter" "change" Call_filterRecords
  ∧ registers records_initEventListeners "export-records" "click" Call_exportRecords
  ∧ touches_only models_initEventListeners ["scan-models"]
  ∧ touches_only evaluation_initForms ["single-evaluation-form"; "batch-evaluation-form"]
  ∧ touches_only records_initEventListeners
      ["search-input"; "model-type-filter"; "export-records"]
  ∧ (∀ (doc : gmap string Target) (n : nat),
       Nat.iter (S n) models_initEventListeners doc = models_initEventListeners doc
       ∧ Nat.iter (S n) evaluation_initForms doc = evaluation_initForms doc
       ∧ Nat.iter (S n) records_initEventListeners doc = records_initEventListeners doc)
  ∧ (∀ doc : gmap string Target,
       initialized_at "scan-models" doc → models_initEventListeners doc = doc)
  ∧ (∀ (doc : gmap string Target) (id : string),
       handlers_of id (models_initEventListeners doc) = handlers_of id doc
       ∨ (id = "scan-models"
          ∧ handlers_of id (models_initEventListeners doc)
            = handlers_of id doc ++ [("click", Call_scanModels)])).
Proof.
  unfold models_initEventListeners, evaluation_initForms, records_initEventListeners.
  repeat match goal with |- registers _ _ _ _ ∧ _ => split; [registers_tac|] end.
  repeat match goal with
         | |- touches_only _ _ ∧ _ =>
             split; [intros doc id Hid; rewrite !register_lookup_other; [done|..];
                     intros ->; apply Hid; set_solver|]
         end.
  split; [|split].
  - intros doc n. repeat split.
    + induction n as [|n IH]; [done|]. rewrite Nat.iter_succ, IH.
      apply register_fixed, register_establishes.
    + induction n as [|n IH]; [done|]. rewrite Nat.iter_succ, IH.
      rewrite (register_fixed "single-evaluation-form")
        by apply register_preserves, register_establishes.
      apply register_fixed, register_establishes.
    + induction n as [|n IH]; [done|]. rewrite Nat.iter_succ, IH.
      rewrite (register_fixed "search-input")
        by apply register_preserves, register_preserves, register_establishes.
      rewrite (register_fixed "model-type-filter")
        by apply register_preserves, register_establishes.
      apply register_fixed, register_establishes.
  - intros doc. apply register_fixed.
  - intros doc id. apply register_handlers.
Qed.
End Listeners.

(** *** The further properties on the sample pages *)

#[local] Existing Instance Sample.host.

(** Discharges what a property asks of a sample page. *)
Ltac on_sample :=
  first [ by vm_compute
        | by vm_compute; eexists
        | by exists 200%nat, "OK"
        | by vm_compute; left
        | by vm_compute; right ].

Lemma apiRequest_failure_witness :
  outcome (utils.apiRequest "/api/models" no_options)
    (Scenario.page_of [] Scenario.unavailable) initial
  = Throw (Error "HTTP 503: Service Unavailable").
Proof.
  refine (proj1 (apiRequest_failure "/api/models" no_options
                   (Scenario.page_of [] Scenario.unavailable) initial
                   (Error "HTTP 503: Service Unavailable") _ _)); on_sample.
Defined.

Lemma loading_indicator_balanced_witness :
  around_loading initial (run models.loadModels (Scenario.page_of [] Scenario.offline) initial).
Proof.
  refine (proj1 (loading_indicator_balanced (Scenario.page_of [] Scenario.offline) initial _));
    on_sample.
Defined.

Lemma submission_request_failure_witness :
  trace (run evaluation.submitSingleEvaluation (Scenario.page_of [] Scenario.offline) initial)
  = submission_failed "/api/evaluation/single"
      (evaluation.single_body "/models/a" "ds1" JNull) "提交单模型测评失败:"
      (TypeError "Failed to fetch").
Proof.
  refine (proj1 submission_request_failure (Scenario.page_of [] Scenario.offline) initial
            "/models/a" "ds1" "" JNull (TypeError "Failed to fetch") _ _ _ _ _ _ _);
    on_sample.
Defined.

Lemma submitBatchEvaluation_needs_dataset_witness :
  requests (trace (run evaluation.submitBatchEvaluation Scenario.no_dataset initial)) = [].
Proof.
  refine (proj1 (submitBatchEvaluation_needs_dataset Scenario.no_dataset initial
                   ["/models/a"] "nightly" true _ _)); on_sample.
Defined.

Lemma failed_load_announced_twice_witness :
  trace (run datasets.loadDatasets (Scenario.page_of [] Scenario.offline) initial)
  = load_failed_twice "/api/datasets" "加载数据集数据失败:" "加载数据集数据失败"
      (TypeError "Failed to fetch").
Proof.
  refine (proj1 (proj2 (proj2 (failed_load_announced_twice
                                 (Scenario.page_of [] Scenario.offline) initial
                                 (TypeError "Failed to fetch") _))) _); on_sample.
Defined.

Lemma failed_load_leaves_page_witness :
  trace (run evaluation.loadTaskProgress (Scenario.page_of [] Scenario.unavailable) initial)
  = load_failed "/api/evaluation/tasks" "加载任务进度失败:"
      (Error "HTTP 503: Service Unavailable").
Proof.
  refine (proj1 (failed_load_leaves_page (Scenario.page_of [] Scenario.unavailable) initial
                   (Error "HTTP 503: Service Unavailable") _) _); on_sample.
Defined.

Lemma loadStats_all_or_nothing_witness :
  only no_text initial (run dashboard.loadStats (Scenario.page_of [] Scenario.records_down) initial).
Proof.
  refine (loadStats_all_or_nothing (Scenario.page_of [] Scenario.records_down) initial 2
            (GET "/api/records?limit=100") (Error "HTTP 500: Internal Server Error") _ _);
    on_sample.
Defined.

Lemma empty_lists_show_placeholder_witness :
  trace (run evaluation.loadTaskProgress
           (Scenario.page_of [] (Scenario.answering (JObj [("data", JArr [])]))) initial)
  = loaded "/api/evaluation/tasks" "task-progress" "<p>暂无测评任务</p>".
Proof.
  refine (proj1 (empty_lists_show_placeholder
                   (Scenario.page_of [] (Scenario.answering (JObj [("data", JArr [])]))) initial
                   (JObj [("data", JArr [])]) (JArr []) _ _) _ _); on_sample.
Defined.

Lemma loadGPUStatus_without_devices_witness :
  trace (run monitoring.loadGPUStatus
           (Scenario.page_of [] (Scenario.answering Sample.no_gpu)) initial)
  = loaded "/api/monitoring/gpu/status" "gpu-status" "".
Proof.
  refine (proj1 (proj2 (loadGPUStatus_without_devices
                          (Scenario.page_of [] (Scenario.answering Sample.no_gpu)) initial
                          Sample.no_gpu (JObj [("gpus", JArr [])]) _ _ _)) _); on_sample.
Defined.

Lemma loadNvidiaSMI_output_witness :
  trace (run monitoring.loadNvidiaSMI
           (Scenario.page_of [] (Scenario.answering (JObj [("data", JObj [])]))) initial)
  = smi_shown "无法获取nvidia-smi输出".
Proof.
  refine (proj1 (loadNvidiaSMI_output
                   (Scenario.page_of [] (Scenario.answering (JObj [("data", JObj [])]))) initial
                   (JObj [("data", JObj [])]) (JObj []) JUndefined _ _ _ _) _); on_sample.
Defined.

Lemma loadSystemInfo_shows_witness :
  trace (run monitoring.loadSystemInfo
           (Scenario.page_of [] (Scenario.answering (JObj [("data", JNull)]))) initial)
  = not_rendered "/api/monitoring/system/info" "加载系统信息失败:".
Proof.
  refine (proj2 (loadSystemInfo_shows
                   (Scenario.page_of [] (Scenario.answering (JObj [("data", JNull)]))) initial
                   (JObj [("data", JNull)]) JNull _ _ _) _); on_sample.
Defined.

Lemma viewRecord_opens_modal_witness :
  trace (run (records.viewRecord Sample.stringify (JNum 7%float))
           (Scenario.page_of [] (Scenario.answering (JObj []))) initial)
  = record_not_viewed "7".
Proof.
  refine (proj2 (viewRecord_opens_modal Sample.stringify
                   (Scenario.page_of [] (Scenario.answering (JObj []))) initial
                   (JNum 7%float) (JObj []) JUndefined "7" _ _ _) _ _); on_sample.
Defined.

Lemma addToExcellent_asks_on_cancel_witness :
  requests (trace (run (records.addToExcellent (JNum 7%float))
                     (Scenario.page_of [] Scenario.offline) initial))
  = [POST "/api/records/7/excellent"
       (Sample.stringify (JObj [("reason", JNull); ("category", JStr "general")]))].
Proof.
  refine (proj2 (addToExcellent_asks_on_cancel (Scenario.page_of [] Scenario.offline) initial
                   (JNum 7%float) "7" _) _); on_sample.
Defined.

Lemma addToExcellent_accepted_witness :
  trace (run (records.addToExcellent (JNum 7%float))
           (Scenario.page_of [] (Scenario.answering (JObj [("success", JBool true)]))) initial)
  = promotion_accepted "7" None.
Proof.
  refine (proj1 (addToExcellent_accepted
                   (Scenario.page_of [] (Scenario.answering (JObj [("success", JBool true)])))
                   initial (JNum 7%float) (JObj [("success", JBool true)]) "7" _ _ _ _));
    on_sample.
Defined.

Lemma formatters_need_numbers_witness :
  utils.formatExecutionTime (JBool true) = Throw (TypeError "toFixed is not a function").
Proof.
  refine (proj1 (formatters_need_numbers (JBool true) 1%float _ _ _) _); on_sample.
Defined.

Lemma loadRecords_whole_or_nothing_witness :
  trace (run (records.loadRecords 1 50)
           (Scenario.page_of []
              (Scenario.answering (JObj [("data", JArr [Scenario.record])]))) initial)
  = records_failed 1 50.
Proof.
  refine (proj1 (loadRecords_whole_or_nothing
                   (Scenario.page_of []
                      (Scenario.answering (JObj [("data", JArr [Scenario.record])])))
                   initial 1 50 (JObj [("data", JArr [Scenario.record])])
                   (JArr [Scenario.record]) _ _ _ _)
            [Scenario.record] Scenario.record (JBool true) 1%float _ _ _ _ _ _ _);
    first [ on_sample | by apply list_elem_of_singleton ].
Defined.

Lemma falsy_score_shown_as_missing_witness :
  ∃ html,
    dashboard.activity_item
      (JObj [("score", JNum 0%float); ("model_name", JStr "a"); ("dataset_name", JStr "ds1");
             ("model_type", JStr "chat")])
    = Normal html.
Proof.
  eexists.
  refine (proj1 (falsy_score_shown_as_missing Sample.stringify)
            (JObj [("score", JNum 0%float); ("model_name", JStr "a");
                   ("dataset_name", JStr "ds1"); ("model_type", JStr "chat")])
            (JNum 0%float) "a" "ds1" "chat" "-" _ _ _ _ _ _); on_sample.
Defined.

Lemma match_percent_reads_witness :
  monitoring.match_percent "利用率: 37.5%" = Some "5".
Proof.
  refine (proj1 (proj2 (match_percent_reads "利用率: " "" _)) "37" "5" _ _ _); on_sample.
Defined.

Lemma chart_sliding_window_witness :
  monitoring_gpuChart
    (after ((Scenario.page_of [] Scenario.offline, Do_initChart)
            :: ((λ p, (p, Do_updateChart)) <$> Scenario.ticks)) initial)
  = Some (mkChart (pretty <$> seq 5 20) ((λ n, JNum (float_of_nat n)) <$> seq 5 20)).
Proof.
  refine (eq_trans (chart_sliding_window (Scenario.page_of [] Scenario.offline) Scenario.ticks
                      initial _) _); on_sample.
Defined.

Lemma loading_element_needed_witness :
  requests (trace (run models.loadModels Scenario.no_indicator initial)) = []
  ∧ outcome models.loadModels Scenario.no_indicator initial
    = Throw (TypeError "Cannot read properties of null").
Proof.
  refine (proj1 (loading_element_needed Scenario.no_indicator initial _)); on_sample.
Defined.

(** Three keystrokes in the search box, after an earlier search that ran:
    the timer of the last one is the only one that can fire. *)
Lemma debounce_runs_last_call_witness :
  let typed := [debounce.Called "l"; debounce.Fired 0; debounce.Called "ll";
                debounce.Called "lla"; debounce.Called "llam"] in
  ∃ id, debounce.timers (debounce.run typed debounce.created).2 = [(id, "llam")]
        ∧ debounce.later (S id) (debounce.run typed debounce.created).2
          = (None, (debounce.run typed debounce.created).2).
Proof.
  destruct (debounce_runs_last_call [debounce.Called "l"; debounce.Fired 0] ["ll"; "lla"]
              "llam") as (id & Htimers & _ & _ & Hothers).
  exists id. split; [exact Htimers|]. apply Hothers. lia.
Defined.

(** A scan button that is there and not marked gets its listener and the
    mark. *)
Lemma listeners_registered_once_witness :
  listeners.models_initEventListeners {["scan-models" := listeners.mkTarget None []]}
    !! "scan-models"
  = Some (listeners.mkTarget (Some "true") [("click", listeners.Call_scanModels)])
  ∧ listeners.models_initEventListeners {["scan-models" := listeners.mkTarget None []]}
      !! "modal"
    = None.
Proof.
  split.
  - exact (proj1 listeners_registered_once {["scan-models" := listeners.mkTarget None []]}).
  - refine (proj1 (proj2 (proj2 (proj2 (proj2 (proj2 (proj2 listeners_registered_once))))))
              {["scan-models" := listeners.mkTarget None []]} "modal" _).
    intros Hin%list_elem_of_singleton. discriminate.
Defined.
